(** * Lifecycle controllers of the Payara VS Code plugin

    A shallow embedding of
    - [PayaraMicroInstanceController] (micro/PayaraMicroInstanceController.ts),
    - the [Maven] build (project/Maven.ts),
    - the lifecycle and deployment part of [PayaraInstanceController],
    with stateful code written in a state / exception / trace monad.  The
    callbacks that the code hands to child processes, REST calls and probes
    are kept as the closures they are in the source: a tag for the function
    and the variables it captures. *)

From Stdlib Require Import String Ascii List ZArith Bool Lia DecimalString.
Import ListNotations.
Open Scope string_scope.
Open Scope Z_scope.

(** ** JavaScript string primitives used by the controllers *)

Module JS.

(** [hay.indexOf(needle)]: first position where [needle] starts, or -1. *)
Fixpoint indexOf_from (i : Z) (hay needle : string) : Z :=
  if String.prefix needle hay then i
  else match hay with
       | EmptyString => -1
       | String _ rest => indexOf_from (i + 1) rest needle
       end.

Definition indexOf (hay needle : string) : Z := indexOf_from 0 hay needle.

Fixpoint drop (n : nat) (s : string) : string :=
  match n, s with
  | O, _ => s
  | S _, EmptyString => EmptyString
  | S n', String _ rest => drop n' rest
  end.

(** [s.substring(start)]: a negative start counts as 0, a start past the
    end gives the empty string. *)
Definition substring (s : string) (start : Z) : string :=
  drop (Z.to_nat (Z.max 0 start)) s.

(** [s.split(sep)] for a one-character separator. *)
Fixpoint split (sep : ascii) (s : string) : list string :=
  match s with
  | EmptyString => [EmptyString]
  | String c rest =>
      if Ascii.eqb c sep then EmptyString :: split sep rest
      else match split sep rest with
           | [] => [String c EmptyString]
           | line :: lines => String c line :: lines
           end
  end.

(** [_.isEmpty] on a string. *)
Definition isEmpty (s : string) : bool :=
  match s with EmptyString => true | _ => false end.

(** Truthiness of a [string | undefined]: undefined and the empty string
    are both falsy. *)
Definition truthy (s : option string) : bool :=
  match s with
  | Some v => negb (isEmpty v)
  | None => false
  end.

(** [s.charAt(s.length - 1)]: the empty string when [s] is empty. *)
Fixpoint lastChar (s : string) : string :=
  match s with
  | EmptyString => EmptyString
  | String c EmptyString => String c EmptyString
  | String _ rest => lastChar rest
  end.

(** [arr.join(sep)]. *)
Fixpoint join (sep : string) (l : list string) : string :=
  match l with
  | [] => EmptyString
  | [x] => x
  | x :: rest => x ++ sep ++ join sep rest
  end.

(** [s.endsWith(suffix)]. *)
Definition endsWith (s suffix : string) : bool :=
  let n := String.length s in
  let m := String.length suffix in
  if Nat.leb m n then String.eqb (drop (n - m) s) suffix else false.

(** A number inside a template literal, for the integers below 10^21 in
    absolute value, which print with all their digits (an exit code is
    one of them). *)
Definition ofNumber (z : Z) : string := NilZero.string_of_int (Z.to_int z).

Definition LF : ascii := Ascii.ascii_of_nat 10.
Definition nl : string := String LF EmptyString.

End JS.

(** [s] has an occurrence of [needle]. *)
Definition occurs (needle s : string) : Prop :=
  exists pre post, s = pre ++ needle ++ post.

(** ** Effects visible outside the controller *)

Inductive Effect : Type :=
| ShowErrorMessage (message : string)      (* vscode.window.showErrorMessage *)
| ShowWarningMessage (message : string)    (* vscode.window.showWarningMessage *)
| ConsoleWarn (message : string)
| ConsoleError (message : string)
| ConsoleLog (message : string)
| Spawn (exe : string) (args : list string) (* cp.spawn *)
| StartTaskSpawn (debug : bool)             (* new StartTask().startServer *)
| OutputShow                                (* outputChannel.show(false) *)
| OutputAppend (text : string)
| ConnectOutput
| DisconnectOutput
| StartDebugging                            (* vscode.debug.startDebugging *)
| Open (url : string)                       (* open(homePage) *)
| Refresh                                   (* observers notified / list refreshed *)
| Invoke (endpoint : string)                (* RestEndpoints.invoke *)
| CheckAliveUsingRest
| CheckAliveUsingJPS
| ReloadApplications
| Sleep (ms : Z)
| DeployApplication (fsPath : string)
| BuildAndDeployApplication (fsPath : string).

Definition isSpawn (e : Effect) : bool :=
  match e with Spawn _ _ | StartTaskSpawn _ => true | _ => false end.

Definition isUserMessage (e : Effect) : bool :=
  match e with
  | ShowErrorMessage _ | ShowWarningMessage _ => true
  | _ => false
  end.

Definition isUpload (e : Effect) : bool :=
  match e with
  | DeployApplication _ | BuildAndDeployApplication _ => true
  | _ => false
  end.

Definition isRefresh (e : Effect) : bool :=
  match e with Refresh => true | _ => false end.

(** ** Instance state *)

Inductive InstanceState : Type := STOPPED | LODING | RUNNING | RESTARTING.

Definition InstanceState_eqb (a b : InstanceState) : bool :=
  match a, b with
  | STOPPED, STOPPED | LODING, LODING | RUNNING, RUNNING
  | RESTARTING, RESTARTING => true
  | _, _ => false
  end.

(** A [ChildProcess], as far as the controllers look at it: its pid, which
    is undefined when the process could not be created. *)
Record ChildProcess : Type := { pid : option Z }.

(** A [DebugConfiguration], as far as the build looks at it. *)
Record DebugConfiguration : Type := { port : string }.

(** ** The monad of the controllers: state, exceptions, effect trace

    A JavaScript exception keeps every mutation made before it was thrown,
    so a computation that throws still returns the world it reached. *)

Inductive Outcome (A : Type) : Type :=
| Return (a : A)
| Throw (message : string).
Arguments Return {A} a.
Arguments Throw {A} message.

Section Monad.
Context {W : Type}.

Definition M (A : Type) : Type := W -> Outcome A * W.

Definition ret {A} (a : A) : M A := fun w => (Return a, w).

Definition bind {A B} (m : M A) (k : A -> M B) : M B :=
  fun w =>
    match m w with
    | (Return a, w') => k a w'
    | (Throw e, w') => (Throw e, w')
    end.

Definition throw {A} (message : string) : M A := fun w => (Throw message, w).

Definition get : M W := fun w => (Return w, w).
Definition modify (f : W -> W) : M unit := fun w => (Return tt, f w).

Definition when (b : bool) (m : M unit) : M unit := if b then m else ret tt.
End Monad.
Arguments M W A : clear implicits.

Declare Scope js_scope.
Delimit Scope js_scope with js.
Notation "x <- m ;; k" := (bind m (fun x => k))
  (at level 61, m at next level, right associativity) : js_scope.
Notation "m ;; k" := (bind m (fun _ => k))
  (at level 61, right associativity) : js_scope.
Open Scope js_scope.

(** ** What the code reads from its surroundings

    Configuration, environment variables, the file system, the build
    descriptor and the result of [cp.spawn] are inputs of the controllers. *)

(** [MicroPluginReader]: the two switches of the payara-micro-maven-plugin
    configuration that the build consults. *)
Record MicroPluginReader : Type := {
  isDeployWarEnabled : bool;
  isUberJarEnabled : bool
}.

(** The constants of [PayaraMicroMavenPlugin]. *)
Record PayaraMicroMavenPlugin : Type := {
  GROUP_ID : string;
  ARTIFACT_ID : string;
  START_GOAL : string;
  RELOAD_GOAL : string;
  STOP_GOAL : string;
  BUNDLE_GOAL : string
}.

Record Host : Type := {
  config_maven_home : option string;    (* config.get('maven.home') *)
  env_M2_HOME : option string;          (* process.env.M2_HOME *)
  env_MAVEN_HOME : option string;       (* process.env.MAVEN_HOME *)
  path_sep : string;                    (* path.sep *)
  IS_WIN : bool;                        (* JavaUtils.IS_WIN *)
  existsSync : string -> bool;          (* fs.existsSync *)
  workspaceFolder : option string;      (* this.workspaceFolder.uri.fsPath *)
  microPluginReader : option MicroPluginReader;
  plugin : PayaraMicroMavenPlugin;
  spawn : string -> list string -> ChildProcess;   (* cp.spawn *)
  getWorkspaceFolder : bool;            (* vscode.workspace.getWorkspaceFolder(path) is defined *)
  getPayaraMicroDebugConfig : option DebugConfiguration;
  createDebugConfiguration : DebugConfiguration
}.

(** ** Payara Micro *)

(** Modelled from the spec: the class [PayaraMicroInstance] is not part of
    the sources at hand.  Section 3 of the specification gives an instance a
    mutable state, a debug-mode flag, an optional home page and a handle to
    the running process. *)
Record PayaraMicroInstance : Type := {
  micro_state : InstanceState;
  micro_debug : bool;
  micro_homePage : option string;
  micro_process : option ChildProcess
}.

(** The Maven invocations whose callbacks the controller supplies. *)
Inductive Task : Type :=
| StartMicroTask | ReloadMicroTask | StopMicroTask | BundleMicroTask.

Definition Task_eqb (a b : Task) : bool :=
  match a, b with
  | StartMicroTask, StartMicroTask | ReloadMicroTask, ReloadMicroTask
  | StopMicroTask, StopMicroTask | BundleMicroTask, BundleMicroTask => true
  | _, _ => false
  end.

Inductive ProcessEvent : Type :=
| OnData (chunk : string)       (* stdout / stderr 'data' *)
| OnExit (code : Z)             (* 'exit' *)
| OnError (message : string).   (* 'error' *)

Record MicroWorld : Type := {
  payaraMicro : PayaraMicroInstance;
  debugConfig : option DebugConfiguration;  (* the [let debugConfig] captured by the data callback of the latest start *)
  listening : list Task;                    (* processes whose listeners are attached *)
  trace : list Effect
}.

Module Micro.

Definition MM := M MicroWorld.

Definition emit (e : Effect) : MM unit :=
  modify (fun w => {| payaraMicro := payaraMicro w; debugConfig := debugConfig w;
                      listening := listening w; trace := trace w ++ [e] |}).

Definition updInstance (f : PayaraMicroInstance -> PayaraMicroInstance) : MM unit :=
  modify (fun w => {| payaraMicro := f (payaraMicro w); debugConfig := debugConfig w;
                      listening := listening w; trace := trace w |}).

Definition setDebugConfig (c : option DebugConfiguration) : MM unit :=
  modify (fun w => {| payaraMicro := payaraMicro w; debugConfig := c;
                      listening := listening w; trace := trace w |}).

Definition attach (t : Task) : MM unit :=
  modify (fun w => {| payaraMicro := payaraMicro w; debugConfig := debugConfig w;
                      listening := t :: listening w; trace := trace w |}).

(** The world [w] with [es] added to what has been observed. *)
Definition says (w : MicroWorld) (es : list Effect) : MicroWorld :=
  {| payaraMicro := payaraMicro w; debugConfig := debugConfig w;
     listening := listening w; trace := trace w ++ es |}.

Definition getInstance : MM PayaraMicroInstance :=
  w <- get ;; ret (payaraMicro w).

(** Modelled from the spec: the accessors of [PayaraMicroInstance].
    [isStopped] and [isStarted] test the state against STOPPED and RUNNING
    (section 8: after a successful start the state is exactly RUNNING and
    [isStopped()] is false); the setters store their argument; [setState]
    also notifies the observers (section 4.4: every transition refreshes
    the UI). *)
Definition isStopped : MM bool :=
  i <- getInstance ;; ret (InstanceState_eqb (micro_state i) STOPPED).

(** Modelled from the spec: [isStarted], the state is RUNNING. *)
Definition isStarted : MM bool :=
  i <- getInstance ;; ret (InstanceState_eqb (micro_state i) RUNNING).

(** Modelled from the spec: [setState] stores the state and notifies the
    observers. *)
Definition setState (st : InstanceState) : MM unit :=
  updInstance (fun i => {| micro_state := st; micro_debug := micro_debug i;
                           micro_homePage := micro_homePage i;
                           micro_process := micro_process i |}) ;;
  emit Refresh.

(** Modelled from the spec: [setDebug] stores the debug-mode flag. *)
Definition setDebug (d : bool) : MM unit :=
  updInstance (fun i => {| micro_state := micro_state i; micro_debug := d;
                           micro_homePage := micro_homePage i;
                           micro_process := micro_process i |}).

(** Modelled from the spec: [setHomePage] stores the home page it is
    given. *)
Definition setHomePage (h : string) : MM unit :=
  updInstance (fun i => {| micro_state := micro_state i; micro_debug := micro_debug i;
                           micro_homePage := Some h;
                           micro_process := micro_process i |}).

(** Modelled from the spec: [getHomePage] reads the stored home page. *)
Definition getHomePage : MM (option string) :=
  i <- getInstance ;; ret (micro_homePage i).

(** Modelled from the spec: [setProcess] stores the process handle. *)
Definition setProcess (p : ChildProcess) : MM unit :=
  updInstance (fun i => {| micro_state := micro_state i; micro_debug := micro_debug i;
                           micro_homePage := micro_homePage i;
                           micro_process := Some p |}).

End Micro.

(** ** Maven.ts *)

Module Maven.
Import Micro.

Section Build.
Variable host : Host.

(** [getDefaultHome]: the configured home, else M2_HOME, else MAVEN_HOME. *)
Definition getDefaultHome : option string :=
  let mavenHome := config_maven_home host in
  if negb (JS.truthy mavenHome) then
    let mavenHome := env_M2_HOME host in
    if negb (JS.truthy mavenHome) then env_MAVEN_HOME host else mavenHome
  else mavenHome.

Definition getExecutableFullPath (mavenHome : string) : string :=
  let mavenHomeEndsWithPathSep := String.eqb (JS.lastChar mavenHome) (path_sep host) in
  let mavenExecStr := mavenHome in
  let mavenExecStr :=
    if negb mavenHomeEndsWithPathSep then mavenExecStr ++ path_sep host
    else mavenExecStr in
  let mavenExecStr := mavenExecStr ++ "bin" ++ path_sep host ++ "mvn" in
  if IS_WIN host then
    if existsSync host (mavenExecStr ++ ".bat") then mavenExecStr ++ ".bat"
    else if existsSync host (mavenExecStr ++ ".cmd") then mavenExecStr ++ ".cmd"
    else mavenExecStr
  else mavenExecStr.

(** [fireCommand]: the three callbacks are the ones the caller supplies for
    [task]; they are attached only when the spawned process has a pid. *)
Definition fireCommand (command : list string) (task : Task) : MM ChildProcess :=
  let mavenHome := getDefaultHome in
  match mavenHome with
  | Some home =>
      if JS.isEmpty home then throw "Maven home path not found."
      else
        let mavenExe := getExecutableFullPath home in
        if negb (existsSync host mavenExe) then
          throw ("Maven executable [" ++ mavenExe ++ "] not found")
        else
          match workspaceFolder host with
          | None => throw "WorkSpace path not found."
          | Some _ =>
              let process := spawn host mavenExe command in
              emit (Spawn mavenExe command) ;;
              match pid process with
              | Some _ =>
                  emit OutputShow ;;
                  emit (OutputAppend ("> " ++ mavenExe ++ " " ++ JS.join " " command ++ JS.nl)) ;;
                  attach task
              | None => ret tt
              end ;;
              ret process
          end
  | None => throw "Maven home path not found."
  end.

Definition getMicroPluginReader : MM MicroPluginReader :=
  match microPluginReader host with
  | Some r => ret r
  | None => throw "Pom reader not initilized yet"
  end.

Definition goal (g : PayaraMicroMavenPlugin -> string) : string :=
  GROUP_ID (plugin host) ++ ":" ++ ARTIFACT_ID (plugin host) ++ ":" ++ g (plugin host).

(** Every call of [this.getMicroPluginReader()] in one invocation returns
    the same reader, or the first one throws. *)
Definition startPayaraMicro (debugConfig : option DebugConfiguration) (task : Task)
  : MM (option ChildProcess) :=
  r <- getMicroPluginReader ;;
  if Bool.eqb (isDeployWarEnabled r) false && Bool.eqb (isUberJarEnabled r) false then
    emit (ShowWarningMessage "Please either enable the deployWar or useUberJar option in payara-micro-maven-plugin configuration to deploy the application.") ;;
    ret None
  else
    let cmds :=
      if isUberJarEnabled r then
        ["install"; goal BUNDLE_GOAL; goal START_GOAL]
      else
        ["resources:resources"; "compiler:compile"; "war:exploded";
         goal START_GOAL; "-Dexploded=true"; "-DdeployWar=true"] in
    let cmds :=
      match debugConfig with
      | Some c =>
          app cmds ["-Ddebug=-agentlib:jdwp=transport=dt_socket,server=y,suspend=y,address=" ++ port c]
      | None => cmds
      end in
    p <- fireCommand cmds task ;;
    ret (Some p).

Definition reloadPayaraMicro (task : Task) : MM (option ChildProcess) :=
  r <- getMicroPluginReader ;;
  if isUberJarEnabled r then
    emit (ShowWarningMessage "The reload action not supported for UberJar artifact.") ;;
    ret None
  else
    p <- fireCommand ["resources:resources"; "compiler:compile"; "war:exploded";
                      goal RELOAD_GOAL] task ;;
    ret (Some p).

Definition stopPayaraMicro (task : Task) : MM (option ChildProcess) :=
  p <- fireCommand [goal STOP_GOAL] task ;;
  ret (Some p).

Definition bundlePayaraMicro (task : Task) : MM (option ChildProcess) :=
  let cmds := ["install"; goal BUNDLE_GOAL] in
  p <- fireCommand cmds task ;;
  ret (Some p).

End Build.
End Maven.

(** ** PayaraMicroInstanceController.ts *)

Module MicroController.
Import Micro.

Section Controller.
Variable host : Host.

Definition parseApplicationUrl (data : string) : MM bool :=
  let urlIndex := JS.indexOf data "Payara Micro URLs:" in
  if urlIndex >? -1 then
    let lines := JS.split JS.LF (JS.substring data urlIndex) in
    (if (Z.of_nat (length lines) >? 1)
     then match nth_error lines 1 with
          | Some line => setHomePage line
          | None => ret tt
          end
     else ret tt) ;;
    homePage <- getHomePage ;;
    match homePage with
    | Some h => when (negb (JS.isEmpty h)) (emit (Open h))
    | None => ret tt
    end ;;
    ret true
  else ret false.

(** The data, exit and error callbacks that [startMicro] passes to
    [startPayaraMicro]. *)
Definition startMicro_data (data : string) : MM unit :=
  started <- isStarted ;;
  if negb started then
    w <- get ;;
    match debugConfig w with
    | Some _ =>
        when (JS.indexOf data "Listening for transport dt_socket at address:" >? -1)
             (emit StartDebugging ;; setDebugConfig None)
    | None => ret tt
    end ;;
    found <- parseApplicationUrl data ;;
    when found (setState RUNNING)
  else ret tt.

Definition startMicro_exit (code : Z) : MM unit :=
  setState STOPPED ;;
  when (negb (code =? 0))
       (emit (ConsoleWarn ("startMicro task failed with exit code " ++ JS.ofNumber code))).

Definition startMicro_error (message : string) : MM unit :=
  emit (ConsoleError ("Error on executing startMicro task: " ++ message)) ;;
  setState STOPPED.

(** [startMicro]; its optional [callback] parameter is not used by the
    body and is left out. *)
Definition startMicro (debug : bool) : MM unit :=
  stopped <- isStopped ;;
  if negb stopped then
    emit (ShowErrorMessage "Payara Micro instance already running.")
  else
    let workspaceFolder := getWorkspaceFolder host in
    let debugConfig :=
      if debug && workspaceFolder then
        match getPayaraMicroDebugConfig host with
        | Some c => Some c
        | None => Some (createDebugConfiguration host)
        end
      else None in
    setDebugConfig debugConfig ;;
    setDebug debug ;;
    setState LODING ;;
    process <- Maven.startPayaraMicro host debugConfig StartMicroTask ;;
    match process with
    | Some p => setProcess p
    | None => setState STOPPED
    end.

Definition reloadMicro_exit (code : Z) : MM unit :=
  setState RUNNING ;;
  when (negb (code =? 0))
       (emit (ConsoleWarn ("reloadMicro task failed with exit code " ++ JS.ofNumber code))).

Definition reloadMicro_error (message : string) : MM unit :=
  emit (ConsoleError ("Error on executing reloadMicro task: " ++ message)) ;;
  setState RUNNING.

Definition reloadMicro : MM unit :=
  stopped <- isStopped ;;
  if stopped then
    emit (ShowErrorMessage "Payara Micro instance not running.")
  else
    setState LODING ;;
    process <- Maven.reloadPayaraMicro host ReloadMicroTask ;;
    match process with
    | Some _ => ret tt
    | None => setState RUNNING
    end.

Definition stopMicro_exit (code : Z) : MM unit :=
  setDebug false ;;
  setState STOPPED ;;
  when (negb (code =? 0))
       (emit (ConsoleWarn ("stopMicro task failed with exit code " ++ JS.ofNumber code))).

Definition stopMicro_error (message : string) : MM unit :=
  emit (ConsoleError ("Error on executing stopMicro task: " ++ message)) ;;
  setDebug false ;;
  setState STOPPED.

Definition stopMicro : MM unit :=
  stopped <- isStopped ;;
  if stopped then
    emit (ShowErrorMessage "Payara Micro instance not running.")
  else
    _ <- Maven.stopPayaraMicro host StopMicroTask ;;
    ret tt.

Definition bundleMicro_exit (code : Z) : MM unit :=
  when (negb (code =? 0))
       (emit (ConsoleWarn ("bundleMicro task failed with exit code " ++ JS.ofNumber code))).

Definition bundleMicro_error (message : string) : MM unit :=
  emit (ConsoleError ("Error on executing bundleMicro task: " ++ message)).

Definition bundleMicro : MM unit :=
  _ <- Maven.bundlePayaraMicro host BundleMicroTask ;;
  ret tt.

(** The callbacks that each operation handed to [fireCommand]. *)
Definition dataCallback (t : Task) (data : string) : MM unit :=
  match t with
  | StartMicroTask => startMicro_data data
  | ReloadMicroTask | StopMicroTask | BundleMicroTask => ret tt
  end.

Definition exitCallback (t : Task) (code : Z) : MM unit :=
  match t with
  | StartMicroTask => startMicro_exit code
  | ReloadMicroTask => reloadMicro_exit code
  | StopMicroTask => stopMicro_exit code
  | BundleMicroTask => bundleMicro_exit code
  end.

Definition errorCallback (t : Task) (message : string) : MM unit :=
  match t with
  | StartMicroTask => startMicro_error message
  | ReloadMicroTask => reloadMicro_error message
  | StopMicroTask => stopMicro_error message
  | BundleMicroTask => bundleMicro_error message
  end.

(** An event of the process spawned for [t], as [fireCommand] wired it:
    nothing is attached unless the process had a pid; data goes through
    [logCallback], which copies it to the output channel first. *)
Definition processEvent (t : Task) (ev : ProcessEvent) : MM unit :=
  w <- get ;;
  if existsb (Task_eqb t) (listening w) then
    match ev with
    | OnData chunk => emit (OutputAppend chunk) ;; dataCallback t chunk
    | OnExit code => exitCallback t code
    | OnError message => errorCallback t message
    end
  else ret tt.

(** What can happen to a micro instance: a command of the user or an event
    of one of the spawned processes. *)
Inductive Action : Type :=
| StartMicro (debug : bool)
| ReloadMicro
| StopMicro
| BundleMicro
| Event (t : Task) (ev : ProcessEvent).

Definition perform (a : Action) : MM unit :=
  match a with
  | StartMicro debug => startMicro debug
  | ReloadMicro => reloadMicro
  | StopMicro => stopMicro
  | BundleMicro => bundleMicro
  | Event t ev => processEvent t ev
  end.

(** A run: an exception ends the command that threw it, not the extension
    host, so the run goes on from the world the exception left. *)
Fixpoint run (actions : list Action) (w : MicroWorld) : MicroWorld :=
  match actions with
  | [] => w
  | a :: rest => run rest (snd (perform a w))
  end.

(** The data callback of [startMicro] over the chunks of one stream. *)
Fixpoint feed (chunks : list string) (w : MicroWorld) : MicroWorld :=
  match chunks with
  | [] => w
  | c :: rest => feed rest (snd (startMicro_data c w))
  end.

End Controller.

(** How many times the observers of the instance were notified. *)
Definition notifications (w : MicroWorld) : nat :=
  length (filter isRefresh (trace w)).

Definition initial (i : PayaraMicroInstance) : MicroWorld :=
  {| payaraMicro := i; debugConfig := None; listening := []; trace := [] |}.

Definition stoppedInstance : PayaraMicroInstance :=
  {| micro_state := STOPPED; micro_debug := false;
     micro_homePage := None; micro_process := None |}.

End MicroController.

(** ** Payara Server *)

(** Modelled from the spec: the class [PayaraServerInstance] is not part of
    the sources at hand; section 3 of the specification gives it a mutable
    state and a debug-mode flag. *)
Record PayaraServerInstance : Type := {
  server_state : InstanceState;
  server_debug : bool
}.

(** The completion callback of [startServer] and [restartServer]; the only
    one the sources pass is the [deploy] closure of [deployApp], which
    captures the path of the artifact or project. *)
Inductive Callback : Type :=
| Deploy (fsPath : string).

(** The callbacks the server controller leaves with its collaborators,
    each with the variables it captures. *)
Inductive Listener : Type :=
| ProcessListeners                                  (* startServer: stdout, stderr, error, exit *)
| StartProbe (callback : option Callback)           (* startServer: checkAliveStatusUsingRest *)
| RestartResponse (debug : bool) (callback : option Callback)  (* restartServer: invoke *)
| RestartProbe (callback : option Callback)         (* restartServer: checkAliveStatusUsingRest *)
| RestartJPS                                        (* restartServer: checkAliveStatusUsingJPS *)
| StopResponse.                                     (* stopServer: invoke *)

Inductive ServerEvent : Type :=
| ProcessData (chunk : string)
| ProcessError (message : string)
| ProcessExit (code : Z)
| Alive                          (* a probe found the server *)
| Timeout                        (* a probe gave up *)
| Response (statusCode : Z).     (* the admin endpoint answered *)

Record ServerWorld : Type := {
  payaraServer : PayaraServerInstance;
  pending : list Listener;
  server_trace : list Effect
}.

(** How [deployApp] came by its server in [selectListedServer]. *)
Inductive Selection : Type :=
| NoServerRegistered     (* servers.length === 0 *)
| Selected               (* the only server, or the one picked *)
| NothingPicked.         (* the quick pick was dismissed *)

Module Server.

Definition SM := M ServerWorld.

Definition emit (e : Effect) : SM unit :=
  modify (fun w => {| payaraServer := payaraServer w; pending := pending w;
                      server_trace := server_trace w ++ [e] |}).

Definition updInstance (f : PayaraServerInstance -> PayaraServerInstance) : SM unit :=
  modify (fun w => {| payaraServer := f (payaraServer w); pending := pending w;
                      server_trace := server_trace w |}).

Definition register (l : Listener) : SM unit :=
  modify (fun w => {| payaraServer := payaraServer w; pending := pending w ++ [l];
                      server_trace := server_trace w |}).

(** The world [w] with [es] added to what has been observed. *)
Definition says (w : ServerWorld) (es : list Effect) : ServerWorld :=
  {| payaraServer := payaraServer w; pending := pending w;
     server_trace := server_trace w ++ es |}.

Definition getInstance : SM PayaraServerInstance :=
  w <- get ;; ret (payaraServer w).

(** Modelled from the spec: the accessors of [PayaraServerInstance].  The
    predicates compare the state with one constant; [setStarted] stores
    RUNNING or STOPPED (section 4.4: the exit of the process sets STOPPED,
    the probe confirms RUNNING). *)
Definition isStopped : SM bool :=
  i <- getInstance ;; ret (InstanceState_eqb (server_state i) STOPPED).

(** Modelled from the spec: [isStarted], the state is RUNNING. *)
Definition isStarted : SM bool :=
  i <- getInstance ;; ret (InstanceState_eqb (server_state i) RUNNING).

(** Modelled from the spec: [isRestarting], the state is RESTARTING. *)
Definition isRestarting : SM bool :=
  i <- getInstance ;; ret (InstanceState_eqb (server_state i) RESTARTING).

(** Modelled from the spec: [isDebug] reads the debug-mode flag. *)
Definition isDebug : SM bool :=
  i <- getInstance ;; ret (server_debug i).

(** Modelled from the spec: [setState] stores the state. *)
Definition setState (st : InstanceState) : SM unit :=
  updInstance (fun i => {| server_state := st; server_debug := server_debug i |}).

(** Modelled from the spec: [setStarted] stores RUNNING for true and
    STOPPED for false. *)
Definition setStarted (started : bool) : SM unit :=
  setState (if started then RUNNING else STOPPED).

(** Modelled from the spec: [setDebug] stores the debug-mode flag. *)
Definition setDebug (d : bool) : SM unit :=
  updInstance (fun i => {| server_state := server_state i; server_debug := d |}).

(** Modelled from the spec: [checkAliveStatusUsingRest],
    [checkAliveStatusUsingJPS] and [RestEndpoints.invoke] start a probe or a
    request and keep the callbacks for its outcome (sections 4.3 and 6). *)
Definition checkAliveStatusUsingRest (l : Listener) : SM unit :=
  emit CheckAliveUsingRest ;; register l.

(** Modelled from the spec: [checkAliveStatusUsingJPS], the process-table
    probe of section 4.3. *)
Definition checkAliveStatusUsingJPS (l : Listener) : SM unit :=
  emit CheckAliveUsingJPS ;; register l.

(** Modelled from the spec: [RestEndpoints.invoke], an admin call by
    endpoint name whose answer goes to the callback (section 6). *)
Definition invoke (endpoint : string) (l : Listener) : SM unit :=
  emit (Invoke endpoint) ;; register l.

(** [refreshServerList]: the command 'payara.server.refresh'. *)
Definition refreshServerList : SM unit := emit Refresh.

Section Controller.
(** [new StartTask().startServer(payaraServer, debug)]: the process it
    returns. *)
Variable startTask : bool -> ChildProcess.

(** The [deploy] closure of [deployApp]. *)
Definition deploy (fsPath : string) (status : bool) : SM unit :=
  if status then
    if JS.endsWith fsPath ".war" || JS.endsWith fsPath ".jar" then
      emit (DeployApplication fsPath)
    else
      emit (BuildAndDeployApplication fsPath)
  else
    emit (ShowErrorMessage "Unable to deploy the application as Payara Server instance not running.").

(** [if (callback) { callback(status); }] *)
Definition call (callback : option Callback) (status : bool) : SM unit :=
  match callback with
  | Some (Deploy fsPath) => deploy fsPath status
  | None => ret tt
  end.

Definition startServer_exit (code : Z) : SM unit :=
  restarting <- isRestarting ;;
  if negb restarting then
    setStarted false ;;
    refreshServerList
  else ret tt.

Definition startServer_alive (callback : option Callback) : SM unit :=
  setStarted true ;;
  refreshServerList ;;
  emit ReloadApplications ;;
  call callback true.

Definition startServer_timeout (callback : option Callback) : SM unit :=
  setStarted false ;;
  refreshServerList ;;
  call callback false ;;
  emit (ShowErrorMessage "Unable to start the Payara Server.").

Definition startServer (debug : bool) (callback : option Callback) : SM unit :=
  stopped <- isStopped ;;
  if negb stopped then
    emit (ShowErrorMessage "Payara Server instance already running.")
  else
    let process := startTask debug in
    emit (StartTaskSpawn debug) ;;
    match pid process with
    | Some _ =>
        setDebug debug ;;
        setState LODING ;;
        refreshServerList ;;
        emit OutputShow ;;
        register ProcessListeners ;;
        checkAliveStatusUsingRest (StartProbe callback)
    | None => ret tt
    end.

Definition restartServer_alive (callback : option Callback) : SM unit :=
  setStarted true ;;
  refreshServerList ;;
  emit ConnectOutput ;;
  call callback true.

Definition restartServer_timeout (callback : option Callback) : SM unit :=
  setStarted false ;;
  refreshServerList ;;
  call callback false ;;
  emit (ShowErrorMessage "Unable to restart the Payara Server.").

Definition restartServer_response (debug : bool) (callback : option Callback)
           (statusCode : Z) : SM unit :=
  if statusCode =? 200 then
    emit ConnectOutput ;;
    setDebug debug ;;
    setState RESTARTING ;;
    refreshServerList ;;
    emit OutputShow ;;
    checkAliveStatusUsingRest (RestartProbe callback) ;;
    checkAliveStatusUsingJPS RestartJPS
  else
    emit (ShowErrorMessage "Unable to restart the Payara Server.").

Definition restartServer (debug : bool) (callback : option Callback) : SM unit :=
  stopped <- isStopped ;;
  if stopped then
    emit (ShowErrorMessage "Payara Server instance not running.")
  else
    invoke "restart-domain" (RestartResponse debug callback).

Definition stopServer_response (statusCode : Z) : SM unit :=
  when (statusCode =? 200)
       (setState STOPPED ;;
        setDebug false ;;
        emit (Sleep 2000) ;;
        refreshServerList ;;
        emit DisconnectOutput).

Definition stopServer : SM unit :=
  stopped <- isStopped ;;
  if stopped then
    emit (ShowErrorMessage "Payara Server instance not running.")
  else
    invoke "stop-domain" StopResponse.

Definition deployApp (fsPath : string) (debug : bool) (sel : Selection) : SM unit :=
  match sel with
  | NoServerRegistered => emit (ShowErrorMessage "Please register the Payara Server.")
  | NothingPicked => emit (ShowErrorMessage "Please select the Payara Server.")
  | Selected =>
      started <- isStarted ;;
      if negb started then
        startServer debug (Some (Deploy fsPath))
      else
        isDbg <- isDebug ;;
        if debug && negb isDbg then
          restartServer debug (Some (Deploy fsPath))
        else
          deploy fsPath true
  end.

(** What a kept callback does when its collaborator reports [ev]. *)
Definition handle (l : Listener) (ev : ServerEvent) : SM unit :=
  match l, ev with
  | ProcessListeners, ProcessData chunk => emit (OutputAppend chunk)
  | ProcessListeners, ProcessError message => emit (ConsoleLog ("error: " ++ message))
  | ProcessListeners, ProcessExit code => startServer_exit code
  | StartProbe callback, Alive => startServer_alive callback
  | StartProbe callback, Timeout => startServer_timeout callback
  | RestartResponse debug callback, Response statusCode =>
      restartServer_response debug callback statusCode
  | RestartProbe callback, Alive => restartServer_alive callback
  | RestartProbe callback, Timeout => restartServer_timeout callback
  | RestartJPS, Alive => emit ConnectOutput
  | StopResponse, Response statusCode => stopServer_response statusCode
  | _, _ => ret tt
  end.

End Controller.

Definition initial (i : PayaraServerInstance) : ServerWorld :=
  {| payaraServer := i; pending := []; server_trace := [] |}.

End Server.

(** ** Surroundings in which Maven can be launched *)

(** [fireCommand] reaches [cp.spawn] and the process it gets has a pid: a
    Maven home is configured, the executable exists, the workspace folder
    is known.  [startPayaraMicro] gets as far as [fireCommand] when the
    project has a plugin configuration that enables deployWar or
    useUberJar. *)
Definition mavenAvailable (host : Host) : Prop :=
  exists home,
    Maven.getDefaultHome host = Some home /\
    JS.isEmpty home = false /\
    existsSync host (Maven.getExecutableFullPath host home) = true /\
    workspaceFolder host <> None /\
    forall args, pid (spawn host (Maven.getExecutableFullPath host home) args) <> None.

Definition deployable (host : Host) : Prop :=
  exists r,
    microPluginReader host = Some r /\
    (isDeployWarEnabled r = true \/ isUberJarEnabled r = true).

(** ** Sample surroundings and instances *)

Module Sample.

Definition reader : MicroPluginReader :=
  {| isDeployWarEnabled := true; isUberJarEnabled := false |}.

Definition mavenPlugin : PayaraMicroMavenPlugin :=
  {| GROUP_ID := "fish.payara.maven.plugins";
     ARTIFACT_ID := "payara-micro-maven-plugin";
     START_GOAL := "start"; RELOAD_GOAL := "reload";
     STOP_GOAL := "stop"; BUNDLE_GOAL := "bundle" |}.

(** A workstation with Maven installed under /opt/maven, where every
    spawn gives a live process. *)
Definition host : Host :=
  {| config_maven_home := Some "/opt/maven";
     env_M2_HOME := None; env_MAVEN_HOME := None;
     path_sep := "/"; IS_WIN := false;
     existsSync := fun _ => true;
     workspaceFolder := Some "/work/app";
     microPluginReader := Some reader;
     plugin := mavenPlugin;
     spawn := fun _ _ => {| pid := Some 4242 |};
     getWorkspaceFolder := true;
     getPayaraMicroDebugConfig := None;
     createDebugConfiguration := {| port := "5005" |} |}.

(** The same workstation with the [mvn] executable removed. *)
Definition hostWithoutMvn : Host :=
  {| config_maven_home := Some "/opt/maven";
     env_M2_HOME := None; env_MAVEN_HOME := None;
     path_sep := "/"; IS_WIN := false;
     existsSync := fun _ => false;
     workspaceFolder := Some "/work/app";
     microPluginReader := Some reader;
     plugin := mavenPlugin;
     spawn := fun _ _ => {| pid := Some 4242 |};
     getWorkspaceFolder := true;
     getPayaraMicroDebugConfig := None;
     createDebugConfiguration := {| port := "5005" |} |}.

(** The same workstation with a project whose plugin configuration turns
    both deployWar and useUberJar off. *)
Definition hostBothDisabled : Host :=
  {| config_maven_home := Some "/opt/maven";
     env_M2_HOME := None; env_MAVEN_HOME := None;
     path_sep := "/"; IS_WIN := false;
     existsSync := fun _ => true;
     workspaceFolder := Some "/work/app";
     microPluginReader :=
       Some {| isDeployWarEnabled := false; isUberJarEnabled := false |};
     plugin := mavenPlugin;
     spawn := fun _ _ => {| pid := Some 4242 |};
     getWorkspaceFolder := true;
     getPayaraMicroDebugConfig := None;
     createDebugConfiguration := {| port := "5005" |} |}.

(** The same workstation when the operating system refuses to create the
    process: [cp.spawn] returns a process without pid. *)
Definition hostSpawnFails : Host :=
  {| config_maven_home := Some "/opt/maven";
     env_M2_HOME := None; env_MAVEN_HOME := None;
     path_sep := "/"; IS_WIN := false;
     existsSync := fun _ => true;
     workspaceFolder := Some "/work/app";
     microPluginReader := Some reader;
     plugin := mavenPlugin;
     spawn := fun _ _ => {| pid := None |};
     getWorkspaceFolder := true;
     getPayaraMicroDebugConfig := None;
     createDebugConfiguration := {| port := "5005" |} |}.

Definition startTask (debug : bool) : ChildProcess := {| pid := Some 777 |}.

Definition micro (st : InstanceState) : MicroWorld :=
  {| payaraMicro := {| micro_state := st; micro_debug := false;
                       micro_homePage := None; micro_process := None |};
     debugConfig := None; listening := []; trace := [] |}.

(** A micro instance in state [st] whose start process is alive. *)
Definition startedMicro (st : InstanceState) : MicroWorld :=
  {| payaraMicro := {| micro_state := st; micro_debug := true;
                       micro_homePage := Some "http://localhost:8080";
                       micro_process := Some {| pid := Some 4242 |} |};
     debugConfig := None; listening := [StartMicroTask]; trace := [] |}.

Definition server (st : InstanceState) (debug : bool) : ServerWorld :=
  {| payaraServer := {| server_state := st; server_debug := debug |};
     pending := []; server_trace := [] |}.

(** The banner of the scenario of section 8. *)
Definition banner : string :=
  "Payara Micro URLs:" ++ JS.nl ++ " http://localhost:8080" ++ JS.nl.

End Sample.

(** ** Further JavaScript primitives

    A string stands for the bytes of its UTF-8 encoding. *)

Module JSText.

Definition ofBytes (l : list nat) : string :=
  string_of_list_ascii (map ascii_of_nat l).

Definition between (lo hi : nat) (c : ascii) : bool :=
  Nat.leb lo (nat_of_ascii c) && Nat.leb (nat_of_ascii c) hi.

(** The characters [encodeURIComponent] leaves alone: letters, digits and
    - _ . ! ~ * ' ( ) *)
Definition unreserved (c : ascii) : bool :=
  between 65 90 c || between 97 122 c || between 48 57 c ||
  existsb (Ascii.eqb c) (list_ascii_of_string "-_.!~*'()").

Definition hexDigit (n : nat) : ascii :=
  nth n (list_ascii_of_string "0123456789ABCDEF") "0"%char.

Definition percent (c : ascii) : string :=
  String "%" (String (hexDigit (Nat.div (nat_of_ascii c) 16))
                     (String (hexDigit (Nat.modulo (nat_of_ascii c) 16)) EmptyString)).

(** [encodeURIComponent(s)]: every byte of the UTF-8 encoding that is not
    an unreserved character becomes a percent sign and two hex digits. *)
Fixpoint encodeURIComponent (s : string) : string :=
  match s with
  | EmptyString => EmptyString
  | String c rest =>
      (if unreserved c then String c EmptyString else percent c)
      ++ encodeURIComponent rest
  end.

(** The characters of the class \s, as UTF-8: U+0009 to U+000D, U+0020,
    U+00A0, U+1680, U+2000 to U+200A, U+2028, U+2029, U+202F, U+205F,
    U+3000 and U+FEFF. *)
Definition whiteSpace : list string :=
  map ofBytes
    [[9]; [10]; [11]; [12]; [13]; [32]; [194; 160]; [225; 154; 128];
     [226; 128; 128]; [226; 128; 129]; [226; 128; 130]; [226; 128; 131];
     [226; 128; 132]; [226; 128; 133]; [226; 128; 134]; [226; 128; 135];
     [226; 128; 136]; [226; 128; 137]; [226; 128; 138];
     [226; 128; 168]; [226; 128; 169]; [226; 128; 175]; [226; 129; 159];
     [227; 128; 128]; [239; 187; 191]]%nat.

Definition startsWithWhiteSpace (s : string) : bool :=
  existsb (fun ws => String.prefix ws s) whiteSpace.

(** [/\s/.test(s)] *)
Fixpoint testWhiteSpace (s : string) : bool :=
  startsWithWhiteSpace s ||
  match s with
  | EmptyString => false
  | String _ rest => testWhiteSpace rest
  end.

(** A string of a template literal: undefined prints as "undefined". *)
Definition template (s : option string) : string :=
  match s with
  | Some v => v
  | None => "undefined"
  end.

End JSText.

(** [c] is one of the characters of [s]. *)
Fixpoint contains (c : ascii) (s : string) : bool :=
  match s with
  | EmptyString => false
  | String d rest => Ascii.eqb d c || contains c rest
  end.

Definition isStartDebugging (e : Effect) : bool :=
  match e with StartDebugging => true | _ => false end.

Definition isOpen (e : Effect) : bool :=
  match e with Open _ => true | _ => false end.

(** How many times the debugger was asked to attach. *)
Definition debuggerStarts (w : MicroWorld) : nat :=
  length (filter isStartDebugging (trace w)).

(** The six white space characters of ASCII. *)
Definition asciiWhiteSpace (c : ascii) : bool :=
  JSText.between 9 13 c || Ascii.eqb c " "%char.

(** ** PayaraMicroProjectGenerator.ts *)

Record Uri : Type := { fsPath : string }.

(** A [Partial<PayaraMicroProject>]: every field may be undefined. *)
Module Project.
Record PayaraMicroProject : Type := {
  groupId : option string;
  artifactId : option string;
  version : option string;
  contextRoot : option string;
  package : option string;
  payaraMicroVersion : option string;
  targetFolder : option Uri
}.

Definition empty : PayaraMicroProject :=
  {| groupId := None; artifactId := None; version := None; contextRoot := None;
     package := None; payaraMicroVersion := None; targetFolder := None |}.

(** The assignments [project.field = value]. *)
Definition set_groupId (v : string) (p : PayaraMicroProject) : PayaraMicroProject :=
  {| groupId := Some v; artifactId := artifactId p; version := version p;
     contextRoot := contextRoot p; package := package p;
     payaraMicroVersion := payaraMicroVersion p; targetFolder := targetFolder p |}.

Definition set_artifactId (v : string) (p : PayaraMicroProject) : PayaraMicroProject :=
  {| groupId := groupId p; artifactId := Some v; version := version p;
     contextRoot := contextRoot p; package := package p;
     payaraMicroVersion := payaraMicroVersion p; targetFolder := targetFolder p |}.

Definition set_version (v : string) (p : PayaraMicroProject) : PayaraMicroProject :=
  {| groupId := groupId p; artifactId := artifactId p; version := Some v;
     contextRoot := contextRoot p; package := package p;
     payaraMicroVersion := payaraMicroVersion p; targetFolder := targetFolder p |}.

Definition set_contextRoot (v : string) (p : PayaraMicroProject) : PayaraMicroProject :=
  {| groupId := groupId p; artifactId := artifactId p; version := version p;
     contextRoot := Some v; package := package p;
     payaraMicroVersion := payaraMicroVersion p; targetFolder := targetFolder p |}.

Definition set_package (v : string) (p : PayaraMicroProject) : PayaraMicroProject :=
  {| groupId := groupId p; artifactId := artifactId p; version := version p;
     contextRoot := contextRoot p; package := Some v;
     payaraMicroVersion := payaraMicroVersion p; targetFolder := targetFolder p |}.

Definition set_payaraMicroVersion (v : string) (p : PayaraMicroProject) : PayaraMicroProject :=
  {| groupId := groupId p; artifactId := artifactId p; version := version p;
     contextRoot := contextRoot p; package := package p;
     payaraMicroVersion := Some v; targetFolder := targetFolder p |}.

(** [project.targetFolder = fileUris[0]], undefined for an empty array. *)
Definition set_targetFolder (v : option Uri) (p : PayaraMicroProject) : PayaraMicroProject :=
  {| groupId := groupId p; artifactId := artifactId p; version := version p;
     contextRoot := contextRoot p; package := package p;
     payaraMicroVersion := payaraMicroVersion p; targetFolder := v |}.
End Project.

(** What the user enters in the seven steps of the wizard: the text of the
    five input boxes (undefined when there is none), the version picked and
    the result of the folder dialog (undefined when it is dismissed). *)
Record Answers : Type := {
  answer_groupId : option string;
  answer_artifactId : option string;
  answer_version : option string;
  answer_contextRoot : option string;
  answer_packageName : option string;
  answer_pick : string;
  answer_fileUris : option (list Uri)
}.

Inductive GeneratorEffect : Type :=
| GenShowErrorMessage (message : string)
| GenSpawn (exe : string) (args : list string) (cwd : option string)  (* cp.spawn *)
| GenOutputShow
| GenOutputAppend (text : string)
| GenConsoleLog (message : string)
| GenProjectGenerated (projectPath : string)   (* the callback of generateMicroProject *)
| GenUpdateWorkspaceFolders (projectPath : string)
| GenRefreshMicroList
| GenOpenFolder (projectPath : string).

Definition isGenSpawn (e : GeneratorEffect) : bool :=
  match e with GenSpawn _ _ _ => true | _ => false end.

Record GeneratorWorld : Type := {
  gen_listening : bool;                (* the listeners of the mvn process are attached *)
  gen_trace : list GeneratorEffect
}.

Module Generator.
Import Project.

Definition GM := M GeneratorWorld.

Definition emit (e : GeneratorEffect) : GM unit :=
  modify (fun w => {| gen_listening := gen_listening w; gen_trace := gen_trace w ++ [e] |}).

Definition attach : GM unit :=
  modify (fun w => {| gen_listening := true; gen_trace := gen_trace w |}).

Definition TOTAL_STEP : Z := 7.
Definition DEFAULT_VERSION : string := "1.0.0-SNAPSHOT".
Definition DEFAULT_ARTIFACT_ID : string := "payara-micro-sample".
Definition DEFAULT_GROUP_ID : string := "fish.payara.micro.sample".
Definition PAYARA_MICRO_VERSIONS : list string :=
  ["5.201"; "5.194"; "5.193.1"; "5.192"; "5.191"; "5.184"; "5.183"; "5.182"; "5.181"].

(** [x ? x : d] *)
Definition orElse (x : option string) (d : string) : string :=
  match x with
  | Some v => if JS.isEmpty v then d else v
  | None => d
  end.

(** [validate] *)
Definition validate (type value : string) : option string :=
  if JS.isEmpty value then Some (type ++ " cannot be empty")
  else if JSText.testWhiteSpace value then Some (type ++ " cannot contain spaces")
  else None.

(** The steps of the wizard.  Each takes the text that [showInputBox] or
    [showQuickPick] gave and the project so far, and returns the project
    that the next step receives. *)
Definition groupId (answer : option string) (project : PayaraMicroProject)
  : PayaraMicroProject :=
  set_groupId (orElse answer DEFAULT_GROUP_ID) project.

Definition artifactId (answer : option string) (project : PayaraMicroProject)
  : PayaraMicroProject :=
  set_artifactId (orElse answer DEFAULT_ARTIFACT_ID) project.

Definition version (answer : option string) (project : PayaraMicroProject)
  : PayaraMicroProject :=
  set_version (orElse answer DEFAULT_VERSION) project.

Definition contextRoot (answer : option string) (project : PayaraMicroProject)
  : PayaraMicroProject :=
  set_contextRoot (orElse answer "/") project.

Definition packageName (answer : option string) (project : PayaraMicroProject)
  : PayaraMicroProject :=
  set_package (orElse answer DEFAULT_GROUP_ID) project.

Definition payaraMicroVersion (pick : string) (project : PayaraMicroProject)
  : PayaraMicroProject :=
  set_payaraMicroVersion pick project.

(** The value the input box of the package step starts with:
    [project.package || project.groupId || DEFAULT_GROUP_ID]. *)
Definition packageName_value (project : PayaraMicroProject) : string :=
  orElse (Project.package project) (orElse (Project.groupId project) DEFAULT_GROUP_ID).

(** [selectTargetFolder]: the project it hands to [callback], or nothing
    when the dialog was dismissed. *)
Definition selectTargetFolder (fileUris : option (list Uri)) (project : PayaraMicroProject)
  : GM (option PayaraMicroProject) :=
  match fileUris with
  | None => ret None
  | Some uris =>
      when (match uris with
            | [] => true
            | first :: _ => JS.isEmpty (fsPath first)
            end)
           (emit (GenShowErrorMessage "Selected path is invalid.")) ;;
      ret (Some (set_targetFolder (nth_error uris 0) project))
  end.

Section Generate.
Variable host : Host.
(** [path.join] of two segments. *)
Variable path_join : string -> string -> string.

(** [Maven.generateMicroProject]; the callback it is given is the one of
    [createProject]. *)
Definition cmdArgs (project : PayaraMicroProject) : list string :=
  ["archetype:generate";
   "-DarchetypeArtifactId=payara-micro-maven-archetype";
   "-DarchetypeGroupId=fish.payara.maven.archetypes";
   "-DgroupId=" ++ JSText.template (Project.groupId project);
   "-DartifactId=" ++ JSText.template (Project.artifactId project);
   "-Dversion=" ++ JSText.template (Project.version project);
   "-Dpackage=" ++ JSText.template (Project.package project);
   "-DpayaraMicroVersion=" ++ JSText.template (Project.payaraMicroVersion project);
   "-DaddPayaraApi=true";
   "-DinteractiveMode=false"].

Definition generateMicroProject (project : PayaraMicroProject) : GM ChildProcess :=
  let mavenHome := Maven.getDefaultHome host in
  match mavenHome with
  | Some home =>
      if JS.isEmpty home then throw "Maven home path not found."
      else
        let mavenExe := Maven.getExecutableFullPath host home in
        if negb (existsSync host mavenExe) then
          throw ("Maven executable [" ++ mavenExe ++ "] not found")
        else
          let process :=
            spawn host mavenExe (cmdArgs project) in
          emit (GenSpawn mavenExe (cmdArgs project)
                  (option_map fsPath (Project.targetFolder project))) ;;
          match pid process with
          | Some _ => emit GenOutputShow ;; attach
          | None => ret tt
          end ;;
          ret process
  | None => throw "Maven home path not found."
  end.

(** The exit listener of [generateMicroProject]. *)
Definition generateMicroProject_exit (project : PayaraMicroProject) (code : Z) : GM unit :=
  match Project.targetFolder project, Project.artifactId project with
  | Some folder, Some artifact =>
      when ((code =? 0) && negb (JS.isEmpty artifact))
           (emit (GenProjectGenerated (path_join (fsPath folder) artifact)))
  | _, _ => ret tt
  end.

(** The data and error listeners of [generateMicroProject]. *)
Definition generateMicroProject_data (data : string) : GM unit :=
  emit (GenOutputAppend data).

Definition generateMicroProject_error (message : string) : GM unit :=
  emit (GenConsoleLog ("error: " ++ message)).

(** An event of the mvn process that [generateMicroProject] spawned; its
    listeners are attached only when the process had a pid. *)
Definition generateMicroProject_event (project : PayaraMicroProject) (ev : ProcessEvent)
  : GM unit :=
  w <- get ;;
  if gen_listening w then
    match ev with
    | OnData chunk => generateMicroProject_data chunk
    | OnExit code => generateMicroProject_exit project code
    | OnError message => generateMicroProject_error message
    end
  else ret tt.

(** What the callback that [createProject] gives to [generateMicroProject]
    does once the user has answered its question ([choice] is undefined
    when the message was dismissed). *)
Definition createProject_generated (choice : option string) (projectPath : string)
  : GM unit :=
  match choice with
  | Some c =>
      if String.eqb c "Add to current workspace" then
        emit (GenUpdateWorkspaceFolders projectPath) ;; emit GenRefreshMicroList
      else if String.eqb c "Open in new window" then
        emit (GenOpenFolder projectPath)
      else ret tt
  | None => ret tt
  end.

(** The callback that [createProject] gives to the wizard. *)
Definition createProject_callback (project : PayaraMicroProject) : GM unit :=
  match Project.targetFolder project, Project.artifactId project with
  | Some folder, Some artifact =>
      if JS.isEmpty artifact then ret tt
      else _ <- generateMicroProject project ;; ret tt
  | _, _ => ret tt
  end.

(** Modelled from the spec: [ui.MultiStepInput.run] is not part of the
    sources at hand.  It runs the step it is given and then each step that
    a step returns (section 9: a sequence of steps that pass a partial
    result on), here with the answers of one pass through the wizard. *)
Definition wizard (answers : Answers) : GM (option PayaraMicroProject) :=
  let project := groupId (answer_groupId answers) Project.empty in
  let project := artifactId (answer_artifactId answers) project in
  let project := version (answer_version answers) project in
  let project := contextRoot (answer_contextRoot answers) project in
  let project := packageName (answer_packageName answers) project in
  let project := payaraMicroVersion (answer_pick answers) project in
  selectTargetFolder (answer_fileUris answers) project.

Definition createProject (answers : Answers) : GM unit :=
  result <- wizard answers ;;
  match result with
  | Some project => createProject_callback project
  | None => ret tt
  end.

End Generate.

Definition initial : GeneratorWorld := {| gen_listening := false; gen_trace := [] |}.

(** The field is defined and not the empty text. *)
Definition filled (field : option string) : Prop :=
  exists v, field = Some v /\ v <> "".

(** The answers with another text in the context root step. *)
Definition withContextRoot (contextRoot : option string) (a : Answers) : Answers :=
  {| answer_groupId := answer_groupId a; answer_artifactId := answer_artifactId a;
     answer_version := answer_version a; answer_contextRoot := contextRoot;
     answer_packageName := answer_packageName a; answer_pick := answer_pick a;
     answer_fileUris := answer_fileUris a |}.

End Generator.

(** ** Maven.buildProject *)

Inductive BuildEffect : Type :=
| ArtifactBuilt (artifact : string)          (* callback(artifact) *)
| BuildShowErrorMessage (message : string)
| BuildConsoleWarn (message : string)
| BuildConsoleError (message : string).

Module MavenBuild.

Definition BM := M (list BuildEffect).

Definition emit (e : BuildEffect) : BM unit := modify (fun w => app w [e]).

Section BuildProject.
Variable host : Host.
(** [path.join] of two segments. *)
Variable path_join : string -> string -> string.
(** [fs.readdirSync] on a directory that exists. *)
Variable readdirSync : string -> list string.
(** [this.pomReader], by the final name it reports. *)
Variable pomReader : option string.

(** [getBuildDir]; reading the path of a workspace folder that is
    undefined is a TypeError. *)
Definition getBuildDir : BM string :=
  match workspaceFolder host with
  | Some fsPath =>
      let targetDir := path_join fsPath "target" in
      if negb (existsSync host targetDir) then throw ("no target dir found: " ++ targetDir)
      else ret targetDir
  | None => throw "TypeError: Cannot read properties of undefined (reading 'uri')"
  end.

Definition getBuildReader : BM string :=
  match pomReader with
  | Some finalName => ret finalName
  | None => throw "Pom reader not initilized yet"
  end.

(** The test of the loop of [buildProject]; the reader is asked only for a
    name that ends neither in .war nor in .jar. *)
Definition isArtifact (name : string) : BM bool :=
  if JS.endsWith name ".war" then ret true
  else if JS.endsWith name ".jar" then ret true
  else finalName <- getBuildReader ;; ret (String.eqb name finalName).

(** The loop over the entries of the target directory, from index [i] on,
    with [artifact] the variable it assigns. *)
Fixpoint selectArtifact (targetDir : string) (artifacts : list string)
         (artifact : option string) : BM (option string) :=
  match artifacts with
  | [] => ret artifact
  | name :: rest =>
      let filename := path_join targetDir name in
      found <- isArtifact name ;;
      selectArtifact targetDir rest (if found then Some filename else artifact)
  end.

(** The exit callback that [buildProject] gives to [fireCommand]. *)
Definition buildProject_exit (code : Z) : BM unit :=
  (if (code =? 0) && (match workspaceFolder host with Some _ => true | None => false end)
   then
     targetDir <- getBuildDir ;;
     let artifacts := readdirSync targetDir in
     artifact <- selectArtifact targetDir artifacts None ;;
     match artifact with
     | Some a => emit (ArtifactBuilt a)
     | None => emit (BuildShowErrorMessage ("null" ++ " not found."))
     end
   else ret tt) ;;
  when (negb (code =? 0))
       (emit (BuildConsoleWarn ("buildProject task failed with exit code " ++ JS.ofNumber code))).

(** The error callback that [buildProject] gives to [fireCommand]. *)
Definition buildProject_error (message : string) : BM unit :=
  emit (BuildConsoleError ("Error on executing buildProject task: " ++ message)).

(** The names that the loop accepts when a reader is there. *)
Definition accepted (finalName name : string) : bool :=
  JS.endsWith name ".war" || JS.endsWith name ".jar" || String.eqb name finalName.

End BuildProject.
End MavenBuild.

(** ** Applications of a server: undeploy, enable, disable *)

(** Modelled from the spec: the class [ApplicationInstance] is not part of
    the sources at hand.  Section 3 of the specification gives an
    application a name and an enabled flag, and has it removed from its
    instance when it is undeployed. *)
Record ApplicationInstance : Type := {
  app_name : string;
  app_enabled : bool
}.

Record ApplicationWorld : Type := {
  application : ApplicationInstance;
  deployed : bool;                    (* the application is in the list of its server *)
  app_trace : list Effect
}.

Module Applications.

Definition AM := M ApplicationWorld.

Definition emit (e : Effect) : AM unit :=
  modify (fun w => {| application := application w; deployed := deployed w;
                      app_trace := app_trace w ++ [e] |}).

(** Modelled from the spec: [payaraServer.removeApplication(application)]
    takes the application out of the list of its server. *)
Definition removeApplication : AM unit :=
  modify (fun w => {| application := application w; deployed := false;
                      app_trace := app_trace w |}).

(** Modelled from the spec: [application.setEnabled] stores the flag. *)
Definition setEnabled (enabled : bool) : AM unit :=
  modify (fun w => {| application := {| app_name := app_name (application w);
                                        app_enabled := enabled |};
                      deployed := deployed w; app_trace := app_trace w |}).

Definition refreshServerList : AM unit := emit Refresh.

(** [response.on('data', listener)] for a response whose body arrives in
    [chunks]: the listener runs once for each chunk. *)
Fixpoint onData (chunks : list string) (listener : string -> AM unit) : AM unit :=
  match chunks with
  | [] => ret tt
  | chunk :: rest => listener chunk ;; onData rest listener
  end.

Definition undeployApp : AM unit :=
  w <- get ;;
  let query := "?name=" ++ JSText.encodeURIComponent (app_name (application w)) in
  emit (Invoke ("undeploy" ++ query)).

Definition undeployApp_response (statusCode : Z) (chunks : list string) : AM unit :=
  when (statusCode =? 200)
       (onData chunks (fun data => removeApplication ;; refreshServerList)).

Definition enableApp : AM unit :=
  w <- get ;;
  let query := "?DEFAULT=" ++ JSText.encodeURIComponent (app_name (application w)) in
  emit (Invoke ("enable" ++ query)).

Definition enableApp_response (statusCode : Z) (chunks : list string) : AM unit :=
  when (statusCode =? 200)
       (onData chunks (fun data => setEnabled true ;; refreshServerList)).

Definition disableApp : AM unit :=
  w <- get ;;
  let query := "?DEFAULT=" ++ JSText.encodeURIComponent (app_name (application w)) in
  emit (Invoke ("disable" ++ query)).

Definition disableApp_response (statusCode : Z) (chunks : list string) : AM unit :=
  when (statusCode =? 200)
       (onData chunks (fun data => setEnabled false ;; refreshServerList)).

(** The characters that would end or split the value of a query
    parameter. *)
Definition queryDelimiters : list ascii := list_ascii_of_string "&=?#/+ ".

End Applications.

(** ** Further sample values *)

Module Fixture.

Definition answers : Answers :=
  {| answer_groupId := Some "org.example"; answer_artifactId := Some "shop";
     answer_version := None; answer_contextRoot := Some "";
     answer_packageName := None; answer_pick := "5.201";
     answer_fileUris := Some [{| fsPath := "/work" |}] |}.

Definition path_join (a b : string) : string := a ++ "/" ++ b.

Definition readdirSync (dir : string) : list string :=
  ["classes"; "shop-1.0.war"; "shop-1.0"; "maven-status"].

Definition application : ApplicationWorld :=
  {| application := {| app_name := "shop & co"; app_enabled := false |};
     deployed := true; app_trace := [] |}.

End Fixture.

(** * Properties *)

(** ** Strings *)

Lemma InstanceState_eqb_eq a b : InstanceState_eqb a b = true <-> a = b.
Proof. destruct a, b; simpl; split; congruence. Qed.

Lemma InstanceState_eqb_neq a b : InstanceState_eqb a b = false <-> a <> b.
Proof. destruct a, b; simpl; split; congruence. Qed.

Lemma prefix_app needle hay :
  String.prefix needle hay = true <-> exists post, hay = needle ++ post.
Proof.
  revert hay. induction needle as [|c needle IH]; intros hay.
  - split; [eexists; reflexivity | destruct hay; reflexivity].
  - destruct hay as [|d hay]; simpl.
    + split; [discriminate | intros [post H]; discriminate].
    + destruct (Ascii.ascii_dec c d) as [->|Hne].
      * rewrite IH. split; intros [post H]; exists post; congruence.
      * split; [discriminate | intros [post H]; congruence].
Qed.

Lemma prefix_occurs needle hay :
  String.prefix needle hay = true -> occurs needle hay.
Proof.
  intros H. apply prefix_app in H. destruct H as [post H].
  exists "", post. exact H.
Qed.

Lemma indexOf_from_eq i hay needle :
  JS.indexOf_from i hay needle =
  if String.prefix needle hay then i
  else match hay with
       | EmptyString => -1
       | String _ rest => JS.indexOf_from (i + 1) rest needle
       end.
Proof. destruct hay; reflexivity. Qed.

Lemma indexOf_from_lower i hay needle :
  JS.indexOf_from i hay needle = -1 \/ i <= JS.indexOf_from i hay needle.
Proof.
  revert i. induction hay as [|c hay IH]; intros i; rewrite indexOf_from_eq.
  - destruct (String.prefix needle ""); [right; lia | left; reflexivity].
  - destruct (String.prefix needle (String c hay)); [right; lia|].
    destruct (IH (i + 1)) as [H|H]; [left; exact H | right; lia].
Qed.

Lemma indexOf_from_found i hay needle :
  JS.indexOf_from i hay needle <> -1 -> occurs needle hay.
Proof.
  revert i. induction hay as [|c hay IH]; intros i; rewrite indexOf_from_eq.
  - destruct (String.prefix needle "") eqn:Hp; [|congruence].
    intros _. now apply prefix_occurs.
  - destruct (String.prefix needle (String c hay)) eqn:Hp.
    + intros _. now apply prefix_occurs.
    + intros H. destruct (IH _ H) as [pre [post E]].
      exists (String c pre), post. simpl. now rewrite E.
Qed.

Lemma indexOf_from_absent i hay needle :
  JS.indexOf_from i hay needle = -1 -> 0 <= i -> ~ occurs needle hay.
Proof.
  revert i. induction hay as [|c hay IH]; intros i; rewrite indexOf_from_eq.
  - destruct (String.prefix needle "") eqn:Hp; [lia|].
    intros _ _ [pre [post H]]. destruct pre; [|discriminate]. simpl in H.
    assert (String.prefix needle "" = true) by (apply prefix_app; eauto).
    congruence.
  - destruct (String.prefix needle (String c hay)) eqn:Hp; [lia|].
    intros H Hi [pre [post E]]. destruct pre as [|d pre].
    + simpl in E.
      assert (String.prefix needle (String c hay) = true) by (apply prefix_app; eauto).
      congruence.
    + simpl in E. injection E as _ E.
      apply (IH (i + 1) H); [lia | exists pre, post; exact E].
Qed.

(** [indexOf] finds the needle exactly when it occurs. *)
Lemma indexOf_occurs hay needle :
  (JS.indexOf hay needle >? -1) = true <-> occurs needle hay.
Proof.
  unfold JS.indexOf. split.
  - intros H. apply (indexOf_from_found 0). apply Z.gtb_lt in H. lia.
  - intros Hocc. apply Z.gtb_lt.
    destruct (indexOf_from_lower 0 hay needle) as [H|H]; [|lia].
    exfalso. exact (indexOf_from_absent 0 hay needle H (Z.le_refl 0) Hocc).
Qed.

(** ** Running the monad *)

Ltac micro_unfold :=
  cbv beta iota delta
    [bind ret get modify when throw
     Micro.emit Micro.updInstance Micro.setDebugConfig Micro.attach Micro.says
     Micro.getInstance Micro.isStopped Micro.isStarted Micro.setState
     Micro.setDebug Micro.setHomePage Micro.getHomePage Micro.setProcess].

Ltac server_unfold :=
  cbv beta iota delta
    [bind ret get modify when throw
     Server.emit Server.updInstance Server.register Server.says
     Server.getInstance Server.isStopped Server.isStarted Server.isRestarting
     Server.isDebug Server.setState Server.setStarted Server.setDebug
     Server.checkAliveStatusUsingRest Server.checkAliveStatusUsingJPS
     Server.invoke Server.refreshServerList].

Lemma micro_world_eta (w : MicroWorld) :
  {| payaraMicro := payaraMicro w; debugConfig := debugConfig w;
     listening := listening w; trace := trace w |} = w.
Proof. destruct w; reflexivity. Qed.

Lemma micro_instance_eta (i : PayaraMicroInstance) :
  {| micro_state := micro_state i; micro_debug := micro_debug i;
     micro_homePage := micro_homePage i; micro_process := micro_process i |} = i.
Proof. destruct i; reflexivity. Qed.

Lemma server_world_eta (w : ServerWorld) :
  {| payaraServer := payaraServer w; pending := pending w;
     server_trace := server_trace w |} = w.
Proof. destruct w; reflexivity. Qed.

Lemma server_instance_eta (i : PayaraServerInstance) :
  {| server_state := server_state i; server_debug := server_debug i |} = i.
Proof. destruct i; reflexivity. Qed.

(** ** Start is refused unless the instance is stopped *)

Lemma startMicro_refused host debug (w : MicroWorld) :
  micro_state (payaraMicro w) <> STOPPED ->
  MicroController.startMicro host debug w =
  (Return tt, Micro.says w [ShowErrorMessage "Payara Micro instance already running."]).
Proof.
  intros H. apply InstanceState_eqb_neq in H.
  unfold MicroController.startMicro. micro_unfold. rewrite H. reflexivity.
Qed.

Lemma startServer_refused startTask debug callback (w : ServerWorld) :
  server_state (payaraServer w) <> STOPPED ->
  Server.startServer startTask debug callback w =
  (Return tt, Server.says w [ShowErrorMessage "Payara Server instance already running."]).
Proof.
  intros H. apply InstanceState_eqb_neq in H.
  unfold Server.startServer. server_unfold. rewrite H. reflexivity.
Qed.

(** C1.  [start] on an instance that is not STOPPED, micro or server: the
    call returns normally, the instance (state, debug flag, process handle)
    and the attached callbacks are the ones before the call, and the only
    thing observed is the error message saying that the instance is already
    running; in particular no process is spawned. *)
Theorem start_when_not_stopped_is_rejected :
  forall host startTask debug callback (m : MicroWorld) (s : ServerWorld),
    (micro_state (payaraMicro m) <> STOPPED ->
     let '(r, m') := MicroController.startMicro host debug m in
     r = Return tt /\
     payaraMicro m' = payaraMicro m /\
     listening m' = listening m /\
     trace m' = (trace m ++ [ShowErrorMessage "Payara Micro instance already running."])%list /\
     filter isSpawn (trace m') = filter isSpawn (trace m)) /\
    (server_state (payaraServer s) <> STOPPED ->
     let '(r, s') := Server.startServer startTask debug callback s in
     r = Return tt /\
     payaraServer s' = payaraServer s /\
     pending s' = pending s /\
     server_trace s' =
       (server_trace s ++ [ShowErrorMessage "Payara Server instance already running."])%list /\
     filter isSpawn (server_trace s') = filter isSpawn (server_trace s)).
Proof.
  intros host startTask debug callback m s. split; intros H.
  - rewrite (startMicro_refused host debug m H). simpl.
    repeat split. rewrite filter_app. simpl. apply app_nil_r.
  - rewrite (startServer_refused startTask debug callback s H). simpl.
    repeat split. rewrite filter_app. simpl. apply app_nil_r.
Qed.

Lemma start_when_not_stopped_is_rejected_witness :
  payaraMicro (snd (MicroController.startMicro Sample.host true (Sample.startedMicro RUNNING)))
  = payaraMicro (Sample.startedMicro RUNNING) /\
  payaraServer (snd (Server.startServer Sample.startTask true None (Sample.server LODING false)))
  = payaraServer (Sample.server LODING false).
Proof.
  destruct (start_when_not_stopped_is_rejected Sample.host Sample.startTask true None
              (Sample.startedMicro RUNNING) (Sample.server LODING false)) as [Hm Hs].
  split.
  - assert (H : micro_state (payaraMicro (Sample.startedMicro RUNNING)) <> STOPPED)
      by (simpl; discriminate).
    specialize (Hm H).
    destruct (MicroController.startMicro Sample.host true (Sample.startedMicro RUNNING)).
    apply Hm.
  - assert (H : server_state (payaraServer (Sample.server LODING false)) <> STOPPED)
      by (simpl; discriminate).
    specialize (Hs H).
    destruct (Server.startServer Sample.startTask true None (Sample.server LODING false)).
    apply Hs.
Defined.

(** ** The ready marker *)

Lemma parseApplicationUrl_frame data (w : MicroWorld) :
  exists w',
    MicroController.parseApplicationUrl data w =
      (Return (JS.indexOf data "Payara Micro URLs:" >? -1), w') /\
    micro_state (payaraMicro w') = micro_state (payaraMicro w) /\
    micro_debug (payaraMicro w') = micro_debug (payaraMicro w) /\
    micro_process (payaraMicro w') = micro_process (payaraMicro w) /\
    debugConfig w' = debugConfig w /\
    listening w' = listening w /\
    filter isRefresh (trace w') = filter isRefresh (trace w).
Proof.
  unfold MicroController.parseApplicationUrl.
  destruct (JS.indexOf data "Payara Micro URLs:" >? -1).
  - destruct (Z.of_nat (length _) >? 1);
      [destruct (nth_error _ 1) as [line|]|];
      micro_unfold; simpl.
    + destruct (JS.isEmpty line); simpl; eexists; split; try reflexivity;
        simpl; repeat split; rewrite ?filter_app; simpl; rewrite ?app_nil_r; reflexivity.
    + destruct (micro_homePage (payaraMicro w)) as [h|];
        [destruct (JS.isEmpty h)|]; simpl; eexists; split; try reflexivity;
        simpl; repeat split; rewrite ?filter_app; simpl; rewrite ?app_nil_r; reflexivity.
    + destruct (micro_homePage (payaraMicro w)) as [h|];
        [destruct (JS.isEmpty h)|]; simpl; eexists; split; try reflexivity;
        simpl; repeat split; rewrite ?filter_app; simpl; rewrite ?app_nil_r; reflexivity.
  - exists w. micro_unfold. repeat split.
Qed.

Lemma startMicro_data_running data (w : MicroWorld) :
  micro_state (payaraMicro w) = RUNNING ->
  MicroController.startMicro_data data w = (Return tt, w).
Proof.
  intros H. unfold MicroController.startMicro_data. micro_unfold.
  rewrite H. reflexivity.
Qed.

Lemma startMicro_data_not_running data (w : MicroWorld) :
  micro_state (payaraMicro w) <> RUNNING ->
  exists w',
    MicroController.startMicro_data data w = (Return tt, w') /\
    if JS.indexOf data "Payara Micro URLs:" >? -1
    then micro_state (payaraMicro w') = RUNNING /\
         MicroController.notifications w' = S (MicroController.notifications w)
    else micro_state (payaraMicro w') = micro_state (payaraMicro w) /\
         MicroController.notifications w' = MicroController.notifications w.
Proof.
  intros H. apply InstanceState_eqb_neq in H.
  unfold MicroController.startMicro_data, MicroController.notifications.
  micro_unfold. rewrite H. cbn [negb].
  destruct (debugConfig w) as [c|];
    [destruct (JS.indexOf data "Listening for transport dt_socket at address:" >? -1)|];
    cbn [fst snd];
    match goal with
    | |- context [MicroController.parseApplicationUrl ?d ?W] =>
        destruct (parseApplicationUrl_frame d W) as (w2 & E & Hs & _ & _ & _ & _ & Hr);
        rewrite E
    end;
    cbn [trace payaraMicro micro_state] in Hs, Hr;
    (destruct (JS.indexOf data "Payara Micro URLs:" >? -1);
     eexists; (split; [reflexivity|]); cbn [trace payaraMicro micro_state];
     rewrite ?filter_app in *; cbn [filter isRefresh] in *;
     rewrite ?app_nil_r in *; rewrite ?Hr, ?Hs, ?length_app; cbn [length];
     split; try reflexivity; try lia).
Qed.

Lemma feed_running chunks (w : MicroWorld) :
  micro_state (payaraMicro w) = RUNNING ->
  MicroController.feed chunks w = w.
Proof.
  intros H. induction chunks as [|c chunks IH]; simpl; [reflexivity|].
  rewrite (startMicro_data_running c w H). exact IH.
Qed.

Lemma feed_without_marker chunks (w : MicroWorld) :
  micro_state (payaraMicro w) <> RUNNING ->
  (forall c, In c chunks -> ~ occurs "Payara Micro URLs:" c) ->
  micro_state (payaraMicro (MicroController.feed chunks w)) = micro_state (payaraMicro w) /\
  MicroController.notifications (MicroController.feed chunks w) =
    MicroController.notifications w.
Proof.
  revert w. induction chunks as [|c chunks IH]; intros w Hs Hno; simpl; [split; reflexivity|].
  destruct (startMicro_data_not_running c w Hs) as (w' & E & Hw'). rewrite E. simpl.
  destruct (JS.indexOf c "Payara Micro URLs:" >? -1) eqn:Hidx.
  - exfalso. apply (Hno c); [left; reflexivity | now apply indexOf_occurs].
  - destruct Hw' as [Hst Hn].
    destruct (IH w') as [IH1 IH2]; [congruence | intros; apply Hno; now right |].
    split; congruence.
Qed.

(** C2.  The data callback of [startMicro] over the chunks of one output
    stream: once the state is RUNNING, whatever chunks follow leave the
    world as it is (no transition, no notification, nothing observed); and
    from a state other than RUNNING, a stream in which the ready marker
    occurs in one chunk or in several ends in RUNNING with exactly one
    notification more than before. *)
Theorem ready_marker_transition_happens_once :
  forall (chunks : list string) (w : MicroWorld),
    (micro_state (payaraMicro w) = RUNNING -> MicroController.feed chunks w = w) /\
    (micro_state (payaraMicro w) <> RUNNING ->
     (exists c, In c chunks /\ occurs "Payara Micro URLs:" c) ->
     micro_state (payaraMicro (MicroController.feed chunks w)) = RUNNING /\
     MicroController.notifications (MicroController.feed chunks w) =
       S (MicroController.notifications w)).
Proof.
  intros chunks w. split; [apply feed_running|].
  revert w. induction chunks as [|c chunks IH]; intros w Hs [c0 [Hin Hocc]].
  - destruct Hin.
  - simpl. destruct (startMicro_data_not_running c w Hs) as (w' & E & Hw').
    rewrite E. simpl.
    destruct (JS.indexOf c "Payara Micro URLs:" >? -1) eqn:Hidx.
    + destruct Hw' as [Hst Hn]. rewrite (feed_running chunks w' Hst). split; assumption.
    + destruct Hw' as [Hst Hn]. destruct Hin as [->|Hin].
      * apply indexOf_occurs in Hocc. congruence.
      * destruct (IH w') as [IH1 IH2]; [congruence | exists c0; split; assumption |].
        split; congruence.
Qed.

Lemma ready_marker_transition_happens_once_witness :
  micro_state (payaraMicro
    (MicroController.feed [Sample.banner; "log line"; Sample.banner] (Sample.startedMicro LODING)))
  = RUNNING /\
  MicroController.notifications
    (MicroController.feed [Sample.banner; "log line"; Sample.banner] (Sample.startedMicro LODING))
  = 1%nat /\
  MicroController.feed [Sample.banner] (Sample.startedMicro RUNNING) = Sample.startedMicro RUNNING.
Proof.
  destruct (ready_marker_transition_happens_once
              [Sample.banner; "log line"; Sample.banner] (Sample.startedMicro LODING))
    as [_ H].
  destruct (ready_marker_transition_happens_once [Sample.banner] (Sample.startedMicro RUNNING))
    as [H' _].
  assert (Hs : micro_state (payaraMicro (Sample.startedMicro LODING)) <> RUNNING)
    by (simpl; discriminate).
  assert (Ho : exists c, In c [Sample.banner; "log line"; Sample.banner]
                         /\ occurs "Payara Micro URLs:" c).
  { exists Sample.banner. split; [left; reflexivity|].
    exists "", (JS.nl ++ " http://localhost:8080" ++ JS.nl). reflexivity. }
  destruct (H Hs Ho) as [H1 H2].
  split; [exact H1 | split; [exact H2 | apply H'; reflexivity]].
Defined.

(** ** Launching Maven *)

Lemma fireCommand_launches host command task (w : MicroWorld) :
  mavenAvailable host ->
  exists p w',
    Maven.fireCommand host command task w = (Return p, w') /\
    pid p <> None /\
    payaraMicro w' = payaraMicro w /\
    debugConfig w' = debugConfig w /\
    listening w' = task :: listening w.
Proof.
  intros (home & Hhome & Hne & Hexe & Hws & Hpid).
  unfold Maven.fireCommand. cbv zeta. rewrite Hhome, Hne, Hexe. cbn [negb].
  destruct (workspaceFolder host) as [ws|]; [|congruence].
  specialize (Hpid command).
  destruct (pid (spawn host (Maven.getExecutableFullPath host home) command)) as [n|] eqn:Hp;
    [|congruence].
  micro_unfold. cbn.
  eexists; eexists; split; [reflexivity|].
  cbn. repeat split. rewrite Hp. discriminate.
Qed.

Lemma startPayaraMicro_launches host dc task (w : MicroWorld) :
  mavenAvailable host -> deployable host ->
  exists p w',
    Maven.startPayaraMicro host dc task w = (Return (Some p), w') /\
    pid p <> None /\
    payaraMicro w' = payaraMicro w /\
    debugConfig w' = debugConfig w /\
    listening w' = task :: listening w.
Proof.
  intros Hm (r & Hr & Hen).
  unfold Maven.startPayaraMicro, Maven.getMicroPluginReader. rewrite Hr.
  unfold bind at 1. unfold ret at 1.
  assert (Hb : Bool.eqb (isDeployWarEnabled r) false && Bool.eqb (isUberJarEnabled r) false = false).
  { destruct Hen as [-> | ->]; simpl; [reflexivity|]. apply andb_false_r. }
  rewrite Hb.
  match goal with
  | |- context [Maven.fireCommand host ?c task] =>
      destruct (fireCommand_launches host c task w Hm) as (p & w' & E & Hp & H1 & H2 & H3)
  end.
  exists p, w'. unfold bind. rewrite E. unfold ret. repeat split; assumption.
Qed.

Lemma startMicro_launches host debug (w : MicroWorld) :
  mavenAvailable host -> deployable host ->
  micro_state (payaraMicro w) = STOPPED ->
  exists p w',
    MicroController.startMicro host debug w = (Return tt, w') /\
    pid p <> None /\
    micro_state (payaraMicro w') = LODING /\
    micro_debug (payaraMicro w') = debug /\
    micro_homePage (payaraMicro w') = micro_homePage (payaraMicro w) /\
    micro_process (payaraMicro w') = Some p /\
    listening w' = StartMicroTask :: listening w.
Proof.
  intros Hm Hd Hs.
  unfold MicroController.startMicro.
  unfold bind at 1. unfold Micro.isStopped, Micro.getInstance.
  micro_unfold. rewrite Hs. cbn [InstanceState_eqb negb].
  match goal with
  | |- context [Maven.startPayaraMicro host ?dc StartMicroTask ?W] =>
      destruct (startPayaraMicro_launches host dc StartMicroTask W Hm Hd)
        as (p & w' & E & Hp & H1 & H2 & H3);
      rewrite E
  end.
  cbn in H1, H2, H3.
  exists p. eexists. split; [reflexivity|]. cbn. rewrite H1, H3. cbn.
  repeat split. exact Hp.
Qed.

(** ** The scenario of the banner *)

Lemma banner_event (w : MicroWorld) l :
  listening w = StartMicroTask :: l ->
  micro_state (payaraMicro w) <> RUNNING ->
  let w' := snd (MicroController.processEvent StartMicroTask (OnData Sample.banner) w) in
  micro_state (payaraMicro w') = RUNNING /\
  micro_homePage (payaraMicro w') = Some " http://localhost:8080".
Proof.
  intros Hl Hs. apply InstanceState_eqb_neq in Hs.
  unfold MicroController.processEvent, MicroController.dataCallback,
    MicroController.startMicro_data.
  micro_unfold. rewrite Hl. cbn [existsb Task_eqb orb payaraMicro micro_state].
  rewrite Hs. cbn [negb debugConfig].
  destruct (debugConfig w); split; reflexivity.
Qed.

(** C3 (as the code has it).  On a workstation where Maven can be launched
    for a deployable project, [startMicro] with debug off on a STOPPED
    instance, followed by the chunk "Payara Micro URLs:\n
    http://localhost:8080\n" from the process, leaves the instance RUNNING
    with as home page the line after the marker as it was printed: the
    string " http://localhost:8080", leading blank included. *)
Theorem banner_sets_running_and_home_page_verbatim :
  forall host (w : MicroWorld),
    mavenAvailable host -> deployable host ->
    micro_state (payaraMicro w) = STOPPED ->
    let w' := MicroController.run host
                [MicroController.StartMicro false;
                 MicroController.Event StartMicroTask (OnData Sample.banner)] w in
    micro_state (payaraMicro w') = RUNNING /\
    micro_homePage (payaraMicro w') = Some " http://localhost:8080".
Proof.
  intros host w Hm Hd Hs. cbn [MicroController.run MicroController.perform].
  destruct (startMicro_launches host false w Hm Hd Hs)
    as (p & w1 & E & _ & Hst & _ & _ & _ & Hl).
  rewrite E. cbn [snd].
  apply (banner_event w1 (listening w)); [exact Hl | congruence].
Qed.

Lemma sample_host_mavenAvailable : mavenAvailable Sample.host.
Proof.
  exists "/opt/maven". repeat split; try reflexivity; simpl; discriminate.
Defined.

Lemma sample_host_deployable : deployable Sample.host.
Proof. exists Sample.reader. split; [reflexivity | left; reflexivity]. Defined.

Lemma banner_sets_running_and_home_page_verbatim_witness :
  micro_state (payaraMicro
    (MicroController.run Sample.host
       [MicroController.StartMicro false;
        MicroController.Event StartMicroTask (OnData Sample.banner)]
       (Sample.micro STOPPED))) = RUNNING /\
  micro_homePage (payaraMicro
    (MicroController.run Sample.host
       [MicroController.StartMicro false;
        MicroController.Event StartMicroTask (OnData Sample.banner)]
       (Sample.micro STOPPED))) = Some " http://localhost:8080".
Proof.
  apply (banner_sets_running_and_home_page_verbatim Sample.host (Sample.micro STOPPED)
           sample_host_mavenAvailable sample_host_deployable).
  reflexivity.
Defined.

(** C3 as the specification words it fails: in the scenario the home page
    is not the string "http://localhost:8080". *)
Lemma banner_home_page_is_not_trimmed :
  ~ (let w' := MicroController.run Sample.host
                 [MicroController.StartMicro false;
                  MicroController.Event StartMicroTask (OnData Sample.banner)]
                 (Sample.micro STOPPED) in
     micro_state (payaraMicro w') = RUNNING /\
     micro_homePage (payaraMicro w') = Some "http://localhost:8080").
Proof. intros [_ H]. vm_compute in H. discriminate H. Qed.

(** ** Maven never touches the instance *)

Lemma fireCommand_instance host command task (w : MicroWorld) :
  payaraMicro (snd (Maven.fireCommand host command task w)) = payaraMicro w.
Proof.
  unfold Maven.fireCommand. cbv zeta.
  destruct (Maven.getDefaultHome host) as [home|]; [|reflexivity].
  destruct (JS.isEmpty home); [reflexivity|].
  destruct (existsSync host _); [|reflexivity]. cbn [negb].
  destruct (workspaceFolder host); [|reflexivity].
  micro_unfold. destruct (pid _); reflexivity.
Qed.

Lemma startPayaraMicro_instance host dc task (w : MicroWorld) :
  payaraMicro (snd (Maven.startPayaraMicro host dc task w)) = payaraMicro w.
Proof.
  unfold Maven.startPayaraMicro, Maven.getMicroPluginReader.
  destruct (microPluginReader host) as [r|]; [|reflexivity].
  unfold bind at 1. unfold ret at 1.
  destruct (Bool.eqb (isDeployWarEnabled r) false && Bool.eqb (isUberJarEnabled r) false);
    [reflexivity|].
  unfold bind.
  match goal with
  | |- context [Maven.fireCommand host ?c task w] =>
      pose proof (fireCommand_instance host c task w) as H;
      destruct (Maven.fireCommand host c task w) as [[p|e] w']
  end; exact H.
Qed.

Lemma reloadPayaraMicro_instance host task (w : MicroWorld) :
  payaraMicro (snd (Maven.reloadPayaraMicro host task w)) = payaraMicro w.
Proof.
  unfold Maven.reloadPayaraMicro, Maven.getMicroPluginReader.
  destruct (microPluginReader host) as [r|]; [|reflexivity].
  unfold bind at 1. unfold ret at 1.
  destruct (isUberJarEnabled r); [reflexivity|].
  unfold bind.
  match goal with
  | |- context [Maven.fireCommand host ?c task w] =>
      pose proof (fireCommand_instance host c task w) as H;
      destruct (Maven.fireCommand host c task w) as [[p|e] w']
  end; exact H.
Qed.

Lemma stopPayaraMicro_instance host task (w : MicroWorld) :
  payaraMicro (snd (Maven.stopPayaraMicro host task w)) = payaraMicro w.
Proof.
  unfold Maven.stopPayaraMicro, bind.
  match goal with
  | |- context [Maven.fireCommand host ?c task w] =>
      pose proof (fireCommand_instance host c task w) as H;
      destruct (Maven.fireCommand host c task w) as [[p|e] w']
  end; exact H.
Qed.

Lemma bundlePayaraMicro_instance host task (w : MicroWorld) :
  payaraMicro (snd (Maven.bundlePayaraMicro host task w)) = payaraMicro w.
Proof.
  unfold Maven.bundlePayaraMicro, bind. cbv zeta.
  match goal with
  | |- context [Maven.fireCommand host ?c task w] =>
      pose proof (fireCommand_instance host c task w) as H;
      destruct (Maven.fireCommand host c task w) as [[p|e] w']
  end; exact H.
Qed.

(** ** The states a micro instance can take *)

(** After any command or event the state is the one before, or one of
    STOPPED, LODING, RUNNING. *)
Lemma perform_state host a (w : MicroWorld) :
  let st := micro_state (payaraMicro (snd (MicroController.perform host a w))) in
  st = micro_state (payaraMicro w) \/ st = STOPPED \/ st = LODING \/ st = RUNNING.
Proof.
  destruct a as [debug| | | |t ev]; cbn [MicroController.perform].
  - unfold MicroController.startMicro. micro_unfold.
    destruct (InstanceState_eqb _ STOPPED); cbn [negb]; [|left; reflexivity].
    match goal with
    | |- context [Maven.startPayaraMicro host ?dc ?t ?W] =>
        pose proof (startPayaraMicro_instance host dc t W) as H;
        destruct (Maven.startPayaraMicro host dc t W) as [[[p|]|e] w']
    end; cbn in H |- *; rewrite ?H; cbn; auto.
  - unfold MicroController.reloadMicro. micro_unfold.
    destruct (InstanceState_eqb _ STOPPED); [left; reflexivity|].
    match goal with
    | |- context [Maven.reloadPayaraMicro host ?t ?W] =>
        pose proof (reloadPayaraMicro_instance host t W) as H;
        destruct (Maven.reloadPayaraMicro host t W) as [[[p|]|e] w']
    end; cbn in H |- *; rewrite ?H; cbn; auto.
  - unfold MicroController.stopMicro. micro_unfold.
    destruct (InstanceState_eqb _ STOPPED); [left; reflexivity|].
    pose proof (stopPayaraMicro_instance host StopMicroTask w) as H.
    destruct (Maven.stopPayaraMicro host StopMicroTask w) as [[p|e] w'];
      cbn in H |- *; rewrite H; auto.
  - unfold MicroController.bundleMicro. micro_unfold.
    pose proof (bundlePayaraMicro_instance host BundleMicroTask w) as H.
    destruct (Maven.bundlePayaraMicro host BundleMicroTask w) as [[p|e] w'];
      cbn in H |- *; rewrite H; auto.
  - unfold MicroController.processEvent. micro_unfold.
    destruct (existsb _ _); [|left; reflexivity].
    destruct ev as [chunk|code|message].
    + destruct t; cbn [MicroController.dataCallback]; try (left; reflexivity).
      destruct (InstanceState_eqb (micro_state (payaraMicro w)) RUNNING) eqn:Hr.
      * rewrite startMicro_data_running by (now apply InstanceState_eqb_eq).
        left; reflexivity.
      * destruct (startMicro_data_not_running chunk
                    (Micro.says w [OutputAppend chunk])) as (w' & E & Hw').
        { now apply InstanceState_eqb_neq. }
        unfold Micro.says in E. rewrite E. cbn [snd].
        destruct (JS.indexOf chunk "Payara Micro URLs:" >? -1);
          destruct Hw' as [Hst _]; rewrite Hst; auto.
    + destruct t; cbn [MicroController.exitCallback];
        unfold MicroController.startMicro_exit, MicroController.reloadMicro_exit,
          MicroController.stopMicro_exit, MicroController.bundleMicro_exit;
        micro_unfold; destruct (negb (code =? 0)); cbn; auto.
    + destruct t; cbn [MicroController.errorCallback];
        unfold MicroController.startMicro_error, MicroController.reloadMicro_error,
          MicroController.stopMicro_error, MicroController.bundleMicro_error;
        micro_unfold; cbn; auto.
Qed.

Lemma run_never_restarting host actions (w : MicroWorld) :
  micro_state (payaraMicro w) <> RESTARTING ->
  micro_state (payaraMicro (MicroController.run host actions w)) <> RESTARTING.
Proof.
  revert w. induction actions as [|a actions IH]; intros w H; simpl; [exact H|].
  apply IH. destruct (perform_state host a w) as [E|[E|[E|E]]]; rewrite E;
    [exact H | discriminate..].
Qed.

(** ** The exit callback of a started instance *)

(** C4.  The exit callback of a started instance.  On a server the
    callback that [startServer] attaches ignores the exit while the server
    is flagged RESTARTING (nothing changes, nothing is observed) and
    otherwise sets the state to STOPPED and refreshes the list.  A micro
    instance is never flagged RESTARTING, whatever commands and process
    events it has gone through, so that for it the exception does not
    arise: the callback that [startMicro] attaches sets its state to
    STOPPED, also when it is delivered through the listener of the start
    process. *)
Theorem exit_sets_stopped_unless_restarting :
  forall host (s : ServerWorld) (m0 : MicroWorld)
         (actions : list MicroController.Action) (code : Z),
    (server_state (payaraServer s) = RESTARTING ->
     Server.startServer_exit code s = (Return tt, s)) /\
    (server_state (payaraServer s) <> RESTARTING ->
     Server.startServer_exit code s =
       (Return tt,
        {| payaraServer := {| server_state := STOPPED;
                              server_debug := server_debug (payaraServer s) |};
           pending := pending s;
           server_trace := server_trace s ++ [Refresh] |})) /\
    (micro_state (payaraMicro m0) <> RESTARTING ->
     let m := MicroController.run host actions m0 in
     micro_state (payaraMicro m) <> RESTARTING /\
     fst (MicroController.startMicro_exit code m) = Return tt /\
     micro_state (payaraMicro (snd (MicroController.startMicro_exit code m))) = STOPPED /\
     (existsb (Task_eqb StartMicroTask) (listening m) = true ->
      micro_state (payaraMicro
        (snd (MicroController.processEvent StartMicroTask (OnExit code) m))) = STOPPED)).
Proof.
  intros host s m0 actions code. split; [|split].
  - intros H. unfold Server.startServer_exit. server_unfold. rewrite H. reflexivity.
  - intros H. apply InstanceState_eqb_neq in H.
    unfold Server.startServer_exit. server_unfold. rewrite H. reflexivity.
  - intros H0. cbv zeta.
    split; [now apply run_never_restarting|].
    split; [|split].
    + unfold MicroController.startMicro_exit. micro_unfold.
      destruct (negb (code =? 0)); reflexivity.
    + unfold MicroController.startMicro_exit. micro_unfold.
      destruct (negb (code =? 0)); reflexivity.
    + intros Hl. unfold MicroController.processEvent. micro_unfold. rewrite Hl.
      cbn [MicroController.exitCallback].
      unfold MicroController.startMicro_exit. micro_unfold.
      destruct (negb (code =? 0)); reflexivity.
Qed.

Lemma exit_sets_stopped_unless_restarting_witness :
  Server.startServer_exit 0 (Sample.server RESTARTING true) =
    (Return tt, Sample.server RESTARTING true) /\
  server_state (payaraServer (snd (Server.startServer_exit 1 (Sample.server RUNNING true))))
    = STOPPED /\
  micro_state (payaraMicro
    (snd (MicroController.processEvent StartMicroTask (OnExit 1)
            (MicroController.run Sample.host
               [MicroController.StartMicro true;
                MicroController.Event StartMicroTask (OnData Sample.banner);
                MicroController.ReloadMicro]
               (Sample.micro STOPPED))))) = STOPPED.
Proof.
  destruct (exit_sets_stopped_unless_restarting Sample.host
              (Sample.server RESTARTING true) (Sample.micro STOPPED) [] 0)
    as (H1 & _ & _).
  destruct (exit_sets_stopped_unless_restarting Sample.host
              (Sample.server RUNNING true) (Sample.micro STOPPED)
              [MicroController.StartMicro true;
               MicroController.Event StartMicroTask (OnData Sample.banner);
               MicroController.ReloadMicro] 1)
    as (_ & H2 & H3).
  split; [apply H1; reflexivity|].
  split; [rewrite H2; [reflexivity | simpl; discriminate]|].
  assert (H0 : micro_state (payaraMicro (Sample.micro STOPPED)) <> RESTARTING)
    by (simpl; discriminate).
  destruct (H3 H0) as (_ & _ & _ & H4). apply H4. reflexivity.
Defined.

(** ** Restart *)

(** C6.  [restartServer] on a server that is not stopped only sends the
    restart-domain request; when the answer has a status other than 200 the
    callback shows the error message and that is all: state and debug flag
    are the ones before the call, neither RESTARTING nor STOPPED is set, no
    probe is started and the completion callback is not called. *)
Theorem failed_restart_leaves_instance_unchanged :
  forall (s : ServerWorld) (debug : bool) (callback : option Callback) (statusCode : Z),
    server_state (payaraServer s) <> STOPPED ->
    statusCode <> 200 ->
    let s1 := snd (Server.restartServer debug callback s) in
    let s2 := snd (Server.handle (RestartResponse debug callback) (Response statusCode) s1) in
    pending s1 = (pending s ++ [RestartResponse debug callback])%list /\
    payaraServer s1 = payaraServer s /\
    payaraServer s2 = payaraServer s /\
    pending s2 = pending s1 /\
    server_trace s2 =
      (server_trace s ++ [Invoke "restart-domain";
                          ShowErrorMessage "Unable to restart the Payara Server."])%list.
Proof.
  intros s debug callback statusCode Hs Hc.
  apply InstanceState_eqb_neq in Hs. apply Z.eqb_neq in Hc.
  unfold Server.restartServer, Server.handle, Server.restartServer_response.
  server_unfold. rewrite Hs. cbn [snd]. rewrite Hc. cbn.
  repeat split. rewrite <- app_assoc. reflexivity.
Qed.

Lemma failed_restart_leaves_instance_unchanged_witness :
  payaraServer
    (snd (Server.handle (RestartResponse true None) (Response 503)
            (snd (Server.restartServer true None (Sample.server RUNNING false)))))
  = payaraServer (Sample.server RUNNING false).
Proof.
  assert (Hs : server_state (payaraServer (Sample.server RUNNING false)) <> STOPPED)
    by (simpl; discriminate).
  assert (Hc : 503 <> 200) by lia.
  exact (proj1 (proj2 (proj2
    (failed_restart_leaves_instance_unchanged (Sample.server RUNNING false)
       true None 503 Hs Hc)))).
Defined.

(** ** Deploy *)

Lemma deploy_uploads fsPath status (w : ServerWorld) :
  exists e,
    (e = DeployApplication fsPath \/ e = BuildAndDeployApplication fsPath) /\
    Server.deploy fsPath status w =
      (Return tt,
       Server.says w [if status then e
                      else ShowErrorMessage "Unable to deploy the application as Payara Server instance not running."]).
Proof.
  unfold Server.deploy. destruct status.
  - destruct (JS.endsWith fsPath ".war" || JS.endsWith fsPath ".jar");
      eexists; (split; [|reflexivity]); auto.
  - exists (DeployApplication fsPath). split; [auto | reflexivity].
Qed.

(** C7.  [deployApp] on a server that is not started does nothing but call
    [startServer] with the [deploy] closure as completion callback; the call
    itself attempts no upload.  When the probe of that start finds the
    server, the callback is called with true and exactly one upload (of the
    artifact, or a build followed by one) is added to what was observed;
    when the probe gives up, the callback is called with false, the error
    message of the deployment is shown and no upload is attempted.  The
    closure uploads if and only if its argument is true. *)
Theorem deploy_on_not_started_instance_goes_through_start :
  forall startTask (fsPath : string) (debug : bool) (s : ServerWorld),
    server_state (payaraServer s) <> RUNNING ->
    Server.deployApp startTask fsPath debug Selected s =
      Server.startServer startTask debug (Some (Deploy fsPath)) s /\
    filter isUpload (server_trace (snd (Server.deployApp startTask fsPath debug Selected s)))
      = filter isUpload (server_trace s) /\
    (server_state (payaraServer s) = STOPPED -> pid (startTask debug) <> None ->
     In (StartProbe (Some (Deploy fsPath)))
        (pending (snd (Server.deployApp startTask fsPath debug Selected s)))) /\
    (forall w : ServerWorld,
       let w' := snd (Server.handle (StartProbe (Some (Deploy fsPath))) Alive w) in
       exists e,
         (e = DeployApplication fsPath \/ e = BuildAndDeployApplication fsPath) /\
         server_trace w' = (server_trace w ++ [Refresh; ReloadApplications; e])%list) /\
    (forall w : ServerWorld,
       let w' := snd (Server.handle (StartProbe (Some (Deploy fsPath))) Timeout w) in
       server_trace w' =
         (server_trace w ++
          [Refresh;
           ShowErrorMessage "Unable to deploy the application as Payara Server instance not running.";
           ShowErrorMessage "Unable to start the Payara Server."])%list /\
       filter isUpload (server_trace w') = filter isUpload (server_trace w)) /\
    (forall (status : bool) (w : ServerWorld),
       filter isUpload (server_trace (snd (Server.call (Some (Deploy fsPath)) status w)))
         <> filter isUpload (server_trace w)
       <-> status = true).
Proof.
  intros startTask fsPath debug s Hs.
  assert (Hcall : Server.deployApp startTask fsPath debug Selected s =
                  Server.startServer startTask debug (Some (Deploy fsPath)) s).
  { apply InstanceState_eqb_neq in Hs.
    unfold Server.deployApp. unfold bind at 1. unfold Server.isStarted, Server.getInstance.
    server_unfold. rewrite Hs. reflexivity. }
  split; [exact Hcall|]. rewrite Hcall. clear Hcall.
  split; [|split; [|split; [|split]]].
  - unfold Server.startServer. server_unfold.
    destruct (InstanceState_eqb _ STOPPED); cbn [negb];
      [destruct (pid (startTask debug))|]; cbn;
      rewrite ?filter_app; cbn; rewrite ?app_nil_r; reflexivity.
  - intros Hst Hpid. unfold Server.startServer. server_unfold. rewrite Hst.
    cbn [InstanceState_eqb negb].
    destruct (pid (startTask debug)); [|congruence]. cbn.
    apply in_or_app. right. left. reflexivity.
  - intros w. cbn [Server.handle]. unfold Server.startServer_alive, Server.call.
    destruct (deploy_uploads fsPath true
                (Server.says
                   {| payaraServer := {| server_state := RUNNING;
                                         server_debug := server_debug (payaraServer w) |};
                      pending := pending w; server_trace := server_trace w |}
                   [Refresh; ReloadApplications])) as (e & He & E).
    exists e. split; [exact He|].
    server_unfold. unfold Server.says in E. cbn in E |- *. rewrite <- !app_assoc. cbn.
    rewrite E. cbn. rewrite <- !app_assoc. reflexivity.
  - intros w. cbn [Server.handle]. unfold Server.startServer_timeout, Server.call, Server.deploy.
    server_unfold. cbn. rewrite <- !app_assoc. cbn. split; [reflexivity|].
    rewrite filter_app. cbn. apply app_nil_r.
  - intros status w. unfold Server.call.
    destruct (deploy_uploads fsPath status w) as (e & He & E). rewrite E.
    unfold Server.says. cbn. rewrite filter_app.
    destruct status.
    + split; [reflexivity|]. intros _ H.
      assert (L : length (filter isUpload (server_trace w) ++ filter isUpload [e]) =
                  length (filter isUpload (server_trace w))) by (now rewrite H).
      rewrite length_app in L. destruct He as [-> | ->]; cbn in L; lia.
    + cbn. rewrite app_nil_r. split; [congruence | discriminate].
Qed.

Lemma deploy_on_not_started_instance_goes_through_start_witness :
  Server.deployApp Sample.startTask "/work/app/target/app.war" false Selected
    (Sample.server STOPPED false) =
  Server.startServer Sample.startTask false (Some (Deploy "/work/app/target/app.war"))
    (Sample.server STOPPED false) /\
  In (StartProbe (Some (Deploy "/work/app/target/app.war")))
     (pending (snd (Server.deployApp Sample.startTask "/work/app/target/app.war" false Selected
                      (Sample.server STOPPED false)))).
Proof.
  assert (Hs : server_state (payaraServer (Sample.server STOPPED false)) <> RUNNING)
    by (simpl; discriminate).
  destruct (deploy_on_not_started_instance_goes_through_start Sample.startTask
              "/work/app/target/app.war" false (Sample.server STOPPED false) Hs)
    as (H1 & _ & H3 & _).
  split; [exact H1|]. apply H3; [reflexivity | simpl; discriminate].
Defined.

(** ** Reload *)

Lemma reloadMicro_launches host r (w : MicroWorld) :
  mavenAvailable host ->
  microPluginReader host = Some r -> isUberJarEnabled r = false ->
  micro_state (payaraMicro w) <> STOPPED ->
  exists w',
    MicroController.reloadMicro host w = (Return tt, w') /\
    micro_state (payaraMicro w') = LODING /\
    listening w' = ReloadMicroTask :: listening w.
Proof.
  intros Hm Hr Hu Hs. apply InstanceState_eqb_neq in Hs.
  unfold MicroController.reloadMicro.
  unfold bind at 1. unfold Micro.isStopped, Micro.getInstance. micro_unfold.
  rewrite Hs.
  unfold Maven.reloadPayaraMicro, Maven.getMicroPluginReader. rewrite Hr.
  micro_unfold. rewrite Hu.
  match goal with
  | |- context [Maven.fireCommand host ?c ?t ?W] =>
      destruct (fireCommand_launches host c t W Hm) as (p & w' & E & _ & H1 & _ & H3);
      rewrite E
  end.
  cbn in H1, H3. exists w'. split; [reflexivity|]. rewrite H1, H3. split; reflexivity.
Qed.

(** The endings that [reloadMicro] handles give RUNNING: the exit
    callback of the reload task for every exit code, its error callback,
    and the call itself when the build declines to produce a task (the
    project is packaged as an Uber jar); also with the call in front, on a
    workstation where Maven can be launched. *)
Lemma reload_handled_endings_give_running :
  forall host (w : MicroWorld) (code : Z) (message : string),
    micro_state (payaraMicro w) <> STOPPED ->
    micro_state (payaraMicro (snd (MicroController.reloadMicro_exit code w))) = RUNNING /\
    micro_state (payaraMicro (snd (MicroController.reloadMicro_error message w))) = RUNNING /\
    (forall r,
       microPluginReader host = Some r -> isUberJarEnabled r = true ->
       fst (MicroController.reloadMicro host w) = Return tt /\
       micro_state (payaraMicro (snd (MicroController.reloadMicro host w))) = RUNNING /\
       filter isSpawn (trace (snd (MicroController.reloadMicro host w)))
         = filter isSpawn (trace w)) /\
    (forall r,
       mavenAvailable host ->
       microPluginReader host = Some r -> isUberJarEnabled r = false ->
       micro_state (payaraMicro
         (MicroController.run host
            [MicroController.ReloadMicro;
             MicroController.Event ReloadMicroTask (OnExit code)] w)) = RUNNING /\
       micro_state (payaraMicro
         (MicroController.run host
            [MicroController.ReloadMicro;
             MicroController.Event ReloadMicroTask (OnError message)] w)) = RUNNING).
Proof.
  intros host w code message Hs.
  split; [|split; [|split]].
  - unfold MicroController.reloadMicro_exit. micro_unfold.
    destruct (negb (code =? 0)); reflexivity.
  - reflexivity.
  - intros r Hr Hu. apply InstanceState_eqb_neq in Hs.
    unfold MicroController.reloadMicro, Maven.reloadPayaraMicro, Maven.getMicroPluginReader.
    rewrite Hr. micro_unfold. rewrite Hs, Hu. cbn.
    repeat split. rewrite !filter_app. cbn. now rewrite !app_nil_r.
  - intros r Hm Hr Hu. cbn [MicroController.run MicroController.perform].
    destruct (reloadMicro_launches host r w Hm Hr Hu Hs) as (w' & E & _ & Hl).
    rewrite E. cbn [snd]. unfold MicroController.processEvent. micro_unfold.
    rewrite Hl. cbn [existsb Task_eqb orb MicroController.exitCallback
                       MicroController.errorCallback].
    split.
    + unfold MicroController.reloadMicro_exit. micro_unfold.
      destruct (negb (code =? 0)); reflexivity.
    + reflexivity.
Qed.

(** ** Start when the build declines or Maven cannot be launched *)

(** C10.  When the plugin configuration has deployWar and useUberJar both
    off, [startMicro] on a stopped instance returns normally with the
    instance STOPPED again: the build shows its warning and hands back no
    process, nothing is spawned, no callback is attached and no process
    handle is stored.  The state went through LODING in between, hence the
    two notifications. *)
Theorem start_with_both_options_disabled_returns_to_stopped :
  forall host (debug : bool) (w : MicroWorld) (r : MicroPluginReader),
    micro_state (payaraMicro w) = STOPPED ->
    microPluginReader host = Some r ->
    isDeployWarEnabled r = false ->
    isUberJarEnabled r = false ->
    let '(res, w') := MicroController.startMicro host debug w in
    res = Return tt /\
    micro_state (payaraMicro w') = STOPPED /\
    micro_process (payaraMicro w') = micro_process (payaraMicro w) /\
    listening w' = listening w /\
    trace w' =
      (trace w ++
       [Refresh;
        ShowWarningMessage "Please either enable the deployWar or useUberJar option in payara-micro-maven-plugin configuration to deploy the application.";
        Refresh])%list.
Proof.
  intros host debug w r Hs Hr Hd Hu.
  unfold MicroController.startMicro, Maven.startPayaraMicro, Maven.getMicroPluginReader.
  rewrite Hr. micro_unfold. rewrite Hs, Hd, Hu. cbn.
  repeat split. rewrite <- !app_assoc. reflexivity.
Qed.

Lemma start_with_both_options_disabled_returns_to_stopped_witness :
  micro_state (payaraMicro
    (snd (MicroController.startMicro Sample.hostBothDisabled false (Sample.micro STOPPED))))
  = STOPPED.
Proof.
  pose proof (start_with_both_options_disabled_returns_to_stopped
                Sample.hostBothDisabled false (Sample.micro STOPPED)
                {| isDeployWarEnabled := false; isUberJarEnabled := false |}
                eq_refl eq_refl eq_refl eq_refl) as H.
  destruct (MicroController.startMicro Sample.hostBothDisabled false (Sample.micro STOPPED)).
  apply H.
Defined.

(** The error callback of the start task does set STOPPED, after logging
    to the console. *)
Lemma startMicro_error_sets_stopped message (w : MicroWorld) :
  MicroController.startMicro_error message w =
  (Return tt,
   {| payaraMicro := {| micro_state := STOPPED;
                        micro_debug := micro_debug (payaraMicro w);
                        micro_homePage := micro_homePage (payaraMicro w);
                        micro_process := micro_process (payaraMicro w) |};
      debugConfig := debugConfig w; listening := listening w;
      trace := trace w ++ [ConsoleError ("Error on executing startMicro task: " ++ message);
                           Refresh] |}).
Proof.
  unfold MicroController.startMicro_error. micro_unfold. cbn.
  rewrite <- app_assoc. reflexivity.
Qed.

(** An exception out of [startMicro] leaves the instance in LODING: the
    state is set before the build is asked for a process, and nothing
    catches what [fireCommand] throws. *)
Lemma startMicro_exception_keeps_loading host debug (w : MicroWorld) message :
  micro_state (payaraMicro w) = STOPPED ->
  fst (MicroController.startMicro host debug w) = Throw message ->
  micro_state (payaraMicro (snd (MicroController.startMicro host debug w))) = LODING.
Proof.
  intros Hs. unfold MicroController.startMicro. micro_unfold. rewrite Hs.
  cbn [InstanceState_eqb negb].
  match goal with
  | |- context [Maven.startPayaraMicro host ?dc ?t ?W] =>
      pose proof (startPayaraMicro_instance host dc t W) as H;
      destruct (Maven.startPayaraMicro host dc t W) as [[[p|]|e] w']
  end; cbn in H |- *; try discriminate.
  intros _. rewrite H. reflexivity.
Qed.

(** C9 at the failing input.  With the Maven executable missing,
    [startMicro] on a stopped instance ends with the exception of
    [fireCommand] and the instance in LODING; nothing but the notification
    of that transition was observed, and the next start is refused as
    already running.  When [cp.spawn] returns a process without pid,
    [startMicro] returns normally with the instance in LODING and no
    callback attached, so that an error reported by the process later is
    not handled and the instance stays in LODING.  For comparison, the
    error callback of a process that did start sets STOPPED, and reports on
    the console only: no message is shown to the user. *)
Theorem start_with_missing_executable_stays_loading :
  MicroController.startMicro Sample.hostWithoutMvn false (Sample.micro STOPPED) =
    (Throw "Maven executable [/opt/maven/bin/mvn] not found",
     {| payaraMicro := {| micro_state := LODING; micro_debug := false;
                          micro_homePage := None; micro_process := None |};
        debugConfig := None; listening := []; trace := [Refresh] |}) /\
  trace (MicroController.run Sample.hostWithoutMvn
           [MicroController.StartMicro false; MicroController.StartMicro false]
           (Sample.micro STOPPED)) =
    [Refresh; ShowErrorMessage "Payara Micro instance already running."] /\
  payaraMicro (MicroController.run Sample.hostSpawnFails
                 [MicroController.StartMicro false;
                  MicroController.Event StartMicroTask (OnError "spawn EACCES")]
                 (Sample.micro STOPPED)) =
    {| micro_state := LODING; micro_debug := false;
       micro_homePage := None; micro_process := Some {| pid := None |} |} /\
  (let w := MicroController.run Sample.host
              [MicroController.StartMicro false;
               MicroController.Event StartMicroTask (OnError "kill EPERM")]
              (Sample.micro STOPPED) in
   micro_state (payaraMicro w) = STOPPED /\
   filter isUserMessage (trace w) = [] /\
   In (ConsoleError "Error on executing startMicro task: kill EPERM") (trace w)).
Proof. repeat split. vm_compute. tauto. Qed.

(** * Further properties *)

(** ** Maven: what [fireCommand] does *)

Lemma fireCommand_cases host command task (w : MicroWorld) :
  (exists message, Maven.fireCommand host command task w = (Throw message, w)) \/
  (exists exe,
     Maven.fireCommand host command task w =
       (Return (spawn host exe command),
        match pid (spawn host exe command) with
        | Some _ =>
            {| payaraMicro := payaraMicro w; debugConfig := debugConfig w;
               listening := task :: listening w;
               trace := trace w ++
                        [Spawn exe command; OutputShow;
                         OutputAppend ("> " ++ exe ++ " " ++ JS.join " " command ++ JS.nl)] |}
        | None => Micro.says w [Spawn exe command]
        end)).
Proof.
  unfold Maven.fireCommand. cbv zeta.
  destruct (Maven.getDefaultHome host) as [home|]; [|left; eexists; reflexivity].
  destruct (JS.isEmpty home); [left; eexists; reflexivity|].
  destruct (existsSync host _); cbn [negb]; [|left; eexists; reflexivity].
  destruct (workspaceFolder host); [|left; eexists; reflexivity].
  right. exists (Maven.getExecutableFullPath host home).
  micro_unfold.
  destruct (pid (spawn host (Maven.getExecutableFullPath host home) command));
    cbn; rewrite <- ?app_assoc; reflexivity.
Qed.

(** X1.  [fireCommand] either throws, and then nothing was observed and
    nothing changed, or it spawns exactly one process; the callbacks of the
    caller are attached when that process has a pid and only then.  The
    instance is never touched. *)
Theorem fireCommand_spawns_once_and_listens_iff_pid :
  forall host command task (w : MicroWorld),
    let '(res, w') := Maven.fireCommand host command task w in
    payaraMicro w' = payaraMicro w /\
    debugConfig w' = debugConfig w /\
    match res with
    | Throw _ => w' = w
    | Return p =>
        length (filter isSpawn (trace w')) = S (length (filter isSpawn (trace w))) /\
        listening w' = match pid p with
                       | Some _ => task :: listening w
                       | None => listening w
                       end
    end.
Proof.
  intros host command task w.
  destruct (fireCommand_cases host command task w) as [[message E] | [exe E]]; rewrite E.
  - repeat split.
  - destruct (pid (spawn host exe command)); cbn;
      repeat split; rewrite filter_app, length_app; cbn; lia.
Qed.

Lemma getDefaultHome_falsy host :
  JS.truthy (Maven.getDefaultHome host) = false <->
  (JS.truthy (config_maven_home host) = false /\
   JS.truthy (env_M2_HOME host) = false /\
   JS.truthy (env_MAVEN_HOME host) = false).
Proof.
  unfold Maven.getDefaultHome. cbv zeta.
  destruct (JS.truthy (config_maven_home host)) eqn:A; cbn [negb].
  - rewrite A. split; [discriminate | intros (H & _); discriminate].
  - destruct (JS.truthy (env_M2_HOME host)) eqn:B; cbn [negb].
    + rewrite B. split; [discriminate | intros (_ & H & _); discriminate].
    + split; [intros H; repeat split; exact H | intros (_ & _ & H); exact H].
Qed.

(** X2.  [fireCommand] throws "Maven home path not found." exactly when
    the setting maven.home and the variables M2_HOME and MAVEN_HOME are
    all undefined or empty. *)
Theorem fireCommand_home_not_found_iff_no_home :
  forall host command task (w : MicroWorld),
    fst (Maven.fireCommand host command task w) = Throw "Maven home path not found."
    <->
    (JS.truthy (config_maven_home host) = false /\
     JS.truthy (env_M2_HOME host) = false /\
     JS.truthy (env_MAVEN_HOME host) = false).
Proof.
  intros host command task w. rewrite <- getDefaultHome_falsy.
  unfold Maven.fireCommand. cbv zeta.
  destruct (Maven.getDefaultHome host) as [[|c s]|]; cbn [JS.truthy JS.isEmpty negb fst];
    try (split; reflexivity).
  split; [|discriminate].
  destruct (existsSync host _); cbn [negb fst].
  - destruct (workspaceFolder host); cbn [fst]; [|discriminate].
    micro_unfold. destruct (pid _); cbn; discriminate.
  - intros H. exfalso. simpl in H. discriminate H.
Qed.

Lemma lastChar_app_char s c :
  JS.lastChar (s ++ String c EmptyString) = String c EmptyString.
Proof.
  induction s as [|d s IH]; [reflexivity|].
  change (String d s ++ String c "") with (String d (s ++ String c "")).
  destruct (s ++ String c "") eqn:E.
  - destruct s; discriminate.
  - cbn [JS.lastChar]. exact IH.
Qed.

(** X3.  For a Maven home that does not end with the path separator,
    adding the separator at its end makes no difference to the executable
    that [getExecutableFullPath] names: "/opt/maven" and "/opt/maven/" give
    the same path.  (The path separator is one character.) *)
Theorem getExecutableFullPath_ignores_trailing_separator :
  forall host home c,
    path_sep host = String c EmptyString ->
    JS.lastChar home <> path_sep host ->
    Maven.getExecutableFullPath host (home ++ path_sep host) =
    Maven.getExecutableFullPath host home.
Proof.
  intros host home c Hsep Hlast.
  unfold Maven.getExecutableFullPath. cbv zeta.
  rewrite Hsep in *. rewrite lastChar_app_char, String.eqb_refl.
  apply String.eqb_neq in Hlast. rewrite Hlast. reflexivity.
Qed.

Lemma getExecutableFullPath_ignores_trailing_separator_witness :
  Maven.getExecutableFullPath Sample.host "/opt/maven/" =
  Maven.getExecutableFullPath Sample.host "/opt/maven".
Proof.
  apply (getExecutableFullPath_ignores_trailing_separator Sample.host "/opt/maven" "/"%char).
  - reflexivity.
  - simpl. discriminate.
Defined.

(** ** Micro: every way a start, a reload or a stop can end *)

Lemma startPayaraMicro_cases host dc task (w : MicroWorld) :
  (exists message, Maven.startPayaraMicro host dc task w = (Throw message, w)) \/
  (exists message,
     Maven.startPayaraMicro host dc task w =
       (Return None, Micro.says w [ShowWarningMessage message])) \/
  (exists exe args,
     Maven.startPayaraMicro host dc task w =
       (Return (Some (spawn host exe args)),
        match pid (spawn host exe args) with
        | Some _ =>
            {| payaraMicro := payaraMicro w; debugConfig := debugConfig w;
               listening := task :: listening w;
               trace := trace w ++
                        [Spawn exe args; OutputShow;
                         OutputAppend ("> " ++ exe ++ " " ++ JS.join " " args ++ JS.nl)] |}
        | None => Micro.says w [Spawn exe args]
        end)).
Proof.
  remember (Maven.startPayaraMicro host dc task w) as X eqn:EX.
  unfold Maven.startPayaraMicro, Maven.getMicroPluginReader in EX.
  destruct (microPluginReader host) as [r|];
    cbv beta iota zeta delta [bind ret throw modify Micro.emit] in EX;
    [|left; eexists; exact EX].
  destruct (Bool.eqb (isDeployWarEnabled r) false && Bool.eqb (isUberJarEnabled r) false).
  - right; left. eexists. exact EX.
  - match type of EX with
    | context [Maven.fireCommand host ?c task w] =>
        destruct (fireCommand_cases host c task w) as [[message E] | [exe E]];
        rewrite E in EX
    end.
    + left. eexists. exact EX.
    + right; right. eexists; eexists. exact EX.
Qed.

(** X4.  [startMicro] on a stopped instance ends in one of three ways, and
    in each the debug flag is the one asked for and the home page is
    untouched.  The build declined: the call returns, the instance is
    STOPPED, nothing was spawned, no handle is stored and a warning was
    shown.  A process was created: the call returns, the instance is in
    LODING, exactly one process was spawned and its handle is stored; the
    callbacks are attached when it has a pid.  An exception: the instance
    is left in LODING with nothing spawned, no handle stored and no
    callback attached. *)
Theorem startMicro_ends_in_one_of_three_ways :
  forall host debug (w : MicroWorld),
    micro_state (payaraMicro w) = STOPPED ->
    let '(res, w') := MicroController.startMicro host debug w in
    micro_debug (payaraMicro w') = debug /\
    micro_homePage (payaraMicro w') = micro_homePage (payaraMicro w) /\
    ((res = Return tt /\
      micro_state (payaraMicro w') = STOPPED /\
      micro_process (payaraMicro w') = micro_process (payaraMicro w) /\
      listening w' = listening w /\
      filter isSpawn (trace w') = filter isSpawn (trace w) /\
      exists message, In (ShowWarningMessage message) (trace w'))
     \/
     (exists p,
        res = Return tt /\
        micro_state (payaraMicro w') = LODING /\
        micro_process (payaraMicro w') = Some p /\
        length (filter isSpawn (trace w')) = S (length (filter isSpawn (trace w))) /\
        listening w' = match pid p with
                       | Some _ => StartMicroTask :: listening w
                       | None => listening w
                       end)
     \/
     (exists message,
        res = Throw message /\
        micro_state (payaraMicro w') = LODING /\
        micro_process (payaraMicro w') = micro_process (payaraMicro w) /\
        listening w' = listening w /\
        filter isSpawn (trace w') = filter isSpawn (trace w))).
Proof.
  intros host debug w Hs.
  unfold MicroController.startMicro. micro_unfold. rewrite Hs.
  cbn [InstanceState_eqb negb].
  match goal with
  | |- context [Maven.startPayaraMicro host ?dc ?t ?W] =>
      destruct (startPayaraMicro_cases host dc t W)
        as [[message E] | [[message E] | [exe [args E]]]]; rewrite E
  end.
  - cbn. repeat split. right; right. exists message.
    repeat split. rewrite filter_app. cbn. apply app_nil_r.
  - cbn. repeat split. left. repeat split.
    + rewrite !filter_app. cbn. now rewrite !app_nil_r.
    + exists message. apply in_or_app. left. apply in_or_app. right. left. reflexivity.
  - destruct (pid (spawn host exe args)) eqn:Hp; cbn; repeat split;
      right; left; exists (spawn host exe args); rewrite Hp; repeat split;
      rewrite !filter_app, !length_app; cbn; lia.
Qed.

Lemma startMicro_ends_in_one_of_three_ways_witness :
  micro_debug (payaraMicro
    (snd (MicroController.startMicro Sample.hostWithoutMvn true (Sample.micro STOPPED)))) = true.
Proof.
  pose proof (startMicro_ends_in_one_of_three_ways Sample.hostWithoutMvn true
                (Sample.micro STOPPED) eq_refl) as H.
  destruct (MicroController.startMicro Sample.hostWithoutMvn true (Sample.micro STOPPED)).
  apply H.
Defined.

Lemma reloadPayaraMicro_cases host task (w : MicroWorld) :
  (exists message, Maven.reloadPayaraMicro host task w = (Throw message, w)) \/
  (exists message,
     Maven.reloadPayaraMicro host task w =
       (Return None, Micro.says w [ShowWarningMessage message])) \/
  (exists exe args,
     Maven.reloadPayaraMicro host task w =
       (Return (Some (spawn host exe args)),
        match pid (spawn host exe args) with
        | Some _ =>
            {| payaraMicro := payaraMicro w; debugConfig := debugConfig w;
               listening := task :: listening w;
               trace := trace w ++
                        [Spawn exe args; OutputShow;
                         OutputAppend ("> " ++ exe ++ " " ++ JS.join " " args ++ JS.nl)] |}
        | None => Micro.says w [Spawn exe args]
        end)).
Proof.
  remember (Maven.reloadPayaraMicro host task w) as X eqn:EX.
  unfold Maven.reloadPayaraMicro, Maven.getMicroPluginReader in EX.
  destruct (microPluginReader host) as [r|];
    cbv beta iota zeta delta [bind ret throw modify Micro.emit] in EX;
    [|left; eexists; exact EX].
  destruct (isUberJarEnabled r).
  - right; left. eexists. exact EX.
  - match type of EX with
    | context [Maven.fireCommand host ?c task w] =>
        destruct (fireCommand_cases host c task w) as [[message E] | [exe E]];
        rewrite E in EX
    end.
    + left. eexists. exact EX.
    + right; right. eexists; eexists. exact EX.
Qed.

(** X5.  [reloadMicro] on an instance that is not stopped never touches
    the debug flag, the home page or the process handle, and ends in one of
    three ways.  The build declined: the instance is RUNNING, nothing was
    spawned and a warning was shown.  A process was created: the instance
    is in LODING, exactly one process was spawned, and the callbacks that
    bring it back to RUNNING are attached only when the process has a pid.
    An exception: the instance is left in LODING and nothing was
    spawned. *)
Theorem reloadMicro_ends_in_one_of_three_ways :
  forall host (w : MicroWorld),
    micro_state (payaraMicro w) <> STOPPED ->
    let '(res, w') := MicroController.reloadMicro host w in
    micro_debug (payaraMicro w') = micro_debug (payaraMicro w) /\
    micro_homePage (payaraMicro w') = micro_homePage (payaraMicro w) /\
    micro_process (payaraMicro w') = micro_process (payaraMicro w) /\
    ((res = Return tt /\
      micro_state (payaraMicro w') = RUNNING /\
      listening w' = listening w /\
      filter isSpawn (trace w') = filter isSpawn (trace w) /\
      exists message, In (ShowWarningMessage message) (trace w'))
     \/
     (exists p,
        res = Return tt /\
        micro_state (payaraMicro w') = LODING /\
        length (filter isSpawn (trace w')) = S (length (filter isSpawn (trace w))) /\
        listening w' = match pid p with
                       | Some _ => ReloadMicroTask :: listening w
                       | None => listening w
                       end)
     \/
     (exists message,
        res = Throw message /\
        micro_state (payaraMicro w') = LODING /\
        listening w' = listening w /\
        filter isSpawn (trace w') = filter isSpawn (trace w))).
Proof.
  intros host w Hs. apply InstanceState_eqb_neq in Hs.
  unfold MicroController.reloadMicro. micro_unfold. rewrite Hs.
  match goal with
  | |- context [Maven.reloadPayaraMicro host ?t ?W] =>
      destruct (reloadPayaraMicro_cases host t W)
        as [[message E] | [[message E] | [exe [args E]]]]; rewrite E
  end.
  - cbn. repeat split. right; right. exists message.
    repeat split. rewrite filter_app. cbn. apply app_nil_r.
  - cbn. repeat split. left. repeat split.
    + rewrite !filter_app. cbn. now rewrite !app_nil_r.
    + exists message. apply in_or_app. left. apply in_or_app. right. left. reflexivity.
  - destruct (pid (spawn host exe args)) eqn:Hp; cbn; repeat split;
      right; left; exists (spawn host exe args); rewrite Hp; repeat split;
      rewrite !filter_app, !length_app; cbn; lia.
Qed.

Lemma reloadMicro_ends_in_one_of_three_ways_witness :
  micro_process (payaraMicro
    (snd (MicroController.reloadMicro Sample.hostSpawnFails (Sample.startedMicro RUNNING))))
  = micro_process (payaraMicro (Sample.startedMicro RUNNING)).
Proof.
  assert (Hs : micro_state (payaraMicro (Sample.startedMicro RUNNING)) <> STOPPED)
    by (simpl; discriminate).
  pose proof (reloadMicro_ends_in_one_of_three_ways Sample.hostSpawnFails
                (Sample.startedMicro RUNNING) Hs) as H.
  destruct (MicroController.reloadMicro Sample.hostSpawnFails (Sample.startedMicro RUNNING)).
  apply H.
Defined.

Lemma stopMicro_launches host (w : MicroWorld) :
  mavenAvailable host ->
  micro_state (payaraMicro w) <> STOPPED ->
  exists w',
    MicroController.stopMicro host w = (Return tt, w') /\
    payaraMicro w' = payaraMicro w /\
    listening w' = StopMicroTask :: listening w.
Proof.
  intros Hm Hs. apply InstanceState_eqb_neq in Hs.
  unfold MicroController.stopMicro, Maven.stopPayaraMicro. micro_unfold. rewrite Hs.
  match goal with
  | |- context [Maven.fireCommand host ?c ?t ?W] =>
      destruct (fireCommand_launches host c t W Hm) as (p & w' & E & _ & H1 & _ & H3);
      rewrite E
  end.
  exists w'. repeat split; assumption.
Qed.

(** X6.  Stop twice in a row.  Where Maven can be launched, [stopMicro] on
    an instance that is not stopped, followed by the exit of the stop task
    with any exit code, leaves the instance STOPPED with the debug flag
    cleared; a second [stopMicro] is then refused: it shows that the
    instance is not running, spawns nothing and changes nothing. *)
Theorem stopMicro_twice_second_is_refused :
  forall host (w : MicroWorld) (code : Z),
    mavenAvailable host ->
    micro_state (payaraMicro w) <> STOPPED ->
    let w1 := MicroController.run host
                [MicroController.StopMicro;
                 MicroController.Event StopMicroTask (OnExit code)] w in
    micro_state (payaraMicro w1) = STOPPED /\
    micro_debug (payaraMicro w1) = false /\
    MicroController.stopMicro host w1 =
      (Return tt, Micro.says w1 [ShowErrorMessage "Payara Micro instance not running."]).
Proof.
  intros host w code Hm Hs. cbn [MicroController.run MicroController.perform].
  destruct (stopMicro_launches host w Hm Hs) as (w' & E & Hi & Hl). rewrite E. cbn [snd].
  assert (Hst : micro_state (payaraMicro
                  (snd (MicroController.processEvent StopMicroTask (OnExit code) w'))) = STOPPED
                /\ micro_debug (payaraMicro
                  (snd (MicroController.processEvent StopMicroTask (OnExit code) w'))) = false).
  { unfold MicroController.processEvent. micro_unfold. rewrite Hl.
    cbn [existsb Task_eqb orb MicroController.exitCallback].
    unfold MicroController.stopMicro_exit. micro_unfold.
    destruct (negb (code =? 0)); split; reflexivity. }
  destruct Hst as [Hst Hdb]. repeat split; [exact Hst | exact Hdb |].
  unfold MicroController.stopMicro. micro_unfold. rewrite Hst. reflexivity.
Qed.

Lemma stopMicro_twice_second_is_refused_witness :
  micro_state (payaraMicro
    (MicroController.run Sample.host
       [MicroController.StopMicro; MicroController.Event StopMicroTask (OnExit 0)]
       (Sample.startedMicro RUNNING))) = STOPPED.
Proof.
  assert (Hs : micro_state (payaraMicro (Sample.startedMicro RUNNING)) <> STOPPED)
    by (simpl; discriminate).
  exact (proj1 (stopMicro_twice_second_is_refused Sample.host (Sample.startedMicro RUNNING) 0
                  sample_host_mavenAvailable Hs)).
Defined.

(** X7.  Bundling never changes the instance: neither the call of
    [bundleMicro], which has no guard on the state and may throw, nor any
    event of the process it spawned. *)
Theorem bundleMicro_never_changes_the_instance :
  forall host (w : MicroWorld) (ev : ProcessEvent),
    payaraMicro (snd (MicroController.bundleMicro host w)) = payaraMicro w /\
    payaraMicro (snd (MicroController.processEvent BundleMicroTask ev w)) = payaraMicro w.
Proof.
  intros host w ev. split.
  - unfold MicroController.bundleMicro. micro_unfold.
    pose proof (bundlePayaraMicro_instance host BundleMicroTask w) as H.
    destruct (Maven.bundlePayaraMicro host BundleMicroTask w) as [[p|e] w']; exact H.
  - unfold MicroController.processEvent. micro_unfold.
    destruct (existsb _ _); [|reflexivity].
    destruct ev as [chunk|code|message]; cbn; try reflexivity.
    unfold MicroController.bundleMicro_exit. micro_unfold.
    destruct (negb (code =? 0)); reflexivity.
Qed.

(** ** Micro: the data callback of a start *)

Lemma parseApplicationUrl_trace data (w : MicroWorld) :
  exists w',
    MicroController.parseApplicationUrl data w =
      (Return (JS.indexOf data "Payara Micro URLs:" >? -1), w') /\
    debugConfig w' = debugConfig w /\
    (trace w' = trace w \/ exists h, trace w' = (trace w ++ [Open h])%list).
Proof.
  unfold MicroController.parseApplicationUrl.
  destruct (JS.indexOf data "Payara Micro URLs:" >? -1).
  - destruct (Z.of_nat (length _) >? 1);
      [destruct (nth_error _ 1) as [line|]|];
      micro_unfold; simpl.
    + destruct (JS.isEmpty line); simpl; eexists; (split; [reflexivity|]);
        simpl; split; eauto.
    + destruct (micro_homePage (payaraMicro w)) as [h|];
        [destruct (JS.isEmpty h)|]; simpl; eexists; (split; [reflexivity|]);
        simpl; split; eauto.
    + destruct (micro_homePage (payaraMicro w)) as [h|];
        [destruct (JS.isEmpty h)|]; simpl; eexists; (split; [reflexivity|]);
        simpl; split; eauto.
  - exists w. micro_unfold. repeat split. left; reflexivity.
Qed.

Lemma startMicro_data_debugger data (w : MicroWorld) :
  let w' := snd (MicroController.startMicro_data data w) in
  (debuggerStarts w' = debuggerStarts w /\ debugConfig w' = debugConfig w) \/
  (debuggerStarts w' = S (debuggerStarts w) /\ debugConfig w' = None /\
   debugConfig w <> None).
Proof.
  unfold MicroController.startMicro_data, debuggerStarts. micro_unfold.
  destruct (InstanceState_eqb _ RUNNING); cbn [negb]; [left; split; reflexivity|].
  destruct (debugConfig w) as [c|] eqn:Hc;
    [destruct (JS.indexOf data "Listening for transport dt_socket at address:" >? -1)|];
    match goal with
    | |- context [MicroController.parseApplicationUrl ?d ?W] =>
        destruct (parseApplicationUrl_trace d W) as (w2 & E & Hd & Ht);
        rewrite E
    end;
    cbn [trace debugConfig] in Hd, Ht;
    destruct (JS.indexOf data "Payara Micro URLs:" >? -1); cbn [snd trace debugConfig];
    destruct Ht as [Ht | [h Ht]]; rewrite ?Ht, ?Hd;
    rewrite ?filter_app, ?length_app; cbn; rewrite ?Hc;
    try (left; split; [lia | reflexivity]);
    try (right; repeat split; [lia | discriminate]).
Qed.

(** X8.  Over the chunks of one output stream the data callback of
    [startMicro] asks the debugger to attach at most once, and never when
    the start was made without a debug configuration. *)
Theorem debugger_is_attached_at_most_once :
  forall (chunks : list string) (w : MicroWorld),
    (debuggerStarts (MicroController.feed chunks w) <= S (debuggerStarts w))%nat /\
    (debugConfig w = None ->
     debuggerStarts (MicroController.feed chunks w) = debuggerStarts w).
Proof.
  induction chunks as [|c chunks IH]; intros w; cbn [MicroController.feed].
  - split; [lia | reflexivity].
  - destruct (IH (snd (MicroController.startMicro_data c w))) as [IH1 IH2].
    destruct (startMicro_data_debugger c w) as [[Hn Hd] | (Hn & Hd & Hw)]; cbv zeta in *.
    + split; [lia|]. intros Hnone. rewrite IH2; [exact Hn | congruence].
    + split; [rewrite (IH2 Hd); lia | intros Hnone; congruence].
Qed.

Lemma debugger_is_attached_at_most_once_witness :
  debuggerStarts
    (MicroController.feed ["Listening for transport dt_socket at address: 5005"]
       (Sample.micro LODING)) = debuggerStarts (Sample.micro LODING).
Proof.
  apply (debugger_is_attached_at_most_once
           ["Listening for transport dt_socket at address: 5005"] (Sample.micro LODING)).
  reflexivity.
Defined.

Lemma startMicro_data_without_marker data (w : MicroWorld) :
  ~ occurs "Payara Micro URLs:" data ->
  payaraMicro (snd (MicroController.startMicro_data data w)) = payaraMicro w /\
  filter isRefresh (trace (snd (MicroController.startMicro_data data w)))
    = filter isRefresh (trace w) /\
  filter isOpen (trace (snd (MicroController.startMicro_data data w)))
    = filter isOpen (trace w).
Proof.
  intros Hno.
  assert (Hidx : (JS.indexOf data "Payara Micro URLs:" >? -1) = false).
  { destruct (JS.indexOf data "Payara Micro URLs:" >? -1) eqn:E; [|reflexivity].
    exfalso. apply Hno. now apply indexOf_occurs. }
  unfold MicroController.startMicro_data, MicroController.parseApplicationUrl.
  micro_unfold. rewrite Hidx.
  destruct (InstanceState_eqb _ RUNNING); cbn [negb]; [repeat split|].
  destruct (debugConfig w) as [c|];
    [destruct (JS.indexOf data "Listening for transport dt_socket at address:" >? -1)|];
    cbn; repeat split; rewrite ?filter_app; cbn; rewrite ?app_nil_r; reflexivity.
Qed.

(** X9.  The ready marker is looked for in each chunk on its own.  When no
    chunk of the stream contains the whole marker, the instance is exactly
    as before (state, home page, debug flag, process handle), no observer
    was notified and no page was opened, even if the marker is there once
    the chunks are put together. *)
Theorem marker_split_over_chunks_is_not_seen :
  forall (chunks : list string) (w : MicroWorld),
    (forall c, In c chunks -> ~ occurs "Payara Micro URLs:" c) ->
    payaraMicro (MicroController.feed chunks w) = payaraMicro w /\
    MicroController.notifications (MicroController.feed chunks w) =
      MicroController.notifications w /\
    filter isOpen (trace (MicroController.feed chunks w)) = filter isOpen (trace w).
Proof.
  induction chunks as [|c chunks IH]; intros w Hno; cbn [MicroController.feed].
  - repeat split.
  - destruct (startMicro_data_without_marker c w (Hno c (or_introl eq_refl)))
      as (H1 & H2 & H3).
    destruct (IH (snd (MicroController.startMicro_data c w))) as (I1 & I2 & I3).
    { intros c' Hin. apply Hno. now right. }
    unfold MicroController.notifications in *.
    repeat split; congruence.
Qed.

Lemma no_marker_in (s : string) :
  JS.indexOf s "Payara Micro URLs:" = -1 -> ~ occurs "Payara Micro URLs:" s.
Proof. intros H. apply (indexOf_from_absent 0); [exact H | lia]. Qed.

Lemma marker_split_over_chunks_is_not_seen_witness :
  occurs "Payara Micro URLs:" ("Payara Micro" ++ " URLs:" ++ JS.nl ++ "http://localhost:8080" ++ JS.nl) /\
  payaraMicro
    (MicroController.feed
       ["Payara Micro"; " URLs:" ++ JS.nl ++ "http://localhost:8080" ++ JS.nl]
       (Sample.micro LODING))
  = payaraMicro (Sample.micro LODING).
Proof.
  split.
  - exists "", (JS.nl ++ "http://localhost:8080" ++ JS.nl). reflexivity.
  - apply (marker_split_over_chunks_is_not_seen
             ["Payara Micro"; " URLs:" ++ JS.nl ++ "http://localhost:8080" ++ JS.nl]
             (Sample.micro LODING)).
    intros c [<- | [<- | []]]; apply no_marker_in; reflexivity.
Defined.

Lemma drop_app pre s : JS.drop (String.length pre) (pre ++ s) = s.
Proof. induction pre as [|c pre IH]; [destruct s; reflexivity | exact IH]. Qed.

Lemma substring_app pre s :
  JS.substring (pre ++ s) (Z.of_nat (String.length pre)) = s.
Proof.
  unfold JS.substring. rewrite Z.max_r by lia. rewrite Nat2Z.id. apply drop_app.
Qed.

Lemma contains_app c a b : contains c (a ++ b) = contains c a || contains c b.
Proof.
  induction a as [|d a IH]; [reflexivity|]. simpl. rewrite IH. apply orb_assoc.
Qed.

Lemma split_without sep s : contains sep s = false -> JS.split sep s = [s].
Proof.
  induction s as [|c s IH]; [reflexivity|]. simpl. intros H.
  apply orb_false_iff in H. destruct H as [Hc Hs]. rewrite Hc, (IH Hs). reflexivity.
Qed.

Lemma split_app_sep sep a b :
  contains sep a = false ->
  JS.split sep (a ++ String sep b) = a :: JS.split sep b.
Proof.
  induction a as [|c a IH]; simpl.
  - intros _. now rewrite Ascii.eqb_refl.
  - intros H. apply orb_false_iff in H. destruct H as [Hc Ha].
    rewrite Hc, (IH Ha). reflexivity.
Qed.

(** The world after [parseApplicationUrl] found the marker, by the lines of
    the text from the marker on. *)
Lemma parseApplicationUrl_lines pre rest (w : MicroWorld) :
  JS.indexOf (pre ++ rest) "Payara Micro URLs:" = Z.of_nat (String.length pre) ->
  MicroController.parseApplicationUrl (pre ++ rest) w =
    match nth_error (JS.split JS.LF rest) 1 with
    | Some line =>
        (Return true,
         {| payaraMicro := {| micro_state := micro_state (payaraMicro w);
                              micro_debug := micro_debug (payaraMicro w);
                              micro_homePage := Some line;
                              micro_process := micro_process (payaraMicro w) |};
            debugConfig := debugConfig w; listening := listening w;
            trace := if JS.isEmpty line then trace w else trace w ++ [Open line] |})
    | None =>
        (Return true,
         match micro_homePage (payaraMicro w) with
         | Some h => if JS.isEmpty h then w else Micro.says w [Open h]
         | None => w
         end)
    end.
Proof.
  intros Hidx. unfold MicroController.parseApplicationUrl. cbv zeta.
  rewrite Hidx, substring_app.
  assert (Hpos : (Z.of_nat (String.length pre) >? -1) = true) by (apply Z.gtb_lt; lia).
  rewrite Hpos.
  destruct (JS.split JS.LF rest) as [|l0 [|l1 ls]] eqn:Hsplit; cbn [length nth_error].
  - micro_unfold. cbn.
    destruct (micro_homePage (payaraMicro w)) as [h|]; [destruct (JS.isEmpty h)|];
      cbn; rewrite ?micro_world_eta; reflexivity.
  - micro_unfold. cbn.
    destruct (micro_homePage (payaraMicro w)) as [h|]; [destruct (JS.isEmpty h)|];
      cbn; rewrite ?micro_world_eta; reflexivity.
  - assert (Hlen : (Z.of_nat (S (S (length ls))) >? 1) = true) by (apply Z.gtb_lt; lia).
    rewrite Hlen. micro_unfold. cbn. destruct (JS.isEmpty l1); reflexivity.
Qed.

Lemma string_app_assoc (a b c : string) : (a ++ b) ++ c = a ++ b ++ c.
Proof. induction a as [|x a IH]; [reflexivity | simpl; now rewrite IH]. Qed.

Lemma string_app_nil_r (a : string) : a ++ "" = a.
Proof. induction a as [|x a IH]; [reflexivity | simpl; now rewrite IH]. Qed.

(** The data callback on a chunk in which the marker is found, for an
    instance that is not RUNNING. *)
Lemma startMicro_data_with_marker pre rest (w : MicroWorld) :
  JS.indexOf (pre ++ rest) "Payara Micro URLs:" = Z.of_nat (String.length pre) ->
  micro_state (payaraMicro w) <> RUNNING ->
  let w' := snd (MicroController.startMicro_data (pre ++ rest) w) in
  micro_state (payaraMicro w') = RUNNING /\
  micro_homePage (payaraMicro w') =
    match nth_error (JS.split JS.LF rest) 1 with
    | Some line => Some line
    | None => micro_homePage (payaraMicro w)
    end /\
  filter isOpen (trace w') =
    (filter isOpen (trace w) ++
     match nth_error (JS.split JS.LF rest) 1 with
     | Some line => if JS.isEmpty line then [] else [Open line]
     | None => match micro_homePage (payaraMicro w) with
               | Some h => if JS.isEmpty h then [] else [Open h]
               | None => []
               end
     end)%list.
Proof.
  intros Hidx Hs. apply InstanceState_eqb_neq in Hs.
  unfold MicroController.startMicro_data.
  cbv beta iota delta [bind ret get when Micro.isStarted Micro.getInstance].
  rewrite Hs. cbn [negb].
  destruct (micro_homePage (payaraMicro w)) as [h|] eqn:Hh;
    [destruct (JS.isEmpty h) eqn:He|];
    (destruct (debugConfig w) as [c|];
     [destruct (JS.indexOf (pre ++ rest) "Listening for transport dt_socket at address:" >? -1)|]);
    micro_unfold; rewrite (parseApplicationUrl_lines pre rest _ Hidx);
    (destruct (nth_error (JS.split JS.LF rest) 1) as [line|];
     [destruct (JS.isEmpty line)|]);
    cbn; rewrite ?Hh; cbn; rewrite ?He; cbn;
    repeat split; rewrite ?filter_app; cbn; rewrite ?app_nil_r;
    try reflexivity; exact Hh.
Qed.

(** X10.  When the chunk that carries the ready marker ends before the
    line feed that follows the marker, the instance becomes RUNNING with
    the home page it had before, and whatever arrives in later chunks, the
    address included, is not recorded any more. *)
Theorem marker_at_end_of_chunk_loses_the_home_page :
  forall pre tail (later : list string) (w : MicroWorld),
    JS.indexOf (pre ++ "Payara Micro URLs:" ++ tail) "Payara Micro URLs:"
      = Z.of_nat (String.length pre) ->
    contains JS.LF tail = false ->
    micro_state (payaraMicro w) <> RUNNING ->
    let w' := MicroController.feed ((pre ++ "Payara Micro URLs:" ++ tail) :: later) w in
    micro_state (payaraMicro w') = RUNNING /\
    micro_homePage (payaraMicro w') = micro_homePage (payaraMicro w).
Proof.
  intros pre tail later w Hidx Htail Hs. cbn [MicroController.feed].
  destruct (startMicro_data_with_marker pre ("Payara Micro URLs:" ++ tail) w Hidx Hs)
    as (H1 & H2 & _).
  rewrite split_without in H2
    by (rewrite contains_app, Htail; reflexivity).
  cbn [nth_error] in H2.
  rewrite feed_running by exact H1. split; assumption.
Qed.

Lemma marker_at_end_of_chunk_loses_the_home_page_witness :
  micro_homePage (payaraMicro
    (MicroController.feed
       ["[INFO] Payara Micro URLs:"; JS.nl ++ "http://localhost:8080" ++ JS.nl]
       (Sample.micro LODING))) = None.
Proof.
  apply (marker_at_end_of_chunk_loses_the_home_page "[INFO] " ""
           [JS.nl ++ "http://localhost:8080" ++ JS.nl] (Sample.micro LODING)).
  - reflexivity.
  - reflexivity.
  - simpl. discriminate.
Defined.

(** X11.  The home page is the line that follows the line of the first
    marker, whatever that line holds: text after the marker on its own line
    is skipped, the next line is stored as it is, and it is opened in the
    browser unless it is empty.  The instance becomes RUNNING. *)
Theorem home_page_is_the_line_after_the_marker :
  forall pre skipped line rest (w : MicroWorld),
    JS.indexOf (pre ++ "Payara Micro URLs:" ++ skipped ++ JS.nl ++ line ++ rest)
               "Payara Micro URLs:" = Z.of_nat (String.length pre) ->
    contains JS.LF skipped = false ->
    contains JS.LF line = false ->
    (rest = "" \/ exists more, rest = JS.nl ++ more) ->
    micro_state (payaraMicro w) <> RUNNING ->
    let w' := snd (MicroController.startMicro_data
                     (pre ++ "Payara Micro URLs:" ++ skipped ++ JS.nl ++ line ++ rest) w) in
    micro_state (payaraMicro w') = RUNNING /\
    micro_homePage (payaraMicro w') = Some line /\
    filter isOpen (trace w') =
      (filter isOpen (trace w) ++ if JS.isEmpty line then [] else [Open line])%list.
Proof.
  intros pre skipped line rest w Hidx Hsk Hline Hrest Hs.
  destruct (startMicro_data_with_marker pre
              ("Payara Micro URLs:" ++ skipped ++ JS.nl ++ line ++ rest) w Hidx Hs)
    as (H1 & H2 & H3).
  assert (Hsplit : nth_error
            (JS.split JS.LF ("Payara Micro URLs:" ++ skipped ++ JS.nl ++ line ++ rest)) 1
          = Some line).
  { rewrite <- string_app_assoc.
    change (JS.nl ++ line ++ rest) with (String JS.LF (line ++ rest)).
    rewrite split_app_sep by (rewrite contains_app, Hsk; reflexivity).
    cbn [nth_error].
    destruct Hrest as [-> | [more ->]].
    - rewrite string_app_nil_r, split_without by exact Hline. reflexivity.
    - change (JS.nl ++ more) with (String JS.LF more).
      rewrite split_app_sep by exact Hline. reflexivity. }
  rewrite Hsplit in H2, H3. repeat split; assumption.
Qed.

Lemma home_page_is_the_line_after_the_marker_witness :
  micro_homePage (payaraMicro
    (snd (MicroController.startMicro_data
            ("[INFO] " ++ "Payara Micro URLs:" ++ " (2)" ++ JS.nl
             ++ "http://host:8080/app" ++ (JS.nl ++ "http://host:8080/other"))
            (Sample.micro LODING))))
  = Some "http://host:8080/app".
Proof.
  apply (home_page_is_the_line_after_the_marker "[INFO] " " (2)" "http://host:8080/app"
           (JS.nl ++ "http://host:8080/other") (Sample.micro LODING)).
  - reflexivity.
  - reflexivity.
  - reflexivity.
  - right. eexists. reflexivity.
  - simpl. discriminate.
Defined.

(** ** Micro: the home page over a run *)

Lemma startMicro_data_homePage data (w : MicroWorld) :
  micro_homePage (payaraMicro (snd (MicroController.startMicro_data data w)))
    = micro_homePage (payaraMicro w) \/
  exists line,
    micro_homePage (payaraMicro (snd (MicroController.startMicro_data data w))) = Some line.
Proof.
  unfold MicroController.startMicro_data, MicroController.parseApplicationUrl.
  micro_unfold.
  destruct (InstanceState_eqb _ RUNNING); cbn [negb]; [left; reflexivity|].
  destruct (debugConfig w) as [c|];
    [destruct (JS.indexOf data "Listening for transport dt_socket at address:" >? -1)|];
    (destruct (JS.indexOf data "Payara Micro URLs:" >? -1); [|left; reflexivity]);
    (destruct (Z.of_nat (length _) >? 1);
     [destruct (nth_error _ 1) as [line|]|]);
    cbn;
    try (destruct (JS.isEmpty line); cbn; right; eexists; reflexivity);
    (destruct (micro_homePage (payaraMicro w)) as [h|] eqn:Hh;
     [destruct (JS.isEmpty h)|]; cbn; left; auto).
Qed.

Lemma perform_homePage_frame host a (w : MicroWorld) :
  (forall chunk, a <> MicroController.Event StartMicroTask (OnData chunk)) ->
  micro_homePage (payaraMicro (snd (MicroController.perform host a w)))
    = micro_homePage (payaraMicro w).
Proof.
  intros Hnot.
  destruct a as [debug| | | |t ev]; cbn [MicroController.perform].
  - unfold MicroController.startMicro. micro_unfold.
    destruct (InstanceState_eqb _ STOPPED); cbn [negb]; [|reflexivity].
    match goal with
    | |- context [Maven.startPayaraMicro host ?dc ?t ?W] =>
        pose proof (startPayaraMicro_instance host dc t W) as H;
        destruct (Maven.startPayaraMicro host dc t W) as [[[p|]|e] w']
    end; cbn in H |- *; rewrite ?H; reflexivity.
  - unfold MicroController.reloadMicro. micro_unfold.
    destruct (InstanceState_eqb _ STOPPED); [reflexivity|].
    match goal with
    | |- context [Maven.reloadPayaraMicro host ?t ?W] =>
        pose proof (reloadPayaraMicro_instance host t W) as H;
        destruct (Maven.reloadPayaraMicro host t W) as [[[p|]|e] w']
    end; cbn in H |- *; rewrite ?H; reflexivity.
  - unfold MicroController.stopMicro. micro_unfold.
    destruct (InstanceState_eqb _ STOPPED); [reflexivity|].
    pose proof (stopPayaraMicro_instance host StopMicroTask w) as H.
    destruct (Maven.stopPayaraMicro host StopMicroTask w) as [[p|e] w'];
      cbn in H |- *; rewrite H; reflexivity.
  - unfold MicroController.bundleMicro. micro_unfold.
    pose proof (bundlePayaraMicro_instance host BundleMicroTask w) as H.
    destruct (Maven.bundlePayaraMicro host BundleMicroTask w) as [[p|e] w'];
      cbn in H |- *; rewrite H; reflexivity.
  - unfold MicroController.processEvent. micro_unfold.
    destruct (existsb _ _); [|reflexivity].
    destruct ev as [chunk|code|message].
    + destruct t; cbn [MicroController.dataCallback]; try reflexivity.
      exfalso. exact (Hnot chunk eq_refl).
    + destruct t; cbn [MicroController.exitCallback];
        unfold MicroController.startMicro_exit, MicroController.reloadMicro_exit,
          MicroController.stopMicro_exit, MicroController.bundleMicro_exit;
        micro_unfold; destruct (negb (code =? 0)); reflexivity.
    + destruct t; reflexivity.
Qed.

(** X12.  What changes the home page.  It changes only when a chunk that
    contains the marker arrives from the start process while the instance
    is not RUNNING: every command (start, reload, stop, bundle) and every
    other process event leaves it as it is.  A home page that is defined
    never becomes undefined again in any run; it can be replaced, by the
    line after a later marker, which may be the empty text. *)
Theorem home_page_changes_only_with_a_banner :
  forall host (w : MicroWorld),
    (forall a,
       micro_homePage (payaraMicro (snd (MicroController.perform host a w)))
         <> micro_homePage (payaraMicro w) ->
       micro_state (payaraMicro w) <> RUNNING /\
       exists chunk,
         a = MicroController.Event StartMicroTask (OnData chunk) /\
         occurs "Payara Micro URLs:" chunk) /\
    (forall actions,
       micro_homePage (payaraMicro w) <> None ->
       micro_homePage (payaraMicro (MicroController.run host actions w)) <> None).
Proof.
  intros host w. split.
  - intros a Hchg.
    destruct (match a with
              | MicroController.Event StartMicroTask (OnData _) => true
              | _ => false
              end) eqn:Hk.
    + destruct a as [| | | |[] [chunk| |]]; try discriminate.
      cbn [MicroController.perform] in Hchg.
      unfold MicroController.processEvent in Hchg.
      cbv beta iota delta [bind ret get modify Micro.emit] in Hchg.
      destruct (existsb (Task_eqb StartMicroTask) (listening w));
        [|exfalso; apply Hchg; reflexivity].
      cbn [MicroController.dataCallback] in Hchg.
      split.
      * intros Hrun. apply Hchg.
        rewrite startMicro_data_running by exact Hrun. reflexivity.
      * exists chunk. split; [reflexivity|].
        destruct (JS.indexOf chunk "Payara Micro URLs:" >? -1) eqn:Hidx;
          [now apply indexOf_occurs|].
        exfalso. apply Hchg.
        assert (Hno : ~ occurs "Payara Micro URLs:" chunk).
        { intros Hocc. apply indexOf_occurs in Hocc. congruence. }
        destruct (startMicro_data_without_marker chunk
                    {| payaraMicro := payaraMicro w; debugConfig := debugConfig w;
                       listening := listening w;
                       trace := trace w ++ [OutputAppend chunk] |} Hno) as (E & _).
        rewrite E. reflexivity.
    + exfalso. apply Hchg. apply perform_homePage_frame.
      intros chunk ->. discriminate.
  - intros actions. revert w.
    induction actions as [|a actions IH]; intros w Hw; cbn [MicroController.run]; [exact Hw|].
    apply IH.
    destruct (match a with
              | MicroController.Event StartMicroTask (OnData _) => true
              | _ => false
              end) eqn:Hk.
    + destruct a as [| | | |[] [chunk| |]]; try discriminate.
      cbn [MicroController.perform]. unfold MicroController.processEvent. micro_unfold.
      destruct (existsb _ _); [|exact Hw]. cbn [MicroController.dataCallback].
      destruct (startMicro_data_homePage chunk
                  {| payaraMicro := payaraMicro w; debugConfig := debugConfig w;
                     listening := listening w;
                     trace := trace w ++ [OutputAppend chunk] |}) as [E | [line E]];
        rewrite E; [exact Hw | discriminate].
    + rewrite perform_homePage_frame; [exact Hw|].
      intros chunk ->. discriminate.
Qed.

Lemma home_page_changes_only_with_a_banner_witness :
  micro_homePage (payaraMicro
    (MicroController.run Sample.host
       [MicroController.StopMicro; MicroController.Event StopMicroTask (OnExit 0);
        MicroController.StartMicro false;
        MicroController.Event StartMicroTask
          (OnData ("Payara Micro URLs:" ++ JS.nl ++ JS.nl))]
       (Sample.startedMicro RUNNING))) <> None /\
  micro_homePage (payaraMicro
    (MicroController.run Sample.host
       [MicroController.StopMicro; MicroController.Event StopMicroTask (OnExit 0);
        MicroController.StartMicro false;
        MicroController.Event StartMicroTask
          (OnData ("Payara Micro URLs:" ++ JS.nl ++ JS.nl))]
       (Sample.startedMicro RUNNING))) = Some "".
Proof.
  split; [|reflexivity].
  apply (proj2 (home_page_changes_only_with_a_banner Sample.host (Sample.startedMicro RUNNING))).
  simpl. discriminate.
Defined.

(** ** Server: start, restart and stop from the call to the last callback *)

(** X13.  A start of a stopped server whose process was created: the call
    leaves the server in LODING with the debug flag asked for, the
    listeners of the process and the probe pending.  When the probe finds
    the server the state is RUNNING; when it gives up the state is STOPPED
    and the failure is shown, and the debug flag keeps the value of the
    failed start. *)
Theorem startServer_then_probe :
  forall startTask (debug : bool) (callback : option Callback) (s : ServerWorld),
    server_state (payaraServer s) = STOPPED ->
    pid (startTask debug) <> None ->
    let s1 := snd (Server.startServer startTask debug callback s) in
    let alive := snd (Server.handle (StartProbe callback) Alive s1) in
    let timeout := snd (Server.handle (StartProbe callback) Timeout s1) in
    payaraServer s1 = {| server_state := LODING; server_debug := debug |} /\
    pending s1 = (pending s ++ [ProcessListeners; StartProbe callback])%list /\
    server_trace s1 =
      (server_trace s ++ [StartTaskSpawn debug; Refresh; OutputShow; CheckAliveUsingRest])%list /\
    payaraServer alive = {| server_state := RUNNING; server_debug := debug |} /\
    payaraServer timeout = {| server_state := STOPPED; server_debug := debug |} /\
    In (ShowErrorMessage "Unable to start the Payara Server.") (server_trace timeout).
Proof.
  intros startTask debug callback s Hs Hpid.
  unfold Server.startServer. server_unfold. rewrite Hs. cbn [InstanceState_eqb negb].
  destruct (pid (startTask debug)) as [n|]; [|congruence].
  cbn [snd payaraServer pending server_trace Server.handle].
  repeat split.
  - rewrite <- !app_assoc. reflexivity.
  - rewrite <- !app_assoc. reflexivity.
  - unfold Server.startServer_alive, Server.call, Server.deploy. server_unfold.
    destruct callback as [[fsPath]|]; cbn;
      [destruct (JS.endsWith fsPath ".war" || JS.endsWith fsPath ".jar")|]; reflexivity.
  - unfold Server.startServer_timeout, Server.call, Server.deploy. server_unfold.
    destruct callback as [[fsPath]|]; reflexivity.
  - unfold Server.startServer_timeout, Server.call, Server.deploy. server_unfold.
    destruct callback as [[fsPath]|]; cbn; apply in_or_app; right; left; reflexivity.
Qed.

Lemma startServer_then_probe_witness :
  payaraServer
    (snd (Server.handle (StartProbe None) Timeout
            (snd (Server.startServer Sample.startTask true None (Sample.server STOPPED false)))))
  = {| server_state := STOPPED; server_debug := true |}.
Proof.
  assert (Hp : pid (Sample.startTask true) <> None) by (simpl; discriminate).
  exact (proj1 (proj2 (proj2 (proj2 (proj2
    (startServer_then_probe Sample.startTask true None (Sample.server STOPPED false)
       eq_refl Hp)))))).
Defined.

(** X14.  A deployment to a stopped server whose process cannot be created
    is dropped without a word: [deployApp] calls [startServer], the process
    that [StartTask] returns has no pid, and nothing else happens: no state
    change, no message, no probe, no callback kept, no upload. *)
Theorem deploy_is_dropped_when_server_process_has_no_pid :
  forall startTask (fsPath : string) (debug : bool) (s : ServerWorld),
    server_state (payaraServer s) = STOPPED ->
    pid (startTask debug) = None ->
    Server.deployApp startTask fsPath debug Selected s =
      (Return tt, Server.says s [StartTaskSpawn debug]).
Proof.
  intros startTask fsPath debug s Hs Hpid.
  unfold Server.deployApp, Server.startServer. server_unfold.
  rewrite Hs. cbn. rewrite Hs. cbn. rewrite Hpid. reflexivity.
Qed.

Lemma deploy_is_dropped_when_server_process_has_no_pid_witness :
  Server.deployApp (fun _ => {| pid := None |}) "/work/app.war" false Selected
    (Sample.server STOPPED false) =
  (Return tt, Server.says (Sample.server STOPPED false) [StartTaskSpawn false]).
Proof.
  apply (deploy_is_dropped_when_server_process_has_no_pid
           (fun _ => {| pid := None |}) "/work/app.war" false (Sample.server STOPPED false));
    reflexivity.
Defined.

(** X15.  A deployment to a server that is starting or restarting is
    dropped: [deployApp] goes to [startServer], which refuses with the
    message that the server is already running; the deployment is neither
    made nor kept for later. *)
Theorem deploy_is_dropped_while_server_is_loading :
  forall startTask (fsPath : string) (debug : bool) (s : ServerWorld),
    server_state (payaraServer s) = LODING \/ server_state (payaraServer s) = RESTARTING ->
    Server.deployApp startTask fsPath debug Selected s =
      (Return tt,
       Server.says s [ShowErrorMessage "Payara Server instance already running."]).
Proof.
  intros startTask fsPath debug s Hs.
  unfold Server.deployApp, Server.startServer. server_unfold.
  destruct Hs as [Hs | Hs]; rewrite Hs; cbn; rewrite Hs; reflexivity.
Qed.

Lemma deploy_is_dropped_while_server_is_loading_witness :
  Server.deployApp Sample.startTask "/work/app.war" false Selected
    (Sample.server RESTARTING false) =
  (Return tt,
   Server.says (Sample.server RESTARTING false)
     [ShowErrorMessage "Payara Server instance already running."]).
Proof.
  apply (deploy_is_dropped_while_server_is_loading Sample.startTask "/work/app.war" false
           (Sample.server RESTARTING false)).
  right. reflexivity.
Defined.

(** X16.  The exit of the old process during a restart.  After
    [restartServer] and the answer 200 the server is RESTARTING with the
    debug flag asked for, and both probes are pending.  The exit of the
    process in that state is ignored, and the probe then brings the server
    to RUNNING.  The same exit delivered after the probe has confirmed
    RUNNING is not ignored: it sets the server to STOPPED. *)
Theorem restart_ignores_exit_only_while_restarting :
  forall (debug : bool) (callback : option Callback) (code : Z) (s : ServerWorld),
    server_state (payaraServer s) <> STOPPED ->
    let s1 := snd (Server.restartServer debug callback s) in
    let s2 := snd (Server.handle (RestartResponse debug callback) (Response 200) s1) in
    let exitFirst := snd (Server.handle ProcessListeners (ProcessExit code) s2) in
    let aliveFirst := snd (Server.handle (RestartProbe callback) Alive s2) in
    payaraServer s2 = {| server_state := RESTARTING; server_debug := debug |} /\
    pending s2 =
      (pending s ++ [RestartResponse debug callback; RestartProbe callback; RestartJPS])%list /\
    exitFirst = s2 /\
    server_state (payaraServer
      (snd (Server.handle (RestartProbe callback) Alive exitFirst))) = RUNNING /\
    server_state (payaraServer aliveFirst) = RUNNING /\
    server_state (payaraServer
      (snd (Server.handle ProcessListeners (ProcessExit code) aliveFirst))) = STOPPED.
Proof.
  intros debug callback code s Hs. apply InstanceState_eqb_neq in Hs.
  unfold Server.restartServer. server_unfold. rewrite Hs.
  cbn [snd Server.handle]. unfold Server.restartServer_response. server_unfold.
  cbn [Z.eqb Pos.eqb snd payaraServer pending server_trace].
  assert (Halive : forall w,
             server_state (payaraServer
               (snd (Server.handle (RestartProbe callback) Alive w))) = RUNNING).
  { intros w. cbn [Server.handle].
    unfold Server.restartServer_alive, Server.call, Server.deploy. server_unfold.
    destruct callback as [[fsPath]|]; cbn;
      [destruct (JS.endsWith fsPath ".war" || JS.endsWith fsPath ".jar")|]; reflexivity. }
  assert (Hexit : forall w,
             server_state (payaraServer w) = RUNNING ->
             server_state (payaraServer
               (snd (Server.handle ProcessListeners (ProcessExit code) w))) = STOPPED).
  { intros w Hw. cbn [Server.handle]. unfold Server.startServer_exit. server_unfold.
    rewrite Hw. reflexivity. }
  split; [reflexivity|].
  split; [rewrite <- !app_assoc; reflexivity|].
  split; [reflexivity|].
  split; [apply Halive|].
  split; [apply Halive|].
  apply Hexit, Halive.
Qed.

Lemma restart_ignores_exit_only_while_restarting_witness :
  payaraServer
    (snd (Server.handle (RestartResponse true None) (Response 200)
            (snd (Server.restartServer true None (Sample.server RUNNING false)))))
  = {| server_state := RESTARTING; server_debug := true |}.
Proof.
  assert (Hs : server_state (payaraServer (Sample.server RUNNING false)) <> STOPPED)
    by (simpl; discriminate).
  exact (proj1 (restart_ignores_exit_only_while_restarting true None 0
                  (Sample.server RUNNING false) Hs)).
Defined.

(** X17.  Stop twice in a row.  [stopServer] on a server that is not
    stopped sends stop-domain; the answer 200 sets STOPPED, clears the
    debug flag, waits two seconds, refreshes the list and disconnects the
    output.  A second [stopServer] is then refused with the message that
    the server is not running, and sends nothing. *)
Theorem stopServer_twice_second_is_refused :
  forall (s : ServerWorld),
    server_state (payaraServer s) <> STOPPED ->
    let s1 := snd (Server.stopServer s) in
    let s2 := snd (Server.handle StopResponse (Response 200) s1) in
    payaraServer s2 = {| server_state := STOPPED; server_debug := false |} /\
    server_trace s2 =
      (server_trace s ++
       [Invoke "stop-domain"; Sleep 2000; Refresh; DisconnectOutput])%list /\
    Server.stopServer s2 =
      (Return tt, Server.says s2 [ShowErrorMessage "Payara Server instance not running."]).
Proof.
  intros s Hs. apply InstanceState_eqb_neq in Hs.
  unfold Server.stopServer at 1 2. server_unfold. rewrite Hs.
  cbn [snd Server.handle]. unfold Server.stopServer_response. server_unfold.
  cbn [Z.eqb Pos.eqb snd payaraServer pending server_trace].
  split; [reflexivity|].
  split; [rewrite <- !app_assoc; reflexivity|].
  unfold Server.stopServer. server_unfold. reflexivity.
Qed.

Lemma stopServer_twice_second_is_refused_witness :
  payaraServer
    (snd (Server.handle StopResponse (Response 200)
            (snd (Server.stopServer (Sample.server RUNNING true)))))
  = {| server_state := STOPPED; server_debug := false |}.
Proof.
  assert (Hs : server_state (payaraServer (Sample.server RUNNING true)) <> STOPPED)
    by (simpl; discriminate).
  exact (proj1 (stopServer_twice_second_is_refused (Sample.server RUNNING true) Hs)).
Defined.

(** X18.  A deployment to a running server.  Unless debugging is asked
    for on a server that does not run in debug mode, the artifact is
    uploaded at once (or built and uploaded, when the path is neither a
    .war nor a .jar) and the server is not touched.  Otherwise [deployApp]
    only sends restart-domain and keeps the deployment as the completion
    callback.  From there: an answer other than 200 shows that the restart
    failed and the deployment is given up without a message of its own; an
    answer 200 uploads nothing yet, the probe that finds the server uploads
    the artifact once, and the probe that gives up shows that the
    deployment could not be made. *)
Theorem deploy_on_running_server_restarts_only_for_debug :
  forall startTask (fsPath : string) (debug : bool) (s : ServerWorld),
    server_state (payaraServer s) = RUNNING ->
    let upload := if JS.endsWith fsPath ".war" || JS.endsWith fsPath ".jar"
                  then DeployApplication fsPath
                  else BuildAndDeployApplication fsPath in
    let kept := RestartResponse debug (Some (Deploy fsPath)) in
    let s1 := snd (Server.deployApp startTask fsPath debug Selected s) in
    let s2 := snd (Server.handle kept (Response 200) s1) in
    (debug && negb (server_debug (payaraServer s)) = false ->
     Server.deployApp startTask fsPath debug Selected s = (Return tt, Server.says s [upload])) /\
    (debug && negb (server_debug (payaraServer s)) = true ->
     s1 = {| payaraServer := payaraServer s;
             pending := pending s ++ [kept];
             server_trace := server_trace s ++ [Invoke "restart-domain"] |} /\
     (forall statusCode,
        statusCode <> 200 ->
        server_trace (snd (Server.handle kept (Response statusCode) s1)) =
          (server_trace s ++ [Invoke "restart-domain";
                              ShowErrorMessage "Unable to restart the Payara Server."])%list) /\
     filter isUpload (server_trace s2) = filter isUpload (server_trace s) /\
     filter isUpload
       (server_trace (snd (Server.handle (RestartProbe (Some (Deploy fsPath))) Alive s2)))
       = (filter isUpload (server_trace s) ++ [upload])%list /\
     filter isUpload
       (server_trace (snd (Server.handle (RestartProbe (Some (Deploy fsPath))) Timeout s2)))
       = filter isUpload (server_trace s) /\
     In (ShowErrorMessage
           "Unable to deploy the application as Payara Server instance not running.")
        (server_trace (snd (Server.handle (RestartProbe (Some (Deploy fsPath))) Timeout s2)))).
Proof.
  intros startTask fsPath debug s Hs. cbv zeta.
  assert (Hcall : Server.deployApp startTask fsPath debug Selected s =
                  if debug && negb (server_debug (payaraServer s)) then
                    (Return tt,
                     {| payaraServer := payaraServer s;
                        pending := pending s ++ [RestartResponse debug (Some (Deploy fsPath))];
                        server_trace := server_trace s ++ [Invoke "restart-domain"] |})
                  else
                    (Return tt,
                     Server.says s
                       [if JS.endsWith fsPath ".war" || JS.endsWith fsPath ".jar"
                        then DeployApplication fsPath
                        else BuildAndDeployApplication fsPath])).
  { unfold Server.deployApp, Server.restartServer, Server.deploy. server_unfold.
    rewrite Hs. cbn.
    destruct (debug && negb (server_debug (payaraServer s))).
    - rewrite Hs. reflexivity.
    - destruct (JS.endsWith fsPath ".war" || JS.endsWith fsPath ".jar"); reflexivity. }
  rewrite Hcall. split; intros Hd; rewrite Hd; [reflexivity|].
  cbn [snd Server.handle].
  split; [reflexivity|].
  split.
  { intros statusCode Hc. apply Z.eqb_neq in Hc.
    unfold Server.restartServer_response. server_unfold. rewrite Hc. cbn.
    rewrite <- app_assoc. reflexivity. }
  unfold Server.restartServer_response, Server.restartServer_alive,
    Server.restartServer_timeout, Server.call, Server.deploy.
  server_unfold. cbn [Z.eqb Pos.eqb snd server_trace payaraServer pending].
  split; [|split; [|split]].
  - rewrite !filter_app. cbn. now rewrite !app_nil_r.
  - destruct (JS.endsWith fsPath ".war" || JS.endsWith fsPath ".jar");
      cbn; rewrite !filter_app; cbn; now rewrite !app_nil_r.
  - rewrite !filter_app. cbn. now rewrite !app_nil_r.
  - apply in_or_app. left. apply in_or_app. right. left. reflexivity.
Qed.

Lemma deploy_on_running_server_restarts_only_for_debug_witness :
  server_trace
    (snd (Server.deployApp Sample.startTask "/work/app" true Selected
            (Sample.server RUNNING true)))
  = [BuildAndDeployApplication "/work/app"] /\
  pending
    (snd (Server.deployApp Sample.startTask "/work/app.war" true Selected
            (Sample.server RUNNING false)))
  = [RestartResponse true (Some (Deploy "/work/app.war"))].
Proof.
  destruct (deploy_on_running_server_restarts_only_for_debug Sample.startTask "/work/app" true
              (Sample.server RUNNING true) eq_refl) as [H1 _].
  destruct (deploy_on_running_server_restarts_only_for_debug Sample.startTask "/work/app.war"
              true (Sample.server RUNNING false) eq_refl) as [_ H2].
  split.
  - rewrite (H1 eq_refl). reflexivity.
  - destruct (H2 eq_refl) as [E _]. rewrite E. reflexivity.
Defined.

(** ** The project wizard *)

Lemma startsWithWhiteSpace_head c rest :
  JSText.startsWithWhiteSpace (String c rest) = true ->
  asciiWhiteSpace c = true \/ (128 <= nat_of_ascii c)%nat.
Proof.
  unfold JSText.startsWithWhiteSpace. intros H.
  apply existsb_exists in H. destruct H as [ws [Hin Hp]].
  apply prefix_app in Hp. destruct Hp as [post E].
  unfold JSText.whiteSpace in Hin. cbn [map] in Hin.
  repeat (destruct Hin as [<- | Hin];
          [cbn in E; injection E as -> _;
           first [left; reflexivity | right; cbn; lia] |]).
  destruct Hin.
Qed.

Lemma asciiWhiteSpace_starts c rest :
  asciiWhiteSpace c = true -> JSText.startsWithWhiteSpace (String c rest) = true.
Proof.
  intros H.
  assert (Hc : In (String c EmptyString) JSText.whiteSpace).
  { unfold asciiWhiteSpace, JSText.between in H.
    apply orb_true_iff in H. destruct H as [H | H].
    - apply andb_true_iff in H. destruct H as [Hlo Hhi].
      apply Nat.leb_le in Hlo. apply Nat.leb_le in Hhi.
      rewrite <- (ascii_nat_embedding c).
      assert (Hn : (nat_of_ascii c = 9 \/ nat_of_ascii c = 10 \/ nat_of_ascii c = 11 \/
                    nat_of_ascii c = 12 \/ nat_of_ascii c = 13)%nat) by lia.
      destruct Hn as [-> | [-> | [-> | [-> | ->]]]]; cbn; tauto.
    - apply Ascii.eqb_eq in H. subst c. cbn. tauto. }
  unfold JSText.startsWithWhiteSpace. apply existsb_exists.
  exists (String c EmptyString). split; [exact Hc|].
  apply prefix_app. exists rest. reflexivity.
Qed.

Lemma testWhiteSpace_of_ascii value c :
  In c (list_ascii_of_string value) -> asciiWhiteSpace c = true ->
  JSText.testWhiteSpace value = true.
Proof.
  induction value as [|d value IH]; cbn [list_ascii_of_string]; intros Hin Hc; [destruct Hin|].
  cbn [JSText.testWhiteSpace]. destruct Hin as [-> | Hin].
  - rewrite (asciiWhiteSpace_starts c value Hc). reflexivity.
  - rewrite (IH Hin Hc). apply orb_true_r.
Qed.

Lemma testWhiteSpace_plain value :
  (forall c, In c (list_ascii_of_string value) ->
             (nat_of_ascii c < 128)%nat /\ asciiWhiteSpace c = false) ->
  JSText.testWhiteSpace value = false.
Proof.
  induction value as [|d value IH]; intros H; [reflexivity|].
  cbn [JSText.testWhiteSpace]. rewrite IH.
  - rewrite orb_false_r.
    destruct (JSText.startsWithWhiteSpace (String d value)) eqn:E; [|reflexivity].
    destruct (H d (or_introl eq_refl)) as [Hlt Hws].
    destruct (startsWithWhiteSpace_head d value E) as [Hw | Hge]; [congruence | lia].
  - intros c Hin. apply H. right. exact Hin.
Qed.

(** X19.  [validate] rejects the empty text as empty and every text with a
    blank, a tab, a line feed or another white space character of ASCII as
    containing spaces, with the name of the field at the head of the
    message; it accepts every other text made of ASCII characters. *)
Theorem validate_rejects_empty_and_white_space :
  forall (type value : string),
    (value = "" -> Generator.validate type value = Some (type ++ " cannot be empty")) /\
    (forall c,
       In c (list_ascii_of_string value) -> asciiWhiteSpace c = true ->
       Generator.validate type value = Some (type ++ " cannot contain spaces")) /\
    (value <> "" ->
     (forall c, In c (list_ascii_of_string value) ->
                (nat_of_ascii c < 128)%nat /\ asciiWhiteSpace c = false) ->
     Generator.validate type value = None).
Proof.
  intros type value. unfold Generator.validate. repeat split.
  - intros ->. reflexivity.
  - intros c Hin Hc. destruct value as [|d value]; [destruct Hin|].
    cbn [JS.isEmpty]. rewrite (testWhiteSpace_of_ascii _ c Hin Hc). reflexivity.
  - intros Hne Hplain. destruct value as [|d value]; [congruence|].
    cbn [JS.isEmpty]. rewrite (testWhiteSpace_plain _ Hplain). reflexivity.
Qed.

Lemma validate_rejects_empty_and_white_space_witness :
  Generator.validate "Group Id" "" = Some "Group Id cannot be empty" /\
  Generator.validate "Group Id" "org example" = Some "Group Id cannot contain spaces" /\
  Generator.validate "Group Id" "org.example" = None.
Proof.
  destruct (validate_rejects_empty_and_white_space "Group Id" "") as (H1 & _ & _).
  destruct (validate_rejects_empty_and_white_space "Group Id" "org example") as (_ & H2 & _).
  destruct (validate_rejects_empty_and_white_space "Group Id" "org.example") as (_ & _ & H3).
  split; [apply H1; reflexivity|].
  split; [apply (H2 " "%char); [cbn; tauto | reflexivity]|].
  apply H3; [discriminate|].
  intros c Hin. cbn in Hin.
  repeat (destruct Hin as [<- | Hin]; [split; [cbn; lia | reflexivity]|]).
  destruct Hin.
Defined.

Lemma orElse_filled x d : d <> "" -> Generator.filled (Some (Generator.orElse x d)).
Proof.
  intros Hd. eexists. split; [reflexivity|].
  unfold Generator.orElse. destruct x as [[|c v]|]; [exact Hd | discriminate | exact Hd].
Qed.

Lemma wizard_returns :
  forall (answers : Answers) (w : GeneratorWorld),
    match answer_fileUris answers with
    | None => Generator.wizard answers w = (Return None, w)
    | Some uris =>
        exists project w',
          Generator.wizard answers w = (Return (Some project), w') /\
          Generator.filled (Project.groupId project) /\
          Generator.filled (Project.artifactId project) /\
          Generator.filled (Project.version project) /\
          Generator.filled (Project.contextRoot project) /\
          Generator.filled (Project.package project) /\
          Project.payaraMicroVersion project = Some (answer_pick answers) /\
          Project.targetFolder project = nth_error uris 0 /\
          gen_listening w' = gen_listening w /\
          (gen_trace w' = gen_trace w \/
           gen_trace w' =
             (gen_trace w ++ [GenShowErrorMessage "Selected path is invalid."])%list)
    end.
Proof.
  intros answers w. unfold Generator.wizard, Generator.selectTargetFolder. cbv zeta.
  destruct (answer_fileUris answers) as [uris|]; [|reflexivity].
  cbv beta iota delta [bind ret when modify Generator.emit].
  destruct (match uris with [] => true | first :: _ => JS.isEmpty (fsPath first) end);
    (eexists; eexists; split; [reflexivity|]); cbn;
    (repeat (split; [first [apply orElse_filled; discriminate | reflexivity]|]));
    auto.
Qed.


(** X20.  The wizard hands a project to its callback exactly when the
    folder dialog was not dismissed, and in that project no text field is
    undefined or empty, whatever was typed: group id, artifact id, version,
    context root and package fall back to their defaults.  The version of
    Payara Micro is the one picked and the target folder is the first
    folder selected, undefined when the selection is empty; the only
    message the wizard can show is that the selected path is invalid. *)
Theorem wizard_fills_every_text_field :
  forall (answers : Answers) (w : GeneratorWorld),
    match answer_fileUris answers with
    | None => Generator.wizard answers w = (Return None, w)
    | Some uris =>
        exists project w',
          Generator.wizard answers w = (Return (Some project), w') /\
          Generator.filled (Project.groupId project) /\
          Generator.filled (Project.artifactId project) /\
          Generator.filled (Project.version project) /\
          Generator.filled (Project.contextRoot project) /\
          Generator.filled (Project.package project) /\
          Project.payaraMicroVersion project = Some (answer_pick answers) /\
          Project.targetFolder project = nth_error uris 0 /\
          gen_listening w' = gen_listening w /\
          (gen_trace w' = gen_trace w \/
           gen_trace w' =
             (gen_trace w ++ [GenShowErrorMessage "Selected path is invalid."])%list)
    end.
Proof. exact wizard_returns. Qed.

Lemma createProject_callback_launches host project u (w : GeneratorWorld) home :
  Project.targetFolder project = Some u ->
  Generator.filled (Project.artifactId project) ->
  Maven.getDefaultHome host = Some home ->
  JS.isEmpty home = false ->
  existsSync host (Maven.getExecutableFullPath host home) = true ->
  exists w',
    Generator.createProject_callback host project w = (Return tt, w') /\
    gen_trace w' =
      (gen_trace w ++
       GenSpawn (Maven.getExecutableFullPath host home) (Generator.cmdArgs project)
         (Some (fsPath u))
       :: match pid (spawn host (Maven.getExecutableFullPath host home)
                       (Generator.cmdArgs project)) with
          | Some _ => [GenOutputShow]
          | None => []
          end)%list.
Proof.
  intros Ht (v & Ha & Hv) Hhome Hne Hexe.
  unfold Generator.createProject_callback, Generator.generateMicroProject. cbv zeta.
  rewrite Ht, Ha, Hhome, Hne, Hexe. cbn [negb option_map].
  destruct v as [|c v]; [congruence|]. cbn [JS.isEmpty].
  cbv beta iota delta [bind ret when modify Generator.emit Generator.attach].
  destruct (pid _); cbn; eexists; (split; [reflexivity|]); cbn;
    rewrite <- ?app_assoc; reflexivity.
Qed.

(** X21.  When Maven is launched to generate a project.  A dismissed
    folder dialog ends [createProject] with nothing observed.  An empty
    selection is reported as an invalid path and nothing is launched.  A
    selection with a first folder launches mvn archetype:generate in that
    folder, where Maven is installed, with the fields of the wizard as
    arguments; a first folder with an empty path is reported as invalid and
    Maven is launched all the same. *)
Theorem createProject_launches_maven_for_a_selected_folder :
  forall host (answers : Answers) (w : GeneratorWorld),
    (answer_fileUris answers = None ->
     Generator.createProject host answers w = (Return tt, w)) /\
    (answer_fileUris answers = Some [] ->
     Generator.createProject host answers w =
       (Return tt,
        {| gen_listening := gen_listening w;
           gen_trace := gen_trace w ++ [GenShowErrorMessage "Selected path is invalid."] |})) /\
    (forall u rest home,
       answer_fileUris answers = Some (u :: rest) ->
       Maven.getDefaultHome host = Some home ->
       JS.isEmpty home = false ->
       existsSync host (Maven.getExecutableFullPath host home) = true ->
       let w' := snd (Generator.createProject host answers w) in
       exists args,
         filter isGenSpawn (gen_trace w') =
           (filter isGenSpawn (gen_trace w) ++
            [GenSpawn (Maven.getExecutableFullPath host home) args (Some (fsPath u))])%list /\
         nth_error args 0 = Some "archetype:generate" /\
         (fsPath u = "" ->
          In (GenShowErrorMessage "Selected path is invalid.") (gen_trace w'))).
Proof.
  intros host answers w. split; [|split].
  - intros Hf. unfold Generator.createProject, Generator.wizard, Generator.selectTargetFolder.
    rewrite Hf. reflexivity.
  - intros Hf. unfold Generator.createProject, Generator.wizard, Generator.selectTargetFolder.
    rewrite Hf. reflexivity.
  - intros u rest home Hf Hhome Hne Hexe.
    pose proof (wizard_returns answers w) as Hw. rewrite Hf in Hw.
    destruct Hw as (project & w1 & E & _ & Hart & _ & _ & _ & _ & Hfolder & _ & Htrace).
    cbn [nth_error] in Hfolder.
    unfold Generator.createProject, bind. rewrite E.
    destruct (createProject_callback_launches host project u w1 home
                Hfolder Hart Hhome Hne Hexe) as (w2 & E2 & Ht2).
    rewrite E2. cbn [snd]. exists (Generator.cmdArgs project).
    split; [|split].
    + rewrite Ht2, filter_app. cbn [filter isGenSpawn].
      assert (Hno : filter isGenSpawn
                      match pid (spawn host (Maven.getExecutableFullPath host home)
                                   (Generator.cmdArgs project)) with
                      | Some _ => [GenOutputShow]
                      | None => []
                      end = []) by (destruct (pid _); reflexivity).
      rewrite Hno.
      destruct Htrace as [-> | ->]; [reflexivity|].
      rewrite filter_app. cbn. now rewrite app_nil_r.
    + reflexivity.
    + intros Hu. rewrite Ht2. apply in_or_app. left.
      assert (Ew : gen_trace w1 =
                   (gen_trace w ++ [GenShowErrorMessage "Selected path is invalid."])%list).
      { unfold Generator.wizard, Generator.selectTargetFolder in E. rewrite Hf, Hu in E.
        cbn in E. injection E as _ <-. reflexivity. }
      rewrite Ew. apply in_or_app. right. left. reflexivity.
Qed.

Lemma createProject_launches_maven_for_a_selected_folder_witness :
  exists args,
    filter isGenSpawn
      (gen_trace (snd (Generator.createProject Sample.host Fixture.answers Generator.initial)))
    = [GenSpawn "/opt/maven/bin/mvn" args (Some "/work")] /\
    nth_error args 0 = Some "archetype:generate".
Proof.
  destruct (createProject_launches_maven_for_a_selected_folder Sample.host Fixture.answers
              Generator.initial) as (_ & _ & H).
  destruct (H {| fsPath := "/work" |} [] "/opt/maven" eq_refl eq_refl eq_refl eq_refl)
    as (args & H1 & H2 & _).
  exists args. split; [exact H1 | exact H2].
Defined.

(** X22.  The context root asked for in the fourth step is stored in the
    project and used for nothing: whatever is typed there, [createProject]
    does the same, down to the arguments given to Maven. *)
Theorem context_root_answer_has_no_effect :
  forall host (answers : Answers) (contextRoot : option string) (w : GeneratorWorld),
    Generator.createProject host (Generator.withContextRoot contextRoot answers) w =
    Generator.createProject host answers w.
Proof.
  intros host answers contextRoot w.
  unfold Generator.createProject, Generator.wizard, Generator.selectTargetFolder,
    Generator.withContextRoot. cbv zeta. cbn [answer_fileUris answer_groupId answer_artifactId
    answer_version answer_contextRoot answer_packageName answer_pick].
  destruct (answer_fileUris answers) as [uris|]; [|reflexivity].
  cbv beta iota delta [bind ret when modify Generator.emit].
  destruct (match uris with [] => true | first :: _ => JS.isEmpty (fsPath first) end);
    cbn; unfold Generator.createProject_callback; cbn;
    (destruct (nth_error uris 0); [|reflexivity]);
    (destruct (JS.isEmpty _); [reflexivity|]);
    unfold Generator.generateMicroProject, Generator.cmdArgs; reflexivity.
Qed.

(** ** Maven: the artifact that a build hands over *)

Lemma find_app {A} (p : A -> bool) (l1 l2 : list A) :
  find p (l1 ++ l2)%list =
  match find p l1 with
  | Some x => Some x
  | None => find p l2
  end.
Proof. induction l1 as [|x l1 IH]; [reflexivity|]. simpl. destruct (p x); auto. Qed.

Lemma isArtifact_with_reader finalName name (w : list BuildEffect) :
  MavenBuild.isArtifact (Some finalName) name w =
  (Return (MavenBuild.accepted finalName name), w).
Proof.
  unfold MavenBuild.isArtifact, MavenBuild.accepted, MavenBuild.getBuildReader.
  destruct (JS.endsWith name ".war"); [reflexivity|].
  destruct (JS.endsWith name ".jar"); reflexivity.
Qed.

Lemma selectArtifact_last path_join finalName targetDir artifacts acc
      (w : list BuildEffect) :
  MavenBuild.selectArtifact path_join (Some finalName) targetDir artifacts acc w =
  (Return match find (MavenBuild.accepted finalName) (rev artifacts) with
          | Some name => Some (path_join targetDir name)
          | None => acc
          end, w).
Proof.
  revert acc. induction artifacts as [|name rest IH]; intros acc; [reflexivity|].
  cbn [MavenBuild.selectArtifact rev]. unfold bind.
  rewrite isArtifact_with_reader. rewrite IH, find_app. cbn [find].
  destruct (find (MavenBuild.accepted finalName) (rev rest)); [reflexivity|].
  destruct (MavenBuild.accepted finalName name); reflexivity.
Qed.

(** X23.  The exit callback of [buildProject].  After a build that ended
    with exit code 0, in a project with a target directory, the callback
    receives one artifact: the last entry of the target directory whose
    name ends in .war or .jar or is the final name of the build.  When no
    entry qualifies, the message "null not found." is shown and the
    callback is not called.  After a build that ended with another exit
    code nothing is looked up and nothing is handed over: there is a
    warning on the console, and no message for the user. *)
Theorem buildProject_hands_over_the_last_artifact :
  forall host path_join readdirSync finalName fsPath (code : Z) (w : list BuildEffect),
    workspaceFolder host = Some fsPath ->
    existsSync host (path_join fsPath "target") = true ->
    MavenBuild.buildProject_exit host path_join readdirSync (Some finalName) code w =
      (Return tt,
       (w ++
        [if code =? 0 then
           match find (MavenBuild.accepted finalName)
                      (rev (readdirSync (path_join fsPath "target"))) with
           | Some name => ArtifactBuilt (path_join (path_join fsPath "target") name)
           | None => BuildShowErrorMessage "null not found."
           end
         else
           BuildConsoleWarn ("buildProject task failed with exit code " ++ JS.ofNumber code)])%list).
Proof.
  intros host path_join readdirSync finalName fsPath code w Hws Hdir.
  unfold MavenBuild.buildProject_exit, MavenBuild.getBuildDir. rewrite Hws. cbv zeta.
  rewrite Hdir. cbn [negb andb].
  destruct (code =? 0); cbn [andb negb].
  - unfold bind at 1. unfold bind at 1. unfold ret at 1.
    unfold bind at 1. rewrite selectArtifact_last.
    destruct (find _ _); reflexivity.
  - reflexivity.
Qed.

Lemma buildProject_hands_over_the_last_artifact_witness :
  MavenBuild.buildProject_exit Sample.host Fixture.path_join Fixture.readdirSync
    (Some "shop-1.0") 0 [] =
  (Return tt, [ArtifactBuilt "/work/app/target/shop-1.0"]).
Proof.
  rewrite (buildProject_hands_over_the_last_artifact Sample.host Fixture.path_join
             Fixture.readdirSync "shop-1.0" "/work/app" 0 [] eq_refl eq_refl).
  reflexivity.
Defined.

(** ** Applications of a server *)

Lemma onData_setEnabled b chunks (w : ApplicationWorld) :
  Applications.onData chunks
    (fun _ => Applications.setEnabled b ;; Applications.refreshServerList) w =
  (Return tt,
   match chunks with
   | [] => w
   | _ :: _ =>
       {| application := {| app_name := app_name (application w); app_enabled := b |};
          deployed := deployed w;
          app_trace := app_trace w ++ repeat Refresh (length chunks) |}
   end).
Proof.
  revert w. induction chunks as [|c chunks IH]; intros w; [reflexivity|].
  cbn [Applications.onData]. unfold bind at 1.
  cbv beta iota delta [bind ret modify Applications.setEnabled
                        Applications.refreshServerList Applications.emit].
  cbn [application deployed app_trace app_name].
  rewrite IH. destruct chunks as [|c' chunks]; cbn; [reflexivity|].
  rewrite <- app_assoc. reflexivity.
Qed.

Lemma onData_remove chunks (w : ApplicationWorld) :
  Applications.onData chunks
    (fun _ => Applications.removeApplication ;; Applications.refreshServerList) w =
  (Return tt,
   match chunks with
   | [] => w
   | _ :: _ =>
       {| application := application w; deployed := false;
          app_trace := app_trace w ++ repeat Refresh (length chunks) |}
   end).
Proof.
  revert w. induction chunks as [|c chunks IH]; intros w; [reflexivity|].
  cbn [Applications.onData]. unfold bind at 1.
  cbv beta iota delta [bind ret modify Applications.removeApplication
                        Applications.refreshServerList Applications.emit].
  cbn [application deployed app_trace].
  rewrite IH. destruct chunks as [|c' chunks]; cbn; [reflexivity|].
  rewrite <- app_assoc. reflexivity.
Qed.

(** X24.  Undeploy, enable and disable act on the body of the answer, not
    on the answer itself.  An answer with a status other than 200, and an
    answer 200 whose body is empty, change nothing: the application stays
    listed and keeps its flag, and the list is not refreshed.  An answer
    200 with a body takes the application off the list (undeploy) or sets
    its flag (enable, disable), and refreshes the list once for every chunk
    of the body. *)
Theorem application_changes_with_the_body_of_a_200_answer :
  forall (statusCode : Z) (chunks : list string) (w : ApplicationWorld),
    (statusCode <> 200 \/ chunks = [] ->
     Applications.undeployApp_response statusCode chunks w = (Return tt, w) /\
     Applications.enableApp_response statusCode chunks w = (Return tt, w) /\
     Applications.disableApp_response statusCode chunks w = (Return tt, w)) /\
    (chunks <> [] ->
     Applications.undeployApp_response 200 chunks w =
       (Return tt,
        {| application := application w; deployed := false;
           app_trace := app_trace w ++ repeat Refresh (length chunks) |}) /\
     Applications.enableApp_response 200 chunks w =
       (Return tt,
        {| application := {| app_name := app_name (application w); app_enabled := true |};
           deployed := deployed w;
           app_trace := app_trace w ++ repeat Refresh (length chunks) |}) /\
     Applications.disableApp_response 200 chunks w =
       (Return tt,
        {| application := {| app_name := app_name (application w); app_enabled := false |};
           deployed := deployed w;
           app_trace := app_trace w ++ repeat Refresh (length chunks) |})).
Proof.
  intros statusCode chunks w.
  unfold Applications.undeployApp_response, Applications.enableApp_response,
    Applications.disableApp_response, when.
  split.
  - intros [Hc | ->].
    + apply Z.eqb_neq in Hc. rewrite Hc. repeat split.
    + destruct (statusCode =? 200); repeat split.
  - intros Hne. cbn [Z.eqb Pos.eqb].
    rewrite onData_remove, !onData_setEnabled.
    destruct chunks as [|c chunks]; [congruence|]. repeat split.
Qed.

Lemma application_changes_with_the_body_of_a_200_answer_witness :
  Applications.undeployApp_response 200 [] Fixture.application
    = (Return tt, Fixture.application) /\
  app_enabled (application
    (snd (Applications.enableApp_response 200 ["{"; "}"] Fixture.application))) = true.
Proof.
  destruct (application_changes_with_the_body_of_a_200_answer 200 [] Fixture.application)
    as [H1 _].
  destruct (application_changes_with_the_body_of_a_200_answer 200 ["{"; "}"]
              Fixture.application) as [_ H2].
  split.
  - apply H1. right. reflexivity.
  - destruct (H2 ltac:(discriminate)) as (_ & E & _). rewrite E. reflexivity.
Defined.

Lemma hexDigit_safe k : ~ In (JSText.hexDigit k) Applications.queryDelimiters.
Proof.
  unfold JSText.hexDigit, Applications.queryDelimiters.
  do 16 (destruct k as [|k];
         [cbn; intros H; repeat (destruct H as [H | H]; [discriminate H|]); exact H|]).
  destruct k; cbn; intros H; repeat (destruct H as [H | H]; [discriminate H|]); exact H.
Qed.

Lemma unreserved_safe c :
  JSText.unreserved c = true -> ~ In c Applications.queryDelimiters.
Proof.
  intros Hu Hin. unfold Applications.queryDelimiters in Hin. cbn in Hin.
  repeat (destruct Hin as [<- | Hin]; [discriminate Hu|]). exact Hin.
Qed.

Lemma encodeURIComponent_safe name c :
  In c (list_ascii_of_string (JSText.encodeURIComponent name)) ->
  ~ In c Applications.queryDelimiters.
Proof.
  induction name as [|d name IH]; cbn [JSText.encodeURIComponent]; [intros []|].
  destruct (JSText.unreserved d) eqn:Hd.
  - cbn. intros [<- | Hin]; [now apply unreserved_safe | now apply IH].
  - unfold JSText.percent. cbn.
    intros [<- | [<- | [<- | Hin]]];
      [cbn; intros H; repeat (destruct H as [H | H]; [discriminate H|]); exact H
      | apply hexDigit_safe | apply hexDigit_safe | now apply IH].
Qed.

(** X25.  The name of an application cannot change the shape of the admin
    request.  [undeployApp], [enableApp] and [disableApp] send "undeploy",
    "enable" and "disable" with one query parameter whose value is the
    encoded name, and the encoded name holds none of the characters
    & = ? # / + or a blank, whatever the name is. *)
Theorem application_name_cannot_alter_the_request :
  forall (w : ApplicationWorld),
    let value := JSText.encodeURIComponent (app_name (application w)) in
    Applications.undeployApp w =
      (Return tt, {| application := application w; deployed := deployed w;
                     app_trace := app_trace w ++ [Invoke ("undeploy?name=" ++ value)] |}) /\
    Applications.enableApp w =
      (Return tt, {| application := application w; deployed := deployed w;
                     app_trace := app_trace w ++ [Invoke ("enable?DEFAULT=" ++ value)] |}) /\
    Applications.disableApp w =
      (Return tt, {| application := application w; deployed := deployed w;
                     app_trace := app_trace w ++ [Invoke ("disable?DEFAULT=" ++ value)] |}) /\
    (forall c, In c (list_ascii_of_string value) -> ~ In c Applications.queryDelimiters).
Proof.
  intros w value. repeat split. intros c. apply encodeURIComponent_safe.
Qed.

(** ** Server: where RESTARTING comes from *)

Ltac server_unfold_in H :=
  cbv beta iota delta
    [bind ret get modify when throw
     Server.emit Server.updInstance Server.register Server.says
     Server.getInstance Server.isStopped Server.isStarted Server.isRestarting
     Server.isDebug Server.setState Server.setStarted Server.setDebug
     Server.checkAliveStatusUsingRest Server.checkAliveStatusUsingJPS
     Server.invoke Server.refreshServerList] in H.

Lemma call_keeps_instance callback status (s : ServerWorld) :
  payaraServer (snd (Server.call callback status s)) = payaraServer s.
Proof.
  unfold Server.call, Server.deploy. server_unfold.
  destruct callback as [[fsPath]|]; [|reflexivity].
  destruct status; [destruct (JS.endsWith fsPath ".war" || JS.endsWith fsPath ".jar")|];
    reflexivity.
Qed.

(** X26.  A server becomes RESTARTING in one way only: through the answer
    200 to a restart-domain request.  No other callback of the controller
    and none of its operations (start, restart, stop, deploy) puts a server
    into RESTARTING that was not in it before. *)
Theorem server_restarting_only_after_restart_answer :
  forall startTask (s : ServerWorld),
    (forall l ev,
       server_state (payaraServer (snd (Server.handle l ev s))) = RESTARTING ->
       server_state (payaraServer s) = RESTARTING \/
       exists debug callback, l = RestartResponse debug callback /\ ev = Response 200) /\
    (forall debug callback,
       server_state (payaraServer (snd (Server.startServer startTask debug callback s)))
         = RESTARTING ->
       server_state (payaraServer s) = RESTARTING) /\
    (forall debug callback,
       server_state (payaraServer (snd (Server.restartServer debug callback s))) = RESTARTING ->
       server_state (payaraServer s) = RESTARTING) /\
    (server_state (payaraServer (snd (Server.stopServer s))) = RESTARTING ->
     server_state (payaraServer s) = RESTARTING) /\
    (forall fsPath debug sel,
       server_state (payaraServer (snd (Server.deployApp startTask fsPath debug sel s)))
         = RESTARTING ->
       server_state (payaraServer s) = RESTARTING).
Proof.
  intros startTask s.
  assert (Hstart : forall debug callback,
             server_state (payaraServer (snd (Server.startServer startTask debug callback s)))
               = RESTARTING ->
             server_state (payaraServer s) = RESTARTING).
  { intros debug callback. unfold Server.startServer. server_unfold.
    destruct (InstanceState_eqb _ STOPPED); cbn [negb]; [|exact (fun H => H)].
    destruct (pid (startTask debug)); cbn; [discriminate | exact (fun H => H)]. }
  assert (Hrestart : forall debug callback,
             server_state (payaraServer (snd (Server.restartServer debug callback s)))
               = RESTARTING ->
             server_state (payaraServer s) = RESTARTING).
  { intros debug callback. unfold Server.restartServer. server_unfold.
    destruct (InstanceState_eqb _ STOPPED); exact (fun H => H). }
  split; [|split; [exact Hstart | split; [exact Hrestart | split]]].
  - intros l ev H.
    destruct l as [| callback | debug callback | callback | |];
      destruct ev as [chunk | message | code | | | statusCode];
      cbn [Server.handle] in H; try (left; exact H).
    + unfold Server.startServer_exit in H. server_unfold_in H.
      destruct (InstanceState_eqb (server_state (payaraServer s)) RESTARTING) eqn:E;
        cbn in H; [left; now apply InstanceState_eqb_eq | discriminate].
    + unfold Server.startServer_alive in H.
      cbv beta iota delta [bind Server.setStarted Server.setState Server.updInstance modify
                             Server.refreshServerList Server.emit] in H.
      cbn [payaraServer pending server_trace] in H.
      rewrite call_keeps_instance in H. discriminate.
    + unfold Server.startServer_timeout in H.
      cbv beta iota delta [bind Server.setStarted Server.setState Server.updInstance modify
                             Server.refreshServerList Server.emit] in H.
      cbn [payaraServer pending server_trace] in H.
      pose proof (call_keeps_instance callback false
                    {| payaraServer := {| server_state := STOPPED;
                                          server_debug := server_debug (payaraServer s) |};
                       pending := pending s;
                       server_trace := server_trace s ++ [Refresh] |}) as Hk.
      destruct (Server.call callback false _) as [r s1]; destruct r; cbn in Hk, H;
        rewrite Hk in H; discriminate.
    + destruct (statusCode =? 200) eqn:Ec.
      * right. exists debug, callback. apply Z.eqb_eq in Ec. now subst.
      * left. unfold Server.restartServer_response in H. rewrite Ec in H. exact H.
    + unfold Server.restartServer_alive in H.
      cbv beta iota delta [bind Server.setStarted Server.setState Server.updInstance modify
                             Server.refreshServerList Server.emit] in H.
      cbn [payaraServer pending server_trace] in H.
      rewrite call_keeps_instance in H. discriminate.
    + unfold Server.restartServer_timeout in H.
      cbv beta iota delta [bind Server.setStarted Server.setState Server.updInstance modify
                             Server.refreshServerList Server.emit] in H.
      cbn [payaraServer pending server_trace] in H.
      pose proof (call_keeps_instance callback false
                    {| payaraServer := {| server_state := STOPPED;
                                          server_debug := server_debug (payaraServer s) |};
                       pending := pending s;
                       server_trace := server_trace s ++ [Refresh] |}) as Hk.
      destruct (Server.call callback false _) as [r s1]; destruct r; cbn in Hk, H;
        rewrite Hk in H; discriminate.
    + unfold Server.stopServer_response in H. server_unfold_in H.
      destruct (statusCode =? 200); cbn in H; [discriminate | left; exact H].
  - unfold Server.stopServer. server_unfold.
    destruct (InstanceState_eqb _ STOPPED); exact (fun H => H).
  - intros fsPath debug sel. destruct sel; cbn [Server.deployApp]; try exact (fun H => H).
    unfold bind at 1. unfold Server.isStarted, Server.getInstance. server_unfold.
    destruct (InstanceState_eqb _ RUNNING) eqn:Er; cbn [negb]; [|apply Hstart].
    destruct (debug && negb (server_debug (payaraServer s))); [apply Hrestart|].
    intros H. pose proof (call_keeps_instance (Some (Deploy fsPath)) true s) as Hk.
    cbn [Server.call] in Hk. rewrite Hk in H. exact H.
Qed.

Lemma server_restarting_only_after_restart_answer_witness :
  server_state (payaraServer (Sample.server RESTARTING true)) = RESTARTING \/
  exists debug callback,
    ProcessListeners = RestartResponse debug callback /\ ProcessExit 0 = Response 200.
Proof.
  apply (proj1 (server_restarting_only_after_restart_answer Sample.startTask
                  (Sample.server RESTARTING true)) ProcessListeners (ProcessExit 0)).
  reflexivity.
Defined.

Lemma fireCommand_home_not_found_iff_no_home_witness :
  fst (Maven.fireCommand
         {| config_maven_home := Some ""; env_M2_HOME := None; env_MAVEN_HOME := None;
            path_sep := "/"; IS_WIN := false; existsSync := fun _ => true;
            workspaceFolder := Some "/work/app";
            microPluginReader := Some Sample.reader; plugin := Sample.mavenPlugin;
            spawn := fun _ _ => {| pid := Some 4242 |};
            getWorkspaceFolder := true; getPayaraMicroDebugConfig := None;
            createDebugConfiguration := {| port := "5005" |} |}
         ["install"] BundleMicroTask (Sample.micro STOPPED))
  = Throw "Maven home path not found.".
Proof.
  apply fireCommand_home_not_found_iff_no_home. repeat split.
Defined.

Lemma application_name_cannot_alter_the_request_witness :
  ~ In "&"%char
      (list_ascii_of_string
         (JSText.encodeURIComponent (app_name (application Fixture.application)))).
Proof.
  intros H.
  apply (proj2 (proj2 (proj2
           (application_name_cannot_alter_the_request Fixture.application))) "&"%char H).
  cbn. tauto.
Defined.

(** * Stop and reload with the call that attaches the callbacks *)

Lemma stopMicro_not_launched host (w : MicroWorld) :
  micro_state (payaraMicro w) <> STOPPED ->
  (exists message, fst (MicroController.stopMicro host w) = Throw message) \/
  (forall exe args, pid (spawn host exe args) = None) ->
  payaraMicro (snd (MicroController.stopMicro host w)) = payaraMicro w /\
  listening (snd (MicroController.stopMicro host w)) = listening w.
Proof.
  intros Hs Hfail. apply InstanceState_eqb_neq in Hs.
  revert Hfail. unfold MicroController.stopMicro, Maven.stopPayaraMicro. micro_unfold.
  rewrite Hs.
  match goal with
  | |- context [Maven.fireCommand host ?c ?t w] =>
      destruct (fireCommand_cases host c t w) as [[message E] | [exe E]]; rewrite E
  end.
  - intros _. split; reflexivity.
  - cbn [fst snd]. intros [[message Hthrow] | Hpid]; [discriminate|].
    rewrite Hpid. split; reflexivity.
Qed.

(** C5 (as the code has it).  The call of [stopServer] on a server that
    is not stopped leaves the instance as it was (so does a call that is
    never answered), and an answer to stop-domain with a status other than
    200 leaves it exactly as it was too: only the request was observed.
    For a micro instance that is not stopped, the call of [stopMicro]
    itself never changes the instance.  Where the stop task is launched,
    its end stops the instance whether it succeeded or not: after the exit
    of the task, with whatever exit code, and after an error of the task,
    the debug flag is cleared and the state is STOPPED.  Where the stop
    task is not launched, because [fireCommand] throws or because the
    process has no pid, no callback is attached: with no earlier stop task
    still listened to, the instance stays as it is, whatever is reported
    for the task afterwards. *)
Theorem stop_failure_server_as_is_micro_stopped :
  forall host (s : ServerWorld) (m : MicroWorld) (statusCode code : Z) (message : string),
    (server_state (payaraServer s) <> STOPPED ->
     statusCode <> 200 ->
     let s' := snd (Server.handle StopResponse (Response statusCode)
                      (snd (Server.stopServer s))) in
     payaraServer (snd (Server.stopServer s)) = payaraServer s /\
     payaraServer s' = payaraServer s /\
     server_trace s' = (server_trace s ++ [Invoke "stop-domain"])%list) /\
    (micro_state (payaraMicro m) <> STOPPED ->
     payaraMicro (snd (MicroController.stopMicro host m)) = payaraMicro m /\
     (mavenAvailable host ->
      (let m' := MicroController.run host
                   [MicroController.StopMicro;
                    MicroController.Event StopMicroTask (OnExit code)] m in
       micro_state (payaraMicro m') = STOPPED /\ micro_debug (payaraMicro m') = false) /\
      (let m' := MicroController.run host
                   [MicroController.StopMicro;
                    MicroController.Event StopMicroTask (OnError message)] m in
       micro_state (payaraMicro m') = STOPPED /\ micro_debug (payaraMicro m') = false)) /\
     (existsb (Task_eqb StopMicroTask) (listening m) = false ->
      (exists thrown, fst (MicroController.stopMicro host m) = Throw thrown) \/
      (forall exe args, pid (spawn host exe args) = None) ->
      forall ev,
        payaraMicro (MicroController.run host
                       [MicroController.StopMicro;
                        MicroController.Event StopMicroTask ev] m)
        = payaraMicro m)).
Proof.
  intros host s m statusCode code message. split.
  - intros Hs Hc. apply InstanceState_eqb_neq in Hs. apply Z.eqb_neq in Hc.
    unfold Server.stopServer. server_unfold. rewrite Hs.
    cbn [snd Server.handle]. unfold Server.stopServer_response. server_unfold.
    rewrite Hc. repeat split; reflexivity.
  - intros Hs. split; [|split].
    + unfold MicroController.stopMicro. micro_unfold.
      destruct (InstanceState_eqb _ STOPPED); [reflexivity|].
      pose proof (stopPayaraMicro_instance host StopMicroTask m) as H.
      destruct (Maven.stopPayaraMicro host StopMicroTask m) as [[p|e] w']; exact H.
    + intros Hm. cbn [MicroController.run MicroController.perform].
      destruct (stopMicro_launches host m Hm Hs) as (w' & E & _ & Hl). rewrite E.
      cbn [snd]. unfold MicroController.processEvent. micro_unfold. rewrite Hl.
      cbn [existsb Task_eqb orb MicroController.exitCallback MicroController.errorCallback].
      split.
      * unfold MicroController.stopMicro_exit. micro_unfold.
        destruct (negb (code =? 0)); split; reflexivity.
      * split; reflexivity.
    + intros Hstale Hfail ev. cbn [MicroController.run MicroController.perform].
      destruct (stopMicro_not_launched host m Hs Hfail) as [Hi Hl].
      unfold MicroController.processEvent. micro_unfold. rewrite Hl, Hstale. exact Hi.
Qed.

Lemma stop_failure_server_as_is_micro_stopped_witness :
  payaraServer
    (snd (Server.handle StopResponse (Response 500)
            (snd (Server.stopServer (Sample.server RUNNING true)))))
  = payaraServer (Sample.server RUNNING true) /\
  micro_state (payaraMicro
    (MicroController.run Sample.host
       [MicroController.StopMicro; MicroController.Event StopMicroTask (OnError "mvn")]
       (Sample.startedMicro RUNNING))) = STOPPED /\
  payaraMicro
    (MicroController.run Sample.hostSpawnFails
       [MicroController.StopMicro; MicroController.Event StopMicroTask (OnExit 1)]
       (Sample.startedMicro RUNNING))
  = payaraMicro (Sample.startedMicro RUNNING).
Proof.
  destruct (stop_failure_server_as_is_micro_stopped Sample.host
              (Sample.server RUNNING true) (Sample.startedMicro RUNNING) 500 1 "mvn")
    as (H1 & H2).
  destruct (stop_failure_server_as_is_micro_stopped Sample.hostSpawnFails
              (Sample.server RUNNING true) (Sample.startedMicro RUNNING) 500 1 "mvn")
    as (_ & H3).
  assert (Hs : server_state (payaraServer (Sample.server RUNNING true)) <> STOPPED)
    by (simpl; discriminate).
  assert (Hm : micro_state (payaraMicro (Sample.startedMicro RUNNING)) <> STOPPED)
    by (simpl; discriminate).
  assert (Hc : 500 <> 200) by lia.
  split; [exact (proj1 (proj2 (H1 Hs Hc)))|].
  split.
  - destruct (H2 Hm) as (_ & H & _).
    exact (proj1 (proj2 (H sample_host_mavenAvailable))).
  - destruct (H3 Hm) as (_ & _ & H).
    apply H; [reflexivity | right; reflexivity].
Defined.

(** C5 as the specification words it fails on a micro instance: started,
    brought to RUNNING by the banner and then stopped by a stop task that
    ends with exit code 1, the instance is not left in the state it had
    when the stop was asked for. *)
Lemma micro_stop_failure_forces_stopped :
  ~ (micro_state (payaraMicro
       (MicroController.run Sample.host
          [MicroController.StartMicro false;
           MicroController.Event StartMicroTask (OnData Sample.banner);
           MicroController.StopMicro;
           MicroController.Event StopMicroTask (OnExit 1)]
          (Sample.micro STOPPED)))
     = micro_state (payaraMicro
       (MicroController.run Sample.host
          [MicroController.StartMicro false;
           MicroController.Event StartMicroTask (OnData Sample.banner)]
          (Sample.micro STOPPED)))).
Proof. vm_compute. discriminate. Qed.

(** C8 at the failing input.  An instance is started and brought to RUNNING
    by the banner.  [fireCommand] looks for the Maven executable at every
    call: with the executable gone by the time of the reload, [reloadMicro]
    sets LODING and ends with the exception of [fireCommand], and the
    instance stays in LODING.  When [cp.spawn] returns a process without
    pid, [reloadMicro] returns with the instance in LODING and no callback
    attached, so that neither an error nor the exit of the task brings it
    back to RUNNING. *)
Theorem reload_with_missing_executable_stays_loading :
  let running :=
    MicroController.run Sample.host
      [MicroController.StartMicro false;
       MicroController.Event StartMicroTask (OnData Sample.banner)]
      (Sample.micro STOPPED) in
  micro_state (payaraMicro running) = RUNNING /\
  fst (MicroController.reloadMicro Sample.hostWithoutMvn running)
    = Throw "Maven executable [/opt/maven/bin/mvn] not found" /\
  micro_state (payaraMicro (snd (MicroController.reloadMicro Sample.hostWithoutMvn running)))
    = LODING /\
  micro_state (payaraMicro
    (MicroController.run Sample.hostSpawnFails
       [MicroController.ReloadMicro;
        MicroController.Event ReloadMicroTask (OnError "spawn EAGAIN");
        MicroController.Event ReloadMicroTask (OnExit 1)]
       running)) = LODING.
Proof. repeat split. Qed.
